(** * User listing and profile endpoints: a shallow embedding

    The development embeds two request handlers of the repository,

    - [src/app/api/users/route.ts]   (the paginated user listing, [GET]) and
    - the profile route              ([getProfile] and [updateProfile]),

    together with the fragments of the JavaScript runtime and of the SQL
    engine they rely on: string tests, numbers, [parseInt], regular
    expressions, [Date], plain objects used as maps, joins, grouping,
    ordering and LIMIT/OFFSET.  Storage is an explicit value that the
    handlers read and return; the clock and the time zone are an
    explicit environment. *)

From stdpp Require Import base list gmap strings sorting fin_maps.
From Stdlib Require Import ZArith Lia Ascii.
From Stdlib Require String.

Local Open Scope Z_scope.

(** ** JavaScript runtime fragments *)

Module Js.

(** A JavaScript string is a sequence of UTF-16 code units.  The model
    keeps the code units below 256, one [ascii] each, so that
    [String.length] is the [length] property. *)

Definition code (c : ascii) : Z := Z.of_N (N_of_ascii c).

(** [\d] of a regular expression. *)
Definition is_digit (c : ascii) : bool :=
  (48 <=? code c) && (code c <=? 57).

(** [\s] of a regular expression, which is also the white space that
    [parseInt] skips: TAB, LF, VT, FF, CR, SP and NBSP are the members
    below 256. *)
Definition is_space (c : ascii) : bool :=
  ((9 <=? code c) && (code c <=? 13)) || (code c =? 32) || (code c =? 160).

(** [\S]. *)
Definition is_nonspace (c : ascii) : bool := negb (is_space c).

Definition is_char (a c : ascii) : bool := code c =? code a.

(** [!!s] and [s || d] on a value that is a string, [null] or
    [undefined]: only a non-empty string is truthy. *)
Definition truthy (s : option string) : bool :=
  match s with
  | Some (String _ _) => true
  | _ => false
  end.

Definition or_default (s : option string) (d : string) : string :=
  if truthy s then default d s else d.

(** *** Numbers

    A JavaScript number is a double.  The numbers of the listing are
    integers, and the model keeps them as the integers they are: every
    integer up to [2^53] in magnitude is a number, a greater one is a
    number when it fits into 53 significant bits, and an integer of
    magnitude [2^1024] or more stands for an infinity.  [to_number z] is
    the number nearest to the integer [z], the one with the even
    significand when two are as near. *)

Definition MAX_SAFE_INTEGER : Z := 2 ^ 53 - 1.

Definition to_number (z : Z) : Z :=
  let a := Z.abs z in
  if a <=? 2 ^ 53 then z
  else
    let e := Z.log2 a - 52 in
    let q := a / 2 ^ e in
    let r := a mod 2 ^ e in
    let half := 2 ^ (e - 1) in
    let q' :=
      if r <? half then q
      else if half <? r then q + 1
      else if Z.even q then q else q + 1 in
    Z.sgn z * (q' * 2 ^ e).

Definition is_finite (z : Z) : bool := Z.abs z <? 2 ^ 1024.

(** [a - b] and [a * b] on numbers that are integers. *)
Definition sub (a b : Z) : Z := to_number (a - b).
Definition mul (a b : Z) : Z := to_number (a * b).

(** *** [parseInt(s, 10)] *)

Fixpoint drop_spaces (l : list ascii) : list ascii :=
  match l with
  | c :: l' => if is_space c then drop_spaces l' else l
  | [] => []
  end.

Fixpoint leading_digits (l : list ascii) : list ascii :=
  match l with
  | c :: l' => if is_digit c then c :: leading_digits l' else []
  | [] => []
  end.

Definition digits_value (l : list ascii) : Z :=
  fold_left (fun acc c => 10 * acc + (code c - 48)) l 0.

(** [None] stands for [NaN]; the digits are read as the integer they
    write, and the result is the number nearest to it. *)
Definition parseInt (s : string) : option Z :=
  let l := drop_spaces (String.list_ascii_of_string s) in
  let '(sign, l) :=
    match l with
    | "-"%char :: l' => (-1, l')
    | "+"%char :: l' => (1, l')
    | _ => (1, l)
    end in
  match leading_digits l with
  | [] => None
  | ds => Some (sign * to_number (digits_value ds))
  end.

(** *** Regular expressions

    The two patterns of the profile route use character classes,
    concatenation, [+] and a bounded repetition, anchored at both ends.
    [RegExp_test] decides the match with Brzozowski derivatives. *)

Inductive regex : Type :=
  | Void
  | Eps
  | Class (p : ascii -> bool)
  | Cat (r1 r2 : regex)
  | Alt (r1 r2 : regex)
  | Star (r : regex).

Definition Plus (r : regex) : regex := Cat r (Star r).
Definition Opt (r : regex) : regex := Alt r Eps.

Fixpoint Times (n : nat) (r : regex) : regex :=
  match n with
  | O => Eps
  | S n' => Cat r (Times n' r)
  end.

(** [r{lo,lo+extra}] *)
Definition Repeat (lo extra : nat) (r : regex) : regex :=
  Cat (Times lo r) (Times extra (Opt r)).

Fixpoint nullable (r : regex) : bool :=
  match r with
  | Void => false
  | Eps => true
  | Class _ => false
  | Cat r1 r2 => nullable r1 && nullable r2
  | Alt r1 r2 => nullable r1 || nullable r2
  | Star _ => true
  end.

Fixpoint deriv (c : ascii) (r : regex) : regex :=
  match r with
  | Void => Void
  | Eps => Void
  | Class p => if p c then Eps else Void
  | Cat r1 r2 =>
      if nullable r1
      then Alt (Cat (deriv c r1) r2) (deriv c r2)
      else Cat (deriv c r1) r2
  | Alt r1 r2 => Alt (deriv c r1) (deriv c r2)
  | Star r1 => Cat (deriv c r1) (Star r1)
  end.

(** [/^r$/.test(s)] *)
Definition RegExp_test (r : regex) (s : string) : bool :=
  nullable (fold_left (fun r c => deriv c r) (String.list_ascii_of_string s) r).

(** The language of a pattern, against which [RegExp_test] is checked. *)
Inductive matches : regex -> list ascii -> Prop :=
  | m_eps : matches Eps []
  | m_class p c : p c = true -> matches (Class p) [c]
  | m_cat r1 r2 s1 s2 :
      matches r1 s1 -> matches r2 s2 -> matches (Cat r1 r2) (s1 ++ s2)
  | m_alt_l r1 r2 s : matches r1 s -> matches (Alt r1 r2) s
  | m_alt_r r1 r2 s : matches r2 s -> matches (Alt r1 r2) s
  | m_star_nil r : matches (Star r) []
  | m_star_cons r s1 s2 :
      matches r s1 -> matches (Star r) s2 -> matches (Star r) (s1 ++ s2).

(** *** Dates

    A [Date] is its time value, in milliseconds since the epoch, or
    [None] for an invalid date.  The host supplies the clock, the offset
    of local time from UTC and the parser of date strings. *)

Record Host : Type := {
  Date_now : Z;
  LocalTZA : Z;
  Date_parse : string -> option Z
}.

Definition msPerDay : Z := 1000 * 60 * 60 * 24.

(** [d.setHours(0, 0, 0, 0)]: midnight of the local day of [t]. *)
Definition setHours0 (h : Host) (t : Z) : Z :=
  let local := t + LocalTZA h in
  local - local mod msPerDay - LocalTZA h.

(** [a > b] on two dates; a comparison with an invalid date is false. *)
Definition date_gt (a : option Z) (b : Z) : bool :=
  match a with
  | Some t => b <? t
  | None => false
  end.

(** A host that reads the plainest forms of the language's date-time
    string format as Node does: [YYYY-MM-DD] as UTC midnight,
    [YYYY-MM-DDTHH:mm:ss] as local time and [YYYY-MM-DDTHH:mm:ssZ] as
    UTC; a day up to 31 is taken in any month and runs over into the
    next.  This host calls every other string invalid. *)

Definition days_from_civil (y m d : Z) : Z :=
  let y := if m <=? 2 then y - 1 else y in
  let era := y / 400 in
  let yoe := y - era * 400 in
  let doy := (153 * (if 2 <? m then m - 3 else m + 9) + 2) / 5 + d - 1 in
  let doe := yoe * 365 + yoe / 4 - yoe / 100 + doy in
  era * 146097 + doe - 719468.

Definition number (l : list ascii) : option Z :=
  if forallb is_digit l then Some (digits_value l) else None.

Definition iso_date (y m d : list ascii) : option Z :=
  y ← number y; m ← number m; d ← number d;
  if (1 <=? m) && (m <=? 12) && (1 <=? d) && (d <=? 31)
  then Some (days_from_civil y m d * msPerDay) else None.

Definition iso_time (hh mm ss : list ascii) : option Z :=
  hh ← number hh; mm ← number mm; ss ← number ss;
  if ((hh <=? 23) && (mm <=? 59) && (ss <=? 59))
     || ((hh =? 24) && (mm =? 0) && (ss =? 0))
  then Some (((hh * 60 + mm) * 60 + ss) * 1000) else None.

Definition iso_parse (tza : Z) (s : string) : option Z :=
  match String.list_ascii_of_string s with
  | [y1; y2; y3; y4; "-"; m1; m2; "-"; d1; d2]%char =>
      iso_date [y1; y2; y3; y4] [m1; m2] [d1; d2]
  | [y1; y2; y3; y4; "-"; m1; m2; "-"; d1; d2; "T";
     h1; h2; ":"; n1; n2; ":"; s1; s2]%char =>
      day ← iso_date [y1; y2; y3; y4] [m1; m2] [d1; d2];
      time ← iso_time [h1; h2] [n1; n2] [s1; s2];
      Some (day + time - tza)
  | [y1; y2; y3; y4; "-"; m1; m2; "-"; d1; d2; "T";
     h1; h2; ":"; n1; n2; ":"; s1; s2; "Z"]%char =>
      day ← iso_date [y1; y2; y3; y4] [m1; m2] [d1; d2];
      time ← iso_time [h1; h2] [n1; n2] [s1; s2];
      Some (day + time)
  | _ => None
  end.

Definition iso_host (now tza : Z) : Host :=
  {| Date_now := now; LocalTZA := tza; Date_parse := iso_parse tza |}.

(** *** Plain objects used as maps

    An object literal [{}] inherits from [Object.prototype].  A property
    read finds own properties first and inherited ones next; a write
    creates an own property, except for ["__proto__"], an accessor whose
    setter ignores every value that is neither an object nor [null]. *)

Inductive value : Type :=
  | VUndefined
  | VNum (n : Z)
  | VStr (s : string)
  | VBuiltin (name : string)      (* a built-in function *)
  | VObjectPrototype.             (* the object [Object.prototype] *)

Definition Object_prototype (k : string) : value :=
  if decide (k = "constructor") then VBuiltin "Object"
  else if decide (k = "__proto__") then VObjectPrototype
  else if decide (k ∈ ["hasOwnProperty"; "isPrototypeOf";
                       "propertyIsEnumerable"; "toLocaleString";
                       "toString"; "valueOf"; "__defineGetter__";
                       "__defineSetter__"; "__lookupGetter__";
                       "__lookupSetter__"])
  then VBuiltin k
  else VUndefined.

Definition get (o : gmap string value) (k : string) : value :=
  match o !! k with
  | Some v => v
  | None => Object_prototype k
  end.

Definition set (o : gmap string value) (k : string) (v : value)
  : gmap string value :=
  if decide (k = "__proto__") then o else <[k := v]> o.

(** [v || 0] *)
Definition or_zero (v : value) : value :=
  match v with
  | VUndefined => VNum 0
  | VNum 0 => VNum 0
  | VStr "" => VNum 0
  | _ => v
  end.

(** [v + 1]: addition on numbers, concatenation once an operand turns
    into a string. *)
Definition plus_one (v : value) : value :=
  match v with
  | VNum n => VNum (n + 1)
  | VStr s => VStr (s +:+ "1")
  | VBuiltin name => VStr ("function " +:+ name +:+ "() { [native code] }1")
  | VObjectPrototype => VStr "[object Object]1"
  | VUndefined => VUndefined        (* NaN; not reached after [|| 0] *)
  end.

(** [String(k)] of a property key that is a string or [null]. *)
Definition property_key (k : option string) : string :=
  default "null" k.

(** [Math.ceil(a / b)]; [None] stands for the non-finite results of a
    division by zero.  The quotient is exact on the integers a
    JavaScript number holds exactly. *)
Definition Math_ceil_div (a b : Z) : option Z :=
  if b =? 0 then None else Some (- ((- a) / b)).

(** [Math.floor(a / b)] for a positive [b]. *)
Definition Math_floor_div (a b : Z) : Z := a / b.

End Js.

(** ** The storage boundary *)

Module Storage.

(** A JSON document, as the [profile_json] column holds it and as the
    driver hands it to the handler.  Numbers are kept integral. *)
Local Unset Elimination Schemes.
Inductive Json : Type :=
  | JNull
  | JBool (b : bool)
  | JNum (n : Z)
  | JStr (s : string)
  | JArr (items : list Json)
  | JObj (fields : list (string * Json)).
Local Set Elimination Schemes.

(** Truthiness of a column value that may be SQL NULL. *)
Definition json_truthy (j : option Json) : bool :=
  match j with
  | None | Some JNull | Some (JBool false) | Some (JNum 0)
  | Some (JStr "") => false
  | Some _ => true
  end.

(** [j?.k]: the member [k] of an object, [undefined] on anything else. *)
Definition json_member (j : option Json) (k : string) : option Json :=
  match j with
  | Some (JObj fields) =>
      snd <$> List.find (fun kv => String.eqb (fst kv) k) (rev fields)
  | _ => None
  end.

(** The five relations.  Field prefixes are the aliases of the queries. *)
Record users_row : Type := {
  u_id : Z;
  u_auth_id : option Z;
  u_username : string;
  u_full_name : string;
  u_birth_date : option string;
  u_bio : option string;
  u_long_bio : option string;
  u_profile_json : option Json;
  u_address : option string;
  u_phone_number : option string;
  u_created_at : Z;
  u_updated_at : Z
}.

Record auth_row : Type := {
  a_id : Z;
  a_email : string;
  a_updated_at : Z
}.

Record user_roles_row : Type := {
  ur_user_id : Z;
  ur_role : string;
  ur_created_at : Z
}.

Record user_divisions_row : Type := {
  ud_user_id : Z;
  ud_division_name : string;
  ud_created_at : Z
}.

Record user_logs_row : Type := {
  ul_user_id : Z;
  ul_action : string;
  ul_created_at : Z
}.

Record DB : Type := {
  users : list users_row;
  auth : list auth_row;
  user_roles : list user_roles_row;
  user_divisions : list user_divisions_row;
  user_logs : list user_logs_row
}.

(** What [executeQuery] resolves to, or that it rejects. *)
Inductive result (A : Type) : Type :=
  | Rows (rows : list A)
  | QueryError.
Arguments Rows {A} rows.
Arguments QueryError {A}.

(** [t LEFT JOIN tbl ON P]: the matching rows of [tbl], or one row of
    NULLs when there is none. *)
Definition left_join {A} (P : A -> Prop) `{!forall x, Decision (P x)}
    (tbl : list A) : list (option A) :=
  match filter P tbl with
  | [] => [None]
  | l => Some <$> l
  end.

(** [COUNT( * )] over the rows that satisfy [P]. *)
Definition count {A} (P : A -> Prop) `{!forall x, Decision (P x)}
    (tbl : list A) : Z :=
  Z.of_nat (length (filter P tbl)).

(** [LIMIT n OFFSET k]: the two are of type [bigint]; the engine rejects
    an argument that is negative and one that the type does not hold.
    It skips [k] rows, or all there are, and returns [n] of the rest, or
    all that are left. *)
Definition max_bigint : Z := 2 ^ 63 - 1.

Definition limit_offset {A} (n k : Z) (rows : list A) : result A :=
  if (n <? 0) || (k <? 0) || (max_bigint <? n) || (max_bigint <? k)
  then QueryError
  else
    let len := Z.of_nat (length rows) in
    Rows (take (Z.to_nat (Z.min n len)) (drop (Z.to_nat (Z.min k len)) rows)).

End Storage.

(** ** [src/app/api/users/route.ts] *)

Module Users.
Import Storage.

(** *** The queries *)

(** The CTE [user_stats]: one row per [user_id] of [user_logs]. *)
Record user_stats_row : Type := {
  us_user_id : Z;
  us_log_count : Z;
  us_login_count : Z;
  us_update_count : Z
}.

Definition user_stats (db : DB) : list user_stats_row :=
  (fun uid =>
     {| us_user_id := uid;
        us_log_count := count (fun l => ul_user_id l = uid) (user_logs db);
        us_login_count :=
          count (fun l => ul_user_id l = uid /\ ul_action l = "login")
                (user_logs db);
        us_update_count :=
          count (fun l => ul_user_id l = uid /\ ul_action l = "update_profile")
                (user_logs db) |})
  <$> remove_dups (ul_user_id <$> user_logs db).

(** The CTEs [user_role_stats] and [user_division_stats]: a [user_id]
    and its number of rows. *)
Definition user_role_stats (db : DB) : list (Z * Z) :=
  (fun uid => (uid, count (fun r => ur_user_id r = uid) (user_roles db)))
  <$> remove_dups (ur_user_id <$> user_roles db).

Definition user_division_stats (db : DB) : list (Z * Z) :=
  (fun uid => (uid, count (fun d => ud_user_id d = uid) (user_divisions db)))
  <$> remove_dups (ud_user_id <$> user_divisions db).

(** [COALESCE(c, 0)] on a column of an outer-joined row. *)
Definition coalesce0 {A} (col : A -> Z) (r : option A) : Z :=
  default 0 (col <$> r).

(** A row of the main query; the fields are its SELECT list. *)
Module Row.
Record t : Type := {
  id : Z;
  username : string;
  full_name : string;
  birth_date : option string;
  bio : option string;
  long_bio : option string;
  profile_json : option Json;
  address : option string;
  phone_number : option string;
  created_at : Z;
  updated_at : Z;
  email : option string;
  role : option string;
  division_name : option string;
  log_count : Z;
  role_count : Z;
  division_count : Z;
  login_count : Z;
  update_count : Z
}.
End Row.

(** [u LEFT JOIN auth a ... LEFT JOIN user_division_stats uds]: the rows
    that one row [u] of [users] joins to, with the SELECT list applied. *)
Definition joined_rows (db : DB) (u : users_row) : list Row.t :=
  a ← left_join (fun a => u_auth_id u = Some (a_id a)) (auth db);
  ur ← left_join (fun ur => u_id u = ur_user_id ur) (user_roles db);
  ud ← left_join (fun ud => u_id u = ud_user_id ud) (user_divisions db);
  us ← left_join (fun us => u_id u = us_user_id us) (user_stats db);
  urs ← left_join (fun urs => u_id u = fst urs) (user_role_stats db);
  uds ← left_join (fun uds => u_id u = fst uds) (user_division_stats db);
  [ {| Row.id := u_id u;
       Row.username := u_username u;
       Row.full_name := u_full_name u;
       Row.birth_date := u_birth_date u;
       Row.bio := u_bio u;
       Row.long_bio := u_long_bio u;
       Row.profile_json := u_profile_json u;
       Row.address := u_address u;
       Row.phone_number := u_phone_number u;
       Row.created_at := u_created_at u;
       Row.updated_at := u_updated_at u;
       Row.email := a_email <$> a;
       Row.role := ur_role <$> ur;
       Row.division_name := ud_division_name <$> ud;
       Row.log_count := coalesce0 us_log_count us;
       Row.role_count := coalesce0 snd urs;
       Row.division_count := coalesce0 snd uds;
       Row.login_count := coalesce0 us_login_count us;
       Row.update_count := coalesce0 us_update_count us |} ].

(** [FROM users u LEFT JOIN auth a ... LEFT JOIN user_division_stats uds] *)
Definition select_from_joins (db : DB) : list Row.t :=
  users db ≫= joined_rows db.

(** The clause [whereClause]: absent, or [WHERE ud.division_name = $1].
    A NULL [division_name] never satisfies the comparison. *)
Definition where_clause (param : option string) (division_name : option string)
  : Prop :=
  match param with
  | None => True
  | Some d => division_name = Some d
  end.

#[global] Instance where_clause_dec param dn : Decision (where_clause param dn).
Proof. destruct param; simpl; apply _. Defined.

(** [ORDER BY u.created_at DESC, u.id DESC]: [r1] may precede [r2]. *)
Definition order_by (r1 r2 : Row.t) : Prop :=
  Row.created_at r2 < Row.created_at r1
  \/ (Row.created_at r1 = Row.created_at r2 /\ Row.id r2 <= Row.id r1).

#[global] Instance order_by_dec : RelDecision order_by.
Proof. intros r1 r2. unfold order_by. apply _. Defined.

(** The main query before its window: joined, filtered and ordered.
    Rows that tie on both keys of the ORDER BY, which rows of one user
    do, come in the order the engine likes, which may differ from one
    query to the next; here they keep the order of the joins. *)
Definition ordered_rows (db : DB) (param : option string) : list Row.t :=
  merge_sort order_by
    (filter (fun r => where_clause param (Row.division_name r))
            (select_from_joins db)).

(** [executeQuery(query, params)] *)
Definition query (db : DB) (param : option string) (pageSize offset : Z)
  : result Row.t :=
  limit_offset pageSize offset (ordered_rows db param).

(** [u LEFT JOIN user_divisions ud ON u.id = ud.user_id], kept to the two
    columns the count query reads: [u.id] and [ud.division_name]. *)
Definition joined_divisions (db : DB) (u : users_row)
  : list (Z * option string) :=
  ud ← left_join (fun ud => u_id u = ud_user_id ud) (user_divisions db);
  [ (u_id u, ud_division_name <$> (ud : option user_divisions_row)) ].

(** [FROM users u LEFT JOIN user_divisions ud ON u.id = ud.user_id] *)
Definition count_from_joins (db : DB) : list (Z * option string) :=
  users db ≫= joined_divisions db.

(** [executeQuery(countQuery, countParams)]:
    [SELECT COUNT(DISTINCT u.id)] over these joins, under the same
    [whereClause]. *)
Definition countQuery (db : DB) (param : option string) : Z :=
  Z.of_nat (length (remove_dups
    (fst <$> filter (fun r => where_clause param (snd r))
                    (count_from_joins db)))).

(** *** Row shaping *)

(** An element of [users] in the response.  The properties the handler
    copies from columns that the query does not select ([display_name],
    [total_users], ...) are [undefined] and vanish from the JSON body;
    they are left out. *)
Record UserView : Type := {
  id : Z;
  username : string;
  fullName : string;
  email : option string;
  birthDate : option string;
  bio : option string;
  longBio : option string;
  profileJson : option Json;
  address : option string;
  phoneNumber : option string;
  createdAt : Z;
  updatedAt : Z;
  role : option string;
  division : option string;
  logCount : Z;
  roleCount : Z;
  divisionCount : Z;
  loginCount : Z;
  updateCount : Z;
  daysSinceCreated : Z;
  isActive : bool;
  isSenior : bool;
  socialMedia : Json;
  preferences : Json;
  skills : Json;
  interests : Json;
  hasProfile : bool;
  hasBio : bool;
  hasAddress : bool;
  hasPhone : bool;
  profileCompleteness : Z
}.

(** [j || d] on a member of the profile document. *)
Definition json_or (j : option Json) (d : Json) : Json :=
  if json_truthy j then default d j else d.

(** The callback of [result.rows.map]. *)
Definition shape (h : Js.Host) (user : Row.t) : UserView :=
  let profileJson :=
    if json_truthy (Row.profile_json user) then Row.profile_json user
    else None in
  let socialMedia := json_or (json_member profileJson "social_media") (JObj []) in
  let preferences := json_or (json_member profileJson "preferences") (JObj []) in
  let skills := json_or (json_member profileJson "skills") (JArr []) in
  let interests := json_or (json_member profileJson "interests") (JArr []) in
  let daysSinceCreated :=
    Js.Math_floor_div (Js.Date_now h - Row.created_at user) Js.msPerDay in
  let isActive := 5 <? Row.log_count user in
  let isSenior :=
    bool_decide (Row.role user = Some "admin")
    || bool_decide (Row.role user = Some "moderator") in
  {| id := Row.id user;
     username := Row.username user;
     fullName := Row.full_name user;
     email := Row.email user;
     birthDate := Row.birth_date user;
     bio := Row.bio user;
     longBio := Row.long_bio user;
     profileJson := profileJson;
     address := Row.address user;
     phoneNumber := Row.phone_number user;
     createdAt := Row.created_at user;
     updatedAt := Row.updated_at user;
     role := Row.role user;
     division := Row.division_name user;
     logCount := Row.log_count user;
     roleCount := Row.role_count user;
     divisionCount := Row.division_count user;
     loginCount := Row.login_count user;
     updateCount := Row.update_count user;
     daysSinceCreated := daysSinceCreated;
     isActive := isActive;
     isSenior := isSenior;
     socialMedia := socialMedia;
     preferences := preferences;
     skills := skills;
     interests := interests;
     hasProfile := json_truthy (Row.profile_json user);
     hasBio := Js.truthy (Row.bio user);
     hasAddress := Js.truthy (Row.address user);
     hasPhone := Js.truthy (Row.phone_number user);
     profileCompleteness :=
       Z.of_nat (length (filter (fun b => b = true)
         [ Js.truthy (Row.bio user); Js.truthy (Row.address user);
           Js.truthy (Row.phone_number user);
           json_truthy (Row.profile_json user) ])) * 100 / 4 |}.

(** *** The summary *)

Record Summary : Type := {
  activeUsers : Z;
  seniorUsers : Z;
  usersWithCompleteProfiles : Z;
  usersByDivision : gmap string Js.value
}.

(** The callback of [users.reduce]. *)
Definition summary_step (acc : Summary) (user : UserView) : Summary :=
  let key := Js.property_key (division user) in
  {| activeUsers :=
       if isActive user then activeUsers acc + 1 else activeUsers acc;
     seniorUsers :=
       if isSenior user then seniorUsers acc + 1 else seniorUsers acc;
     usersWithCompleteProfiles :=
       if 75 <? profileCompleteness user
       then usersWithCompleteProfiles acc + 1
       else usersWithCompleteProfiles acc;
     usersByDivision :=
       Js.set (usersByDivision acc) key
         (Js.plus_one (Js.or_zero (Js.get (usersByDivision acc) key))) |}.

Definition summary_init : Summary :=
  {| activeUsers := 0;
     seniorUsers := 0;
     usersWithCompleteProfiles := 0;
     usersByDivision := ∅ |}.

Definition summarize (users : list UserView) : Summary :=
  fold_left summary_step users summary_init.

(** *** The handler *)

(** The body of the 200 response. *)
Record Body : Type := {
  body_users : list UserView;
  total : Z;
  page : Z;
  pageSize : Z;
  totalPages : option Z;
  body_summary : Summary;
  filteredBy : string;
  message : string
}.

Inductive Response : Type :=
  | Ok200 (body : Body)
  | Error500.

(** [params] and [countParams]: the division bound to [$1] when
    [divisionFilter && divisionFilter !== "all"], and no [whereClause]
    otherwise. *)
Definition division_param (divisionFilter : option string) : option string :=
  if Js.truthy divisionFilter
     && negb (bool_decide (divisionFilter = Some "all"))
  then divisionFilter else None.

(** The handler past the parsing of the query string: [divisionFilter]
    is the [division] parameter, or [None] when the URL has none; [page]
    and [pageSize] are numbers. *)
Definition listUsers (db : DB) (h : Js.Host)
    (divisionFilter : option string) (page pageSize : Z) : Response :=
  let offset := Js.mul (Js.sub page 1) pageSize in
  let param := division_param divisionFilter in
  match query db param pageSize offset with
  | QueryError => Error500
  | Rows rows =>
      let totalCount := countQuery db param in
      let users := shape h <$> rows in
      Ok200 {| body_users := users;
               total := totalCount;
               page := page;
               pageSize := pageSize;
               totalPages := Js.Math_ceil_div totalCount pageSize;
               body_summary := summarize users;
               filteredBy := Js.or_default divisionFilter "all";
               message := "Users retrieved successfully" |}
  end.

(** [GET]: the three parameters as [url.searchParams.get] returns them.
    A parameter that does not parse is [NaN], and one with too many
    digits an infinity; the engine rejects either as a LIMIT or OFFSET,
    and so it does their product with the other. *)
Definition GET (db : DB) (h : Js.Host)
    (division page pageSize : option string) : Response :=
  match Js.parseInt (Js.or_default page "1"),
        Js.parseInt (Js.or_default pageSize "20") with
  | Some page, Some pageSize =>
      if Js.is_finite page && Js.is_finite pageSize
      then listUsers db h division page pageSize
      else Error500
  | _, _ => Error500
  end.

End Users.

(** ** The profile route: [getProfile] and [updateProfile] *)

Module Profile.
Import Storage.

(** [ProfileData], the parsed request body.  [None] is a property that
    is absent or [null]. *)
Record ProfileData : Type := {
  username : option string;
  fullName : option string;
  email : option string;
  phone : option string;
  birthDate : option string;
  bio : option string;
  longBio : option string;
  address : option string;
  profileJson : option Json
}.

(** *** The select queries *)

(** [ORDER BY created_at DESC] on the two assignment relations. *)
Definition newer_role (r1 r2 : user_roles_row) : Prop :=
  ur_created_at r2 <= ur_created_at r1.

Definition newer_division (d1 d2 : user_divisions_row) : Prop :=
  ud_created_at d2 <= ud_created_at d1.

#[global] Instance newer_role_dec : RelDecision newer_role.
Proof. intros r1 r2. unfold newer_role. apply _. Defined.

#[global] Instance newer_division_dec : RelDecision newer_division.
Proof. intros d1 d2. unfold newer_division. apply _. Defined.

(** [LEFT JOIN LATERAL (sub) x ON true]: the rows of the subquery, or
    one row of NULLs when it has none. *)
Definition left_join_lateral {A} (sub : list A) : list (option A) :=
  left_join (fun _ => True) sub.

(** [SELECT role FROM user_roles WHERE user_id = u.id
     ORDER BY created_at DESC LIMIT 1] *)
Definition latest_role (db : DB) (uid : Z) : list string :=
  ur_role <$>
    take 1 (merge_sort newer_role
              (filter (fun r => ur_user_id r = uid) (user_roles db))).

(** [SELECT division_name FROM user_divisions WHERE user_id = u.id
     ORDER BY created_at DESC LIMIT 1] *)
Definition latest_division (db : DB) (uid : Z) : list string :=
  ud_division_name <$>
    take 1 (merge_sort newer_division
              (filter (fun d => ud_user_id d = uid) (user_divisions db))).

(** The subquery [counts]: one row of counts over the UNION ALL of the
    child relations, tagged by table name. *)
Inductive table_name : Type := t_user_logs | t_user_roles | t_user_divisions.

#[global] Instance table_name_eq_dec : EqDecision table_name.
Proof. solve_decision. Defined.

Definition combined_counts (db : DB) (uid : Z) (with_divisions : bool)
  : list table_name :=
  ((fun _ => t_user_logs) <$>
     filter (fun l => ul_user_id l = uid) (user_logs db))
  ++ ((fun _ => t_user_roles) <$>
     filter (fun r => ur_user_id r = uid) (user_roles db))
  ++ (if with_divisions
      then (fun _ => t_user_divisions) <$>
             filter (fun d => ud_user_id d = uid) (user_divisions db)
      else []).

(** A row of either select query.  [email] and [division_count] are
    selected by [getProfile] only. *)
Module Row.
Record t : Type := {
  user : users_row;                 (* u.* *)
  email : option string;
  role : option string;
  division_name : option string;
  log_count : Z;
  role_count : Z;
  division_count : Z
}.
End Row.

(** The [selectQuery] of [getProfile]. *)
Definition selectQuery_get (db : DB) (userId : Z) : list Row.t :=
  u ← filter (fun u => u_id u = userId) (users db);
  a ← left_join (fun a => u_auth_id u = Some (a_id a)) (auth db);
  ur ← left_join_lateral (latest_role db (u_id u));
  ud ← left_join_lateral (latest_division db (u_id u));
  let cc := combined_counts db (u_id u) true in
  [ {| Row.user := u;
       Row.email := a_email <$> a;
       Row.role := ur;
       Row.division_name := ud;
       Row.log_count := count (fun t => t = t_user_logs) cc;
       Row.role_count := count (fun t => t = t_user_roles) cc;
       Row.division_count := count (fun t => t = t_user_divisions) cc |} ].

(** The [selectQuery] of [updateProfile]: no [auth] join and no division
    count. *)
Definition selectQuery_update (db : DB) (userId : Z) : list Row.t :=
  u ← filter (fun u => u_id u = userId) (users db);
  ur ← left_join_lateral (latest_role db (u_id u));
  ud ← left_join_lateral (latest_division db (u_id u));
  let cc := combined_counts db (u_id u) false in
  [ {| Row.user := u;
       Row.email := None;
       Row.role := ur;
       Row.division_name := ud;
       Row.log_count := count (fun t => t = t_user_logs) cc;
       Row.role_count := count (fun t => t = t_user_roles) cc;
       Row.division_count := 0 |} ].

(** *** Responses *)

(** The [user] object of a 200 response.  [email] and [divisionCount]
    are properties of the [getProfile] response only. *)
Module View.
Record t : Type := {
  id : Z;
  authId : option Z;
  username : string;
  fullName : string;
  email : option (option string);
  bio : option string;
  longBio : option string;
  profileJson : option Json;
  address : option string;
  phoneNumber : option string;
  birthDate : option string;
  role : option string;
  division : option string;
  logCount : Z;
  roleCount : Z;
  divisionCount : option Z
}.
End View.

Inductive Response : Type :=
  | Ok200 (user : View.t)
  | BadRequest400 (errors : list (string * string))
  | NotFound404
  | Error500.

Definition view_of (with_auth : bool) (userData : Row.t) : View.t :=
  let u := Row.user userData in
  {| View.id := u_id u;
     View.authId := u_auth_id u;
     View.username := u_username u;
     View.fullName := u_full_name u;
     View.email := if with_auth then Some (Row.email userData) else None;
     View.bio := u_bio u;
     View.longBio := u_long_bio u;
     View.profileJson := u_profile_json u;
     View.address := u_address u;
     View.phoneNumber := u_phone_number u;
     View.birthDate := u_birth_date u;
     View.role := Row.role userData;
     View.division := Row.division_name userData;
     View.logCount := Row.log_count userData;
     View.roleCount := Row.role_count userData;
     View.divisionCount :=
       if with_auth then Some (Row.division_count userData) else None |}.

(** *** [getProfile] *)

Definition getProfile (db : DB) (userId : Z) : Response :=
  match selectQuery_get db userId with
  | [] => NotFound404
  | userData :: _ => Ok200 (view_of true userData)
  end.

(** *** [updateProfile] *)

(** [/^\S+@\S+\.\S+$/] *)
Definition email_re : Js.regex :=
  Js.Cat (Js.Plus (Js.Class Js.is_nonspace))
    (Js.Cat (Js.Class (Js.is_char "@"))
       (Js.Cat (Js.Plus (Js.Class Js.is_nonspace))
          (Js.Cat (Js.Class (Js.is_char "."))
             (Js.Plus (Js.Class Js.is_nonspace))))).

(** [/^\d{10,15}$/] *)
Definition phone_re : Js.regex := Js.Repeat 10 5 (Js.Class Js.is_digit).

(** [s.length] of a truthy string. *)
Definition str_length (s : option string) : Z :=
  Z.of_nat (String.length (default "" s)).

Definition test (r : Js.regex) (s : option string) : bool :=
  Js.RegExp_test r (default "" s).

(** One validation rule: the key it sets in [errors], with its message,
    when [violated]. *)
Definition rule (violated : bool) (key msg : string)
  : list (string * string) :=
  if violated then [(key, msg)] else [].

(** The [errors] object, its keys in insertion order. *)
Definition validate (h : Js.Host) (d : ProfileData) : list (string * string) :=
  rule (negb (Js.truthy (username d)) || (str_length (username d) <? 6))
       "username" "Username must be at least 6 characters."
  ++ rule (negb (Js.truthy (fullName d)))
       "fullName" "Full name is required."
  ++ rule (negb (Js.truthy (email d)) || negb (test email_re (email d)))
       "email" "Must be a valid email format."
  ++ rule (negb (Js.truthy (phone d)) || negb (test phone_re (phone d)))
       "phone" "Phone must be 10-15 digits."
  ++ rule (Js.truthy (birthDate d)
           && let date := Js.Date_parse h (default "" (birthDate d)) in
              let today := Js.setHours0 h (Js.Date_now h) in
              Js.date_gt date today)
       "birthDate" "Birth date cannot be in the future."
  ++ rule (Js.truthy (bio d) && (160 <? str_length (bio d)))
       "bio" "Bio must be 160 characters or less."
  ++ rule (Js.truthy (longBio d) && (2000 <? str_length (longBio d)))
       "longBio" "Long bio must be 2000 characters or less.".

(** The statement [updateQuery]: the UPDATE of [users] inside the CTE,
    RETURNING [auth_id], and the UPDATE of [auth] joined to it. *)
Definition update_users (now userId : Z) (username fullName : string)
    (d : ProfileData) (u : users_row) : users_row :=
  if decide (u_id u = userId) then
    {| u_id := u_id u;
       u_auth_id := u_auth_id u;
       u_username := username;
       u_full_name := fullName;
       u_birth_date := birthDate d;
       u_bio := bio d;
       u_long_bio := longBio d;
       u_profile_json :=
         if json_truthy (profileJson d) then profileJson d else None;
       u_address := address d;
       u_phone_number := phone d;
       u_created_at := u_created_at u;
       u_updated_at := now |}
  else u.

Definition update_auth (now : Z) (returning : list (option Z)) (email : string)
    (a : auth_row) : auth_row :=
  if decide (Some (a_id a) ∈ returning) then
    {| a_id := a_id a; a_email := email; a_updated_at := now |}
  else a.

Definition updateQuery (db : DB) (now userId : Z)
    (username fullName email : string) (d : ProfileData) : DB :=
  let returning :=
    u_auth_id <$> filter (fun u => u_id u = userId) (users db) in
  {| users := update_users now userId username fullName d <$> users db;
     auth := update_auth now returning email <$> auth db;
     user_roles := user_roles db;
     user_divisions := user_divisions db;
     user_logs := user_logs db |}.

(** [INSERT INTO user_logs (user_id, action) VALUES ($1, $2)] *)
Definition insert_log (db : DB) (now userId : Z) (action : string) : DB :=
  {| users := users db;
     auth := auth db;
     user_roles := user_roles db;
     user_divisions := user_divisions db;
     user_logs := user_logs db ++
       [ {| ul_user_id := userId; ul_action := action;
            ul_created_at := now |} ] |}.

(** The handler returns its response and the storage it leaves behind.
    [userId] is the [user.userId] that the authentication middleware put
    on the request.  Binding NULL to [username], [full_name] or [email]
    is rejected by the engine; validation excludes it. *)
Definition updateProfile (db : DB) (h : Js.Host) (userId : Z)
    (d : ProfileData) : Response * DB :=
  let errors := validate h d in
  if 0 <? Z.of_nat (length errors) then (BadRequest400 errors, db)
  else
    match username d, fullName d, email d with
    | Some username, Some fullName, Some email =>
        let now := Js.Date_now h in
        let db1 := updateQuery db now userId username fullName email d in
        let result := selectQuery_update db1 userId in
        let updatedUser := head result in
        let db2 := insert_log db1 now userId "update_profile" in
        match updatedUser with
        | Some updatedUser => (Ok200 (view_of false updatedUser), db2)
        | None => (Error500, db2)
        end
    | _, _, _ => (Error500, db)
    end.

End Profile.

(** ** [clean-users-data.sql] *)

Module Cleanup.
Import Storage.

(** [username IN ('aku123', 'kamu123', 'user123')]: the accounts that
    every statement of the script spares. *)
Definition fixed_account (u : users_row) : Prop :=
  u_username u ∈ ["aku123"; "kamu123"; "user123"].

(** The WHERE clause of step 1: not a fixed account, and three of [bio],
    [address], [phone_number] and [profile_json] are NULL. *)
Definition poor_quality (u : users_row) : Prop :=
  ~ fixed_account u
  /\ ((u_bio u = None /\ u_address u = None /\ u_phone_number u = None)
      \/ (u_bio u = None /\ u_address u = None /\ u_profile_json u = None)
      \/ (u_bio u = None /\ u_phone_number u = None
          /\ u_profile_json u = None)
      \/ (u_address u = None /\ u_phone_number u = None
          /\ u_profile_json u = None)).

#[global] Instance fixed_account_dec u : Decision (fixed_account u).
Proof. unfold fixed_account. apply _. Defined.

#[global] Instance poor_quality_dec u : Decision (poor_quality u).
Proof. unfold poor_quality. apply _. Defined.

(** [SELECT id FROM users WHERE ...], the subquery of step 1. *)
Definition poor_ids (db : DB) : list Z :=
  u_id <$> filter poor_quality (users db).

(** [DELETE FROM t WHERE user_id IN (ids)] on the three child relations
    and [DELETE FROM users WHERE ...]; the subquery is read from the
    storage the statement runs on. *)
Definition delete_user_logs (ids : DB -> list Z) (db : DB) : DB :=
  {| users := users db;
     auth := auth db;
     user_roles := user_roles db;
     user_divisions := user_divisions db;
     user_logs := filter (fun l => ul_user_id l ∉ ids db) (user_logs db) |}.

Definition delete_user_roles (ids : DB -> list Z) (db : DB) : DB :=
  {| users := users db;
     auth := auth db;
     user_roles := filter (fun r => ur_user_id r ∉ ids db) (user_roles db);
     user_divisions := user_divisions db;
     user_logs := user_logs db |}.

Definition delete_user_divisions (ids : DB -> list Z) (db : DB) : DB :=
  {| users := users db;
     auth := auth db;
     user_roles := user_roles db;
     user_divisions :=
       filter (fun d => ud_user_id d ∉ ids db) (user_divisions db);
     user_logs := user_logs db |}.

Definition delete_users (P : users_row -> Prop) `{!forall u, Decision (P u)}
    (db : DB) : DB :=
  {| users := filter (fun u => ~ P u) (users db);
     auth := auth db;
     user_roles := user_roles db;
     user_divisions := user_divisions db;
     user_logs := user_logs db |}.

(** Step 1: the rows of users of poor quality, children first. *)
Definition step1 (db : DB) : DB :=
  delete_users poor_quality
    (delete_user_divisions poor_ids
       (delete_user_roles poor_ids
          (delete_user_logs poor_ids db))).

(** The PARTITION BY of step 2. *)
Definition dedup_key (u : users_row) : string * string * string :=
  (default "NULL_BIO" (u_bio u),
   default "NULL_ADDRESS" (u_address u),
   default "NULL_PHONE" (u_phone_number u)).

(** [ORDER BY id ASC] *)
Definition by_id (u v : users_row) : Prop := u_id u <= u_id v.

#[global] Instance by_id_dec : RelDecision by_id.
Proof. intros u v. unfold by_id. apply _. Defined.

(** The temporary table [users_to_keep]: for every user that is not a
    fixed account, its id and its [ROW_NUMBER()] within the users of the
    same key, counted from 1 in the order of ids. *)
Definition users_to_keep (db : DB) : list (Z * Z) :=
  let candidates := filter (fun u => ~ fixed_account u) (users db) in
  k ← remove_dups (dedup_key <$> candidates);
  imap (fun i u => (u_id u, Z.of_nat (S i)))
       (merge_sort by_id (filter (fun u => dedup_key u = k) candidates)).

(** [SELECT u.id FROM users u JOIN users_to_keep utk ON u.id = utk.id
    WHERE utk.row_num > 1] *)
Definition duplicate_ids (utk : list (Z * Z)) (db : DB) : list Z :=
  u ← users db;
  t ← filter (fun t => u_id u = fst t /\ 1 < snd t) utk;
  [u_id u].

(** Step 2: the rows of the later users of every key, children first. *)
Definition step2 (db : DB) : DB :=
  let utk := users_to_keep db in
  let db := delete_user_logs (duplicate_ids utk) db in
  let db := delete_user_roles (duplicate_ids utk) db in
  let db := delete_user_divisions (duplicate_ids utk) db in
  delete_users (fun u => u_id u ∈ duplicate_ids utk db) db.

(** The JSON literal of the last UPDATE. *)
Definition default_profile : Json :=
  JObj [ ("preferences",
          JObj [ ("theme", JStr "light"); ("language", JStr "id");
                 ("notifications", JBool true) ]);
         ("social_media", JObj []);
         ("skills", JArr []);
         ("interests", JArr []) ].

(** Step 3: [UPDATE users SET c = x WHERE c IS NULL AND username NOT IN
    (...)], once for each of the four columns. *)
Definition update_bio (u : users_row) : users_row :=
  if decide (u_bio u = None /\ ~ fixed_account u) then
    {| u_id := u_id u; u_auth_id := u_auth_id u;
       u_username := u_username u; u_full_name := u_full_name u;
       u_birth_date := u_birth_date u;
       u_bio := Some "No bio provided";
       u_long_bio := u_long_bio u; u_profile_json := u_profile_json u;
       u_address := u_address u; u_phone_number := u_phone_number u;
       u_created_at := u_created_at u; u_updated_at := u_updated_at u |}
  else u.

Definition update_address (u : users_row) : users_row :=
  if decide (u_address u = None /\ ~ fixed_account u) then
    {| u_id := u_id u; u_auth_id := u_auth_id u;
       u_username := u_username u; u_full_name := u_full_name u;
       u_birth_date := u_birth_date u;
       u_bio := u_bio u;
       u_long_bio := u_long_bio u; u_profile_json := u_profile_json u;
       u_address := Some "Address not specified";
       u_phone_number := u_phone_number u;
       u_created_at := u_created_at u; u_updated_at := u_updated_at u |}
  else u.

Definition update_phone_number (u : users_row) : users_row :=
  if decide (u_phone_number u = None /\ ~ fixed_account u) then
    {| u_id := u_id u; u_auth_id := u_auth_id u;
       u_username := u_username u; u_full_name := u_full_name u;
       u_birth_date := u_birth_date u;
       u_bio := u_bio u;
       u_long_bio := u_long_bio u; u_profile_json := u_profile_json u;
       u_address := u_address u;
       u_phone_number := Some "+62000000000";
       u_created_at := u_created_at u; u_updated_at := u_updated_at u |}
  else u.

Definition update_profile_json (u : users_row) : users_row :=
  if decide (u_profile_json u = None /\ ~ fixed_account u) then
    {| u_id := u_id u; u_auth_id := u_auth_id u;
       u_username := u_username u; u_full_name := u_full_name u;
       u_birth_date := u_birth_date u;
       u_bio := u_bio u;
       u_long_bio := u_long_bio u;
       u_profile_json := Some default_profile;
       u_address := u_address u; u_phone_number := u_phone_number u;
       u_created_at := u_created_at u; u_updated_at := u_updated_at u |}
  else u.

Definition update_users (f : users_row -> users_row) (db : DB) : DB :=
  {| users := f <$> users db;
     auth := auth db;
     user_roles := user_roles db;
     user_divisions := user_divisions db;
     user_logs := user_logs db |}.

Definition step3 (db : DB) : DB :=
  update_users update_profile_json
    (update_users update_phone_number
       (update_users update_address
          (update_users update_bio db))).

(** The statements of the script that write, in order. *)
Definition cleanup (db : DB) : DB := step3 (step2 (step1 db)).

End Cleanup.

(** ** [scripts/git-hooks/pre-push] *)

Module Hook.

(** What the script finds around it: the files that exist, the commands
    on the PATH, the lines of [git diff --cached --name-only], whether
    the three external programs succeed, and whether the report can be
    written ([mkdir -p logs] and the redirection into the report file). *)
Record Env : Type := {
  file_exists : string -> bool;
  has_command : string -> bool;
  staged : list string;
  node_run_ok : bool;
  node_backup_ok : bool;
  npm_test_ok : bool;
  report_ok : bool
}.

(** The external programs the script starts, in the order it starts
    them. *)
Inductive command : Type :=
  | node_backup       (* node scripts/database-cleanup-pipeline.js backup *)
  | node_run          (* node scripts/database-cleanup-pipeline.js run *)
  | npm_test          (* npm test -- --testPathPattern=... *)
  | write_report.     (* mkdir -p logs; { ... } > "$report_file" *)

#[global] Instance command_eq_dec : EqDecision command.
Proof. solve_decision. Defined.

(** A function returns its status, [true] for 0. *)
Definition check_database_connection (e : Env) : bool :=
  if negb (file_exists e ".env.local") then false
  else if negb (file_exists e "scripts/database-cleanup-pipeline.js") then false
  else true.

Definition run_database_cleanup (e : Env) : bool * list command :=
  if negb (has_command e "node") then (true, [])
  else if node_run_ok e then (true, [node_run])
  else (false, [node_run]).

(** The pattern of [grep -E]; [.] is any character. *)
Definition any : Js.regex := Js.Class (fun _ => true).

Definition lit (s : string) : Js.regex :=
  foldr (fun c r => Js.Cat (Js.Class (Js.is_char c)) r) Js.Eps
        (String.list_ascii_of_string s).

(** [(database-schema\.sql|scripts/.*\.(js|sql)|src/lib/database\.ts)] *)
Definition db_pattern : Js.regex :=
  Js.Alt (lit "database-schema.sql")
    (Js.Alt (Js.Cat (lit "scripts/")
               (Js.Cat (Js.Star any)
                  (Js.Cat (lit ".") (Js.Alt (lit "js") (lit "sql")))))
            (lit "src/lib/database.ts")).

(** [grep -E pattern] selects the lines with a match anywhere. *)
Definition grep_E (r : Js.regex) (lines : list string) : list string :=
  List.filter
    (Js.RegExp_test (Js.Cat (Js.Star any) (Js.Cat r (Js.Star any)))) lines.

Definition check_database_changes (e : Env) : bool :=
  let db_files_changed := grep_E db_pattern (staged e) in
  match db_files_changed with
  | [] => false
  | _ => true
  end.

Definition run_tests (e : Env) : bool * list command :=
  if negb (has_command e "npm") then (true, [])
  else if npm_test_ok e then (true, [npm_test])
  else (false, [npm_test]).

(** Returns 0 whatever the backup does; [node] is started without a
    look at the PATH, and is not started when it is not there. *)
Definition create_deployment_backup (e : Env) : list command :=
  if check_database_connection e
  then (if has_command e "node" then [node_backup] else [])
  else [].

Definition required_files : list string :=
  [ "package.json"; "database-schema.sql";
    "scripts/database-cleanup-pipeline.js" ].

Definition validate_environment (e : Env) : bool :=
  forallb (file_exists e) required_files.

(** [main]: the exit status and the programs started.  The script runs
    under [set -e]: a report that cannot be written ends it there, with
    the status 1 of the failed command. *)
Definition main (e : Env) : Z * list command :=
  if negb (validate_environment e) then (1, [])
  else
    let has_db_changes := check_database_changes e in
    let '(cleanup_success, started) :=
      if has_db_changes then
        let backup := create_deployment_backup e in
        let '(cleanup, c1) := run_database_cleanup e in
        let '(tests, c2) := run_tests e in
        (cleanup && tests, backup ++ c1 ++ c2)
      else (true, []) in
    if negb (report_ok e) then (1, started ++ [write_report])
    else if has_db_changes && negb cleanup_success
         then (1, started ++ [write_report])
         else (0, started ++ [write_report]).

(** The script with its first argument, [None] when there is none. *)
Definition pre_push (e : Env) (arg : option string) : Z * list command :=
  if decide (arg = Some "--help" \/ arg = Some "-h") then (0, [])
  else if decide (arg = Some "--skip-cleanup") then (0, [])
  else main e.

End Hook.

(** * Vocabulary of the statements *)

Module UsersSpec.
Import Storage.

(** A user is in the population of a listing when there is no division
    parameter, or when one of the user's division rows carries it. *)
Definition in_division (db : DB) (param : option string) (uid : Z) : Prop :=
  match param with
  | None => True
  | Some d =>
      exists ud, ud ∈ user_divisions db
                 /\ ud_user_id ud = uid /\ ud_division_name ud = d
  end.

(** The sum of the values of a [usersByDivision] object, a value that is
    not a number adding nothing, and the property that all of its values
    are positive numbers. *)
Definition own_count (v : Js.value) : Z :=
  match v with
  | Js.VNum n => n
  | _ => 0
  end.

Definition counts_sum (o : gmap string Js.value) : Z :=
  map_fold (fun _ v acc => own_count v + acc) 0 o.

Definition counts_only (o : gmap string Js.value) : Prop :=
  map_Forall (fun _ v => exists n, v = Js.VNum n /\ 1 <= n) o.

(** A division whose key no property of [Object.prototype] shadows. *)
Definition plain_key (division : option string) : Prop :=
  Js.Object_prototype (Js.property_key division) = Js.VUndefined.

(** The rows of the unfiltered listing are few enough for a number to
    give every position among them exactly. *)
Definition fits (db : DB) : Prop :=
  Z.of_nat (length (Users.select_from_joins db)) <= Js.MAX_SAFE_INTEGER.

End UsersSpec.

Module ProfileSpec.
Import Storage Profile.

Definition chars (s : string) : list ascii := String.list_ascii_of_string s.

(** Ten to fifteen decimal digits. *)
Definition phone_shaped (s : string) : Prop :=
  (10 <= String.length s <= 15)%nat
  /\ Forall (fun c => Js.is_digit c = true) (chars s).

(** [local@domain.tld]: three non-empty runs without white space, with
    an at sign after the first and a dot after the second. *)
Definition email_shaped (s : string) : Prop :=
  exists a b c,
    chars s = a ++ "@"%char :: b ++ "."%char :: c
    /\ a <> [] /\ b <> [] /\ c <> []
    /\ Forall (fun x => Js.is_nonspace x = true) (a ++ b ++ c).

(** The field [key] of the request breaks its validation rule. *)
Definition violates (h : Js.Host) (d : ProfileData) (key : string) : Prop :=
  (key = "username"
     /\ forall s, username d = Some s -> (String.length s < 6)%nat)
  \/ (key = "fullName" /\ forall s, fullName d = Some s -> s = "")
  \/ (key = "email" /\ forall s, email d = Some s -> ~ email_shaped s)
  \/ (key = "phone" /\ forall s, phone d = Some s -> ~ phone_shaped s)
  \/ (key = "birthDate"
        /\ exists s t, birthDate d = Some s /\ s <> ""
                       /\ Js.Date_parse h s = Some t
                       /\ Js.setHours0 h (Js.Date_now h) < t)
  \/ (key = "bio"
        /\ exists s, bio d = Some s /\ (160 < String.length s)%nat)
  \/ (key = "longBio"
        /\ exists s, longBio d = Some s /\ (2000 < String.length s)%nat).

(** The log row that a successful update appends. *)
Definition update_log (h : Js.Host) (userId : Z) : user_logs_row :=
  {| ul_user_id := userId;
     ul_action := "update_profile";
     ul_created_at := Js.Date_now h |}.

(** What the UPDATE binds to [profile_json]. *)
Definition profile_json_param (d : ProfileData) : option Json :=
  if json_truthy (profileJson d) then profileJson d else None.

(** The auth rows that the user [userId] points to. *)
Definition linked_auth (db : DB) (userId : Z) (a : auth_row) : Prop :=
  exists u, u ∈ users db /\ u_id u = userId /\ u_auth_id u = Some (a_id a).

End ProfileSpec.

Module ListingSpec.
Import Storage Users.

(** The [users] array of the response to one page request, empty when
    the request ends in the 500 response. *)
Definition page_rows (db : DB) (h : Js.Host) (divisionFilter : option string)
    (pageSize : Z) (page : nat) : list UserView :=
  match listUsers db h divisionFilter (Z.of_nat page) pageSize with
  | Ok200 body => body_users body
  | Error500 => []
  end.

(** The rows a client collects by reading the pages 1 to [n] in turn. *)
Definition first_pages (db : DB) (h : Js.Host) (divisionFilter : option string)
    (pageSize : Z) (n : nat) : list UserView :=
  mjoin (page_rows db h divisionFilter pageSize <$> seq 1 n).

(** An order in which the engine may return the rows of the main query
    before its window: the joined and filtered rows, in some order that
    the ORDER BY allows. *)
Definition query_order (db : DB) (param : option string)
    (rows : list Row.t) : Prop :=
  rows ≡ₚ filter (fun r => where_clause param (Row.division_name r))
                 (select_from_joins db)
  /\ StronglySorted order_by rows.

(** Storage in which the ids of users and of auth rows are keys and no
    user has more than one role row or more than one division row. *)
Definition no_fan_out (db : DB) : Prop :=
  NoDup (u_id <$> users db)
  /\ NoDup (a_id <$> auth db)
  /\ NoDup (ur_user_id <$> user_roles db)
  /\ NoDup (ud_user_id <$> user_divisions db).

(** The value [s] of a query parameter is white space [ws], then the
    digits [ds], few enough for the number to be exact, then [rest],
    which does not go on with a digit. *)
Definition numeral (s : string) (ws ds rest : list ascii) : Prop :=
  String.list_ascii_of_string s = ws ++ ds ++ rest
  /\ Forall (fun c => Js.is_space c = true) ws
  /\ ds <> [] /\ Forall (fun c => Js.is_digit c = true) ds
  /\ (length ds <= 15)%nat
  /\ forall c, head rest = Some c -> Js.is_digit c = false.

End ListingSpec.

Module CleanupSpec.
Import Storage Cleanup.

(** A row after step 3: a fixed account as it was, any other user with
    the default in every NULL one of the four columns. *)
Definition with_default {A} (x : A) (c : option A) : option A :=
  match c with
  | None => Some x
  | Some _ => c
  end.

Definition backfill (u : users_row) : users_row :=
  if decide (fixed_account u) then u
  else
    {| u_id := u_id u;
       u_auth_id := u_auth_id u;
       u_username := u_username u;
       u_full_name := u_full_name u;
       u_birth_date := u_birth_date u;
       u_bio := with_default "No bio provided" (u_bio u);
       u_long_bio := u_long_bio u;
       u_profile_json := with_default default_profile (u_profile_json u);
       u_address := with_default "Address not specified" (u_address u);
       u_phone_number := with_default "+62000000000" (u_phone_number u);
       u_created_at := u_created_at u;
       u_updated_at := u_updated_at u |}.

(** The users the script keeps: the fixed accounts, and of the others
    those that are not of poor quality and have the least id among the
    users of their key that are neither. *)
Definition kept (db : DB) (u : users_row) : Prop :=
  fixed_account u
  \/ (~ poor_quality u
      /\ forall v, v ∈ users db -> ~ fixed_account v -> ~ poor_quality v ->
                   dedup_key v = dedup_key u -> u_id u <= u_id v).

(** The users of one key, in the order of their row numbers. *)
Definition partition_of (db : DB) (k : string * string * string)
  : list users_row :=
  merge_sort by_id
    (filter (fun u => dedup_key u = k)
            (filter (fun u => ~ fixed_account u) (users db))).

(** The user with id [uid] is in storage. *)
Definition has_user (db : DB) (uid : Z) : Prop :=
  exists u, u ∈ users db /\ u_id u = uid.

(** No user other than the fixed accounts already holds one of the
    three default texts of step 3. *)
Definition defaults_unused (db : DB) : Prop :=
  forall u, u ∈ users db -> ~ fixed_account u ->
    u_bio u <> Some "No bio provided"
    /\ u_address u <> Some "Address not specified"
    /\ u_phone_number u <> Some "+62000000000".

End CleanupSpec.

Module HookSpec.
Import Hook.

Definition chars (s : string) : list ascii := String.list_ascii_of_string s.

(** The path [line] has [needle] somewhere in it. *)
Definition contains (needle line : string) : Prop :=
  exists a c, chars line = a ++ chars needle ++ c.

(** The paths that the script takes for database-related: those with
    [database-schema.sql] or [src/lib/database.ts] in them, and those
    with [scripts/] followed, at any distance, by [.js] or [.sql]. *)
Definition db_related (line : string) : Prop :=
  contains "database-schema.sql" line
  \/ contains "src/lib/database.ts" line
  \/ exists a b c ext,
       (ext = ".js" \/ ext = ".sql")
       /\ chars line = a ++ chars "scripts/" ++ b ++ chars ext ++ c.

(** All the files the script requires are there. *)
Definition environment_valid (e : Env) : Prop :=
  forall f, f ∈ required_files -> file_exists e f = true.

(** A staged path is database-related. *)
Definition db_changes (e : Env) : Prop :=
  exists line, line ∈ staged e /\ db_related line.

(** The arguments with which the script leaves before [main]. *)
Definition leaves_early (arg : option string) : Prop :=
  arg = Some "--help" \/ arg = Some "-h" \/ arg = Some "--skip-cleanup".

(** The order in which [main] starts the external programs. *)
Definition steps : list command :=
  [node_backup; node_run; npm_test; write_report].

End HookSpec.

(** * Sample storage and requests *)

Module Fixtures.
Import Storage.

Definition user (id created_at : Z) (username : string) : users_row :=
  {| u_id := id;
     u_auth_id := Some id;
     u_username := username;
     u_full_name := "Full " +:+ username;
     u_birth_date := Some "1990-01-01";
     u_bio := Some "old bio";
     u_long_bio := Some "old long bio";
     u_profile_json := Some (JObj [("skills", JArr [JStr "sql"])]);
     u_address := Some "old address";
     u_phone_number := Some "081234567890";
     u_created_at := created_at;
     u_updated_at := created_at |}.

Definition login (user_id created_at : Z) : user_logs_row :=
  {| ul_user_id := user_id; ul_action := "login"; ul_created_at := created_at |}.

(** 2024-06-15T16:00:00Z, on a host that keeps UTC. *)
Definition now : Z := 1718467200000.
Definition host : Js.Host := Js.iso_host now 0.

(** 2024-06-14T20:00:00Z, which is 03:00 of June 15 on a host seven
    hours east of UTC. *)
Definition host_east : Js.Host := Js.iso_host 1718395200000 (7 * 3600000).

(** Three users: the first holds two roles, the second two divisions,
    the third has no child row at all. *)
Definition db : DB :=
  {| users := [ user 1 1000 "aku123"; user 2 1000 "kamu123";
                user 3 2000 "user123" ];
     auth := [ {| a_id := 1; a_email := "aku@mail.id"; a_updated_at := 1000 |};
               {| a_id := 2; a_email := "kamu@mail.id"; a_updated_at := 1000 |};
               {| a_id := 3; a_email := "user@mail.id"; a_updated_at := 2000 |} ];
     user_roles :=
       [ {| ur_user_id := 1; ur_role := "admin"; ur_created_at := 1100 |};
         {| ur_user_id := 1; ur_role := "member"; ur_created_at := 1200 |} ];
     user_divisions :=
       [ {| ud_user_id := 2; ud_division_name := "Tech"; ud_created_at := 1100 |};
         {| ud_user_id := 2; ud_division_name := "QA"; ud_created_at := 1200 |} ];
     user_logs := [ login 1 1100; login 1 1200; login 2 1300 ] |}.

(** Three users, the first two created at the same time, each with at
    most one role and one division. *)
Definition db_plain : DB :=
  {| users := [ user 1 1000 "aku123"; user 2 1000 "kamu123";
                user 3 2000 "user123" ];
     auth := [ {| a_id := 1; a_email := "aku@mail.id"; a_updated_at := 1000 |};
               {| a_id := 2; a_email := "kamu@mail.id"; a_updated_at := 1000 |} ];
     user_roles :=
       [ {| ur_user_id := 1; ur_role := "admin"; ur_created_at := 1100 |};
         {| ur_user_id := 3; ur_role := "member"; ur_created_at := 2100 |} ];
     user_divisions :=
       [ {| ud_user_id := 2; ud_division_name := "Tech"; ud_created_at := 1100 |} ];
     user_logs := [ login 1 1100; login 2 1300 ] |}.

(** One user with two role assignments and nothing else. *)
Definition db_two_roles : DB :=
  {| users := [ user 1 1000 "aku123" ];
     auth := [];
     user_roles :=
       [ {| ur_user_id := 1; ur_role := "member"; ur_created_at := 1100 |};
         {| ur_user_id := 1; ur_role := "admin"; ur_created_at := 1200 |} ];
     user_divisions := [];
     user_logs := [] |}.

(** Two users in divisions whose names are properties of
    [Object.prototype]. *)
Definition db_inherited_names : DB :=
  {| users := [ user 1 1000 "aku123"; user 2 2000 "kamu123" ];
     auth := [];
     user_roles := [];
     user_divisions :=
       [ {| ud_user_id := 1; ud_division_name := "__proto__";
            ud_created_at := 1100 |};
         {| ud_user_id := 2; ud_division_name := "constructor";
            ud_created_at := 2100 |} ];
     user_logs := [] |}.

(** A request that passes validation and leaves every optional field
    out. *)
Definition request_minimal : Profile.ProfileData :=
  {| Profile.username := Some "aku12345";
     Profile.fullName := Some "Aku Baru";
     Profile.email := Some "aku.baru@mail.id";
     Profile.phone := Some "089876543210";
     Profile.birthDate := None;
     Profile.bio := None;
     Profile.longBio := None;
     Profile.address := None;
     Profile.profileJson := None |}.

(** The same request with a short username and a malformed email. *)
Definition request_invalid : Profile.ProfileData :=
  {| Profile.username := Some "abc";
     Profile.fullName := Some "Aku Baru";
     Profile.email := Some "aku.baru.mail.id";
     Profile.phone := Some "089876543210";
     Profile.birthDate := None;
     Profile.bio := None;
     Profile.longBio := None;
     Profile.address := None;
     Profile.profileJson := None |}.

(** A valid request but for its birth date. *)
Definition request_born (birthDate : string) : Profile.ProfileData :=
  {| Profile.username := Some "aku12345";
     Profile.fullName := Some "Aku Baru";
     Profile.email := Some "aku.baru@mail.id";
     Profile.phone := Some "089876543210";
     Profile.birthDate := Some birthDate;
     Profile.bio := None;
     Profile.longBio := None;
     Profile.address := None;
     Profile.profileJson := None |}.

(** A user with none of the optional columns filled in. *)
Definition blank (id : Z) (username : string) : users_row :=
  {| u_id := id;
     u_auth_id := None;
     u_username := username;
     u_full_name := username;
     u_birth_date := None;
     u_bio := None;
     u_long_bio := None;
     u_profile_json := None;
     u_address := None;
     u_phone_number := None;
     u_created_at := 1000;
     u_updated_at := 1000 |}.

(** Storage for the cleanup script: a fixed account with nothing filled
    in, two users with the same bio, address and phone number, and a
    user of poor quality; each has a log row, the third a role. *)
Definition db_cleanup : DB :=
  {| users := [ blank 1 "aku123"; user 2 1000 "dina"; user 3 1000 "dini";
                blank 4 "tamu" ];
     auth := [];
     user_roles :=
       [ {| ur_user_id := 3; ur_role := "member"; ur_created_at := 1100 |} ];
     user_divisions := [];
     user_logs := [ login 1 1100; login 2 1200; login 3 1300; login 4 1400 ] |}.

End Fixtures.

(** * Properties *)

(** ** Regular expressions: [RegExp_test] decides [matches] *)

Module JsFacts.
Import Js.

Lemma matches_eps_inv s : matches Eps s -> s = [].
Proof. by inversion 1. Qed.

Lemma matches_class_inv p s :
  matches (Class p) s -> exists c, s = [c] /\ p c = true.
Proof. inversion 1; eauto. Qed.

Lemma matches_cat_inv r1 r2 s :
  matches (Cat r1 r2) s ->
  exists s1 s2, s = s1 ++ s2 /\ matches r1 s1 /\ matches r2 s2.
Proof. inversion 1; eauto. Qed.

Lemma matches_alt_inv r1 r2 s :
  matches (Alt r1 r2) s -> matches r1 s \/ matches r2 s.
Proof. inversion 1; eauto. Qed.

Lemma matches_star_cons_inv r c s :
  matches (Star r) (c :: s) ->
  exists s1 s2, s = s1 ++ s2 /\ matches r (c :: s1) /\ matches (Star r) s2.
Proof.
  remember (Star r) as r' eqn:Hr. remember (c :: s) as cs eqn:Hcs.
  intros H. revert r c s Hr Hcs.
  induction H as [| | | | | |r0 s1 s2 H1 _ H2 IH2]; intros rr cc ss Hr Hcs;
    try discriminate.
  injection Hr as ->.
  destruct s1 as [|c1 s1]; simpl in Hcs.
  - by apply IH2.
  - injection Hcs as -> <-. eauto.
Qed.

Lemma nullable_spec r : nullable r = true <-> matches r [].
Proof.
  induction r as [| |p|r1 IH1 r2 IH2|r1 IH1 r2 IH2|r IH]; simpl.
  - split; [done | inversion 1].
  - split; [constructor | done].
  - split; [done | inversion 1].
  - rewrite andb_true_iff, IH1, IH2. split.
    + intros [H1 H2]. by apply (m_cat _ _ [] []).
    + intros (s1 & s2 & Hs & H1 & H2)%matches_cat_inv.
      symmetry in Hs. apply app_eq_nil in Hs as [-> ->]. done.
  - rewrite orb_true_iff, IH1, IH2. split.
    + intros [H|H]; [by apply m_alt_l | by apply m_alt_r].
    + apply matches_alt_inv.
  - split; [constructor | done].
Qed.

Lemma deriv_spec c r s : matches (deriv c r) s <-> matches r (c :: s).
Proof.
  revert s.
  induction r as [| |p|r1 IH1 r2 IH2|r1 IH1 r2 IH2|r IH]; intros s; simpl.
  - split; inversion 1.
  - split; inversion 1.
  - destruct (p c) eqn:Hp; split.
    + intros ->%matches_eps_inv. by constructor.
    + intros (c' & [= <- ->] & _)%matches_class_inv. constructor.
    + inversion 1.
    + intros (c' & [= <- ->] & Hp')%matches_class_inv. congruence.
  - assert (Hcat : matches (Cat (deriv c r1) r2) s <->
                   exists s1 s2, s = s1 ++ s2 /\ matches r1 (c :: s1)
                                 /\ matches r2 s2).
    { split.
      - intros (s1 & s2 & -> & H1 & H2)%matches_cat_inv.
        apply IH1 in H1. eauto.
      - intros (s1 & s2 & -> & H1 & H2). constructor; [by apply IH1 | done]. }
    assert (Hsplit : matches (Cat r1 r2) (c :: s) <->
                     (exists s1 s2, s = s1 ++ s2 /\ matches r1 (c :: s1)
                                    /\ matches r2 s2)
                     \/ (matches r1 [] /\ matches r2 (c :: s))).
    { split.
      - intros (s1 & s2 & Hs & H1 & H2)%matches_cat_inv.
        destruct s1 as [|c1 s1]; simpl in Hs.
        + subst s2. by right.
        + injection Hs as <- ->. left. eauto.
      - intros [(s1 & s2 & -> & H1 & H2) | [H1 H2]].
        + by apply (m_cat _ _ (c :: s1) s2).
        + by apply (m_cat _ _ [] (c :: s)). }
    rewrite Hsplit. destruct (nullable r1) eqn:Hn.
    + apply nullable_spec in Hn. split.
      * intros [H|H]%matches_alt_inv; [left; by apply Hcat |].
        right. split; [done | by apply IH2].
      * intros [H | [_ H]]; [apply m_alt_l; by apply Hcat |].
        apply m_alt_r. by apply IH2.
    + rewrite Hcat. split; [by left |].
      intros [H | [H _]]; [done |].
      apply nullable_spec in H. congruence.
  - split.
    + intros [H|H]%matches_alt_inv;
        [apply m_alt_l; by apply IH1 | apply m_alt_r; by apply IH2].
    + intros [H|H]%matches_alt_inv;
        [apply m_alt_l; by apply IH1 | apply m_alt_r; by apply IH2].
  - split.
    + intros (s1 & s2 & -> & H1 & H2)%matches_cat_inv.
      apply IH in H1. by apply (m_star_cons _ (c :: s1) s2).
    + intros (s1 & s2 & -> & H1 & H2)%matches_star_cons_inv.
      constructor; [by apply IH | done].
Qed.

Lemma fold_deriv_spec l r :
  nullable (fold_left (fun r c => deriv c r) l r) = true <-> matches r l.
Proof.
  revert r. induction l as [|c l IH]; intros r; simpl.
  - apply nullable_spec.
  - rewrite IH. apply deriv_spec.
Qed.

Lemma RegExp_test_spec r s :
  RegExp_test r s = true <-> matches r (String.list_ascii_of_string s).
Proof. apply fold_deriv_spec. Qed.

(** The patterns of the profile route are built from classes only. *)

Local Abbreviation all p := (Forall (fun c : ascii => p c = true)).

Lemma matches_star_class p s : matches (Star (Class p)) s <-> all p s.
Proof.
  split.
  - remember (Star (Class p)) as r eqn:Hr. intros H. revert Hr.
    induction H as [| | | | | |r0 s1 s2 H1 _ H2 IH2]; intros Hr;
      try discriminate.
    + constructor.
    + injection Hr as ->.
      apply matches_class_inv in H1 as (c & -> & Hc).
      constructor; [done | by apply IH2].
  - induction 1 as [|c s Hc _ IH]; [constructor |].
    apply (m_star_cons _ [c] s); [by constructor | done].
Qed.

Lemma matches_plus_class p s :
  matches (Plus (Class p)) s <-> s <> [] /\ all p s.
Proof.
  unfold Plus. split.
  - intros (s1 & s2 & -> & (c & -> & Hc)%matches_class_inv & H2)%matches_cat_inv.
    apply matches_star_class in H2. split; [done | by constructor].
  - intros [Hne Hall]. destruct Hall as [|c s Hc Hall]; [done |].
    apply (m_cat _ _ [c] s); [by constructor | by apply matches_star_class].
Qed.

Lemma matches_times_class n p s :
  matches (Times n (Class p)) s <-> length s = n /\ all p s.
Proof.
  revert s. induction n as [|n IH]; intros s; simpl.
  - split.
    + intros ->%matches_eps_inv. by split.
    + intros [->%nil_length_inv _]. constructor.
  - split.
    + intros (s1 & s2 & -> & (c & -> & Hc)%matches_class_inv
              & [Hlen Hall]%IH)%matches_cat_inv.
      simpl. split; [by rewrite Hlen | by constructor].
    + intros [Hlen Hall]. destruct Hall as [|c s Hc Hall]; [done |].
      apply (m_cat _ _ [c] s); [by constructor |].
      apply IH. split; [by injection Hlen | done].
Qed.

Lemma matches_times_opt_class n p s :
  matches (Times n (Opt (Class p))) s <-> (length s <= n)%nat /\ all p s.
Proof.
  revert s. induction n as [|n IH]; intros s; simpl.
  - split.
    + intros ->%matches_eps_inv. by split.
    + intros [Hlen _]. destruct s; [constructor | simpl in Hlen; lia].
  - split.
    + intros (s1 & s2 & -> & H1 & [Hlen Hall]%IH)%matches_cat_inv.
      apply matches_alt_inv in H1
        as [(c & -> & Hc)%matches_class_inv | ->%matches_eps_inv]; simpl.
      * split; [lia | by constructor].
      * split; [lia | done].
    + intros [Hlen Hall]. destruct Hall as [|c s Hc Hall].
      * apply (m_cat _ _ [] []); [apply m_alt_r; constructor |].
        apply IH. split; [simpl; lia | constructor].
      * apply (m_cat _ _ [c] s); [apply m_alt_l; by constructor |].
        apply IH. split; [simpl in Hlen; lia | done].
Qed.

Lemma matches_repeat_class lo extra p s :
  matches (Repeat lo extra (Class p)) s
  <-> (lo <= length s <= lo + extra)%nat /\ all p s.
Proof.
  unfold Repeat. split.
  - intros (s1 & s2 & -> & [Hl1 Ha1]%matches_times_class
            & [Hl2 Ha2]%matches_times_opt_class)%matches_cat_inv.
    rewrite length_app. split; [lia | by apply Forall_app].
  - intros [Hlen Hall]. rewrite <- (take_drop lo s).
    rewrite <- (take_drop lo s) in Hall. apply Forall_app in Hall as [Ha1 Ha2].
    constructor.
    + apply matches_times_class. split; [rewrite length_take; lia | done].
    + apply matches_times_opt_class.
      split; [rewrite length_drop; lia | done].
Qed.

Lemma is_char_spec a c : is_char a c = true <-> c = a.
Proof.
  unfold is_char, code. rewrite Z.eqb_eq. split; [| by intros ->].
  intros H%N2Z.inj. rewrite <- (ascii_N_embedding c), <- (ascii_N_embedding a).
  by rewrite H.
Qed.

Lemma string_length_chars s :
  String.length s = length (String.list_ascii_of_string s).
Proof. induction s as [|c s IH]; simpl; [done | by rewrite IH]. Qed.

(** *** Numbers *)

Lemma MAX_SAFE_INTEGER_eq : Js.MAX_SAFE_INTEGER = 9007199254740991.
Proof. reflexivity. Qed.

Lemma to_number_exact z : Z.abs z <= 2 ^ 53 -> Js.to_number z = z.
Proof.
  intros Hz. unfold Js.to_number.
  destruct (Z.abs z <=? 2 ^ 53) eqn:E; [done |]. apply Z.leb_gt in E. lia.
Qed.

Lemma to_number_sign z :
  (z < 0 -> Js.to_number z < 0) /\ (0 <= z -> 0 <= Js.to_number z).
Proof.
  unfold Js.to_number.
  destruct (Z.abs z <=? 2 ^ 53) eqn:E; [lia |]. apply Z.leb_gt in E.
  set (a := Z.abs z) in *. set (e := Z.log2 a - 52).
  assert (Ha : 0 < a) by lia.
  assert (Hlog : 53 <= Z.log2 a) by (apply Z.log2_le_pow2; lia).
  assert (Hpow : 0 < 2 ^ e) by (apply Z.pow_pos_nonneg; lia).
  assert (Hq : 1 <= a / 2 ^ e).
  { apply Z.div_le_lower_bound; [done |]. rewrite Z.mul_1_r.
    etrans; [apply (Z.pow_le_mono_r 2 e (Z.log2 a)); lia |].
    apply Z.log2_spec. lia. }
  set (q := a / 2 ^ e) in *.
  assert (Hq' : 1 <= (if a mod 2 ^ e <? 2 ^ (e - 1) then q
                      else if 2 ^ (e - 1) <? a mod 2 ^ e then q + 1
                      else if Z.even q then q else q + 1)).
  { destruct (_ <? _); [done |]. destruct (_ <? _); [lia |].
    destruct (Z.even q); lia. }
  split; intros Hz.
  - rewrite Z.sgn_neg by done. nia.
  - rewrite Z.sgn_pos by lia. nia.
Qed.

(** The offset of a page is exact where page times page size is a safe
    integer. *)
Lemma offset_exact page pageSize :
  1 <= page <= Js.MAX_SAFE_INTEGER -> 0 <= pageSize ->
  (page - 1) * pageSize <= Js.MAX_SAFE_INTEGER ->
  Js.mul (Js.sub page 1) pageSize = (page - 1) * pageSize.
Proof.
  rewrite MAX_SAFE_INTEGER_eq. intros Hp Hs Hsafe. unfold Js.mul, Js.sub.
  rewrite (to_number_exact (page - 1)) by lia.
  apply to_number_exact. nia.
Qed.

End JsFacts.

(** ** The user listing *)

Module UsersFacts.
Import Storage Users UsersSpec.

(** *** The storage-level helpers *)

Lemma left_join_nonempty {A} (P : A -> Prop) `{!forall x, Decision (P x)}
    (tbl : list A) :
  left_join P tbl <> [].
Proof. unfold left_join. by destruct (filter P tbl). Qed.

Lemma left_join_no_match {A} (P : A -> Prop) `{!forall x, Decision (P x)}
    (tbl : list A) :
  (forall x, x ∈ tbl -> ~ P x) -> left_join P tbl = [None].
Proof.
  intros Hno. unfold left_join.
  destruct (filter P tbl) as [|x l] eqn:Hf; [done |].
  assert (Hx : x ∈ filter P tbl) by (rewrite Hf; left).
  apply list_elem_of_filter in Hx as [HP Hx]. by destruct (Hno x Hx).
Qed.

Lemma elem_of_left_join_Some {A} (P : A -> Prop) `{!forall x, Decision (P x)}
    (tbl : list A) (x : A) :
  Some x ∈ left_join P tbl <-> P x /\ x ∈ tbl.
Proof.
  rewrite <- (list_elem_of_filter P). unfold left_join.
  destruct (filter P tbl) as [|y l].
  - rewrite list_elem_of_singleton. split; [done | by intros ?%elem_of_nil].
  - rewrite list_elem_of_fmap. split.
    + by intros (z & [= ->] & Hz).
    + intros Hx. eauto.
Qed.

Lemma elem_of_left_join_None {A} (P : A -> Prop) `{!forall x, Decision (P x)}
    (tbl : list A) :
  None ∈ left_join P tbl <-> forall x, x ∈ tbl -> ~ P x.
Proof.
  split.
  - unfold left_join. destruct (filter P tbl) as [|y l] eqn:Hf.
    + intros _ x Hx HP. by apply (filter_nil_not_elem_of P tbl x).
    + by intros (z & [=] & _)%list_elem_of_fmap.
  - intros Hno. rewrite left_join_no_match by done. left.
Qed.

Lemma count_nonneg {A} (P : A -> Prop) `{!forall x, Decision (P x)}
    (tbl : list A) :
  0 <= count P tbl.
Proof. unfold count. lia. Qed.

Lemma count_zero {A} (P : A -> Prop) `{!forall x, Decision (P x)}
    (tbl : list A) :
  (forall x, x ∈ tbl -> ~ P x) -> count P tbl = 0.
Proof.
  intros Hno. unfold count.
  destruct (filter P tbl) as [|x l] eqn:Hf; [done |].
  assert (Hx : x ∈ filter P tbl) by (rewrite Hf; left).
  apply list_elem_of_filter in Hx as [HP Hx]. by destruct (Hno x Hx).
Qed.

(** The window of LIMIT/OFFSET, by position and by size. *)
Lemma window_min {A} (n k : Z) (rows : list A) :
  let len := Z.of_nat (length rows) in
  take (Z.to_nat (Z.min n len)) (drop (Z.to_nat (Z.min k len)) rows)
  = take (Z.to_nat n) (drop (Z.to_nat k) rows).
Proof.
  simpl.
  assert (Hdrop : drop (Z.to_nat (Z.min k (Z.of_nat (length rows)))) rows
                  = drop (Z.to_nat k) rows).
  { destruct (decide (k <= Z.of_nat (length rows))) as [Hk|Hk].
    - by rewrite Z.min_l.
    - rewrite Z.min_r by lia. by rewrite !drop_ge by lia. }
  rewrite Hdrop.
  destruct (decide (n <= Z.of_nat (length rows))) as [Hn|Hn].
  - by rewrite Z.min_l.
  - rewrite Z.min_r by lia. rewrite !take_ge; [done | |];
      rewrite length_drop; lia.
Qed.

Lemma limit_offset_rows {A} (n k : Z) (rows : list A) :
  0 <= n <= max_bigint -> 0 <= k <= max_bigint ->
  limit_offset n k rows = Rows (take (Z.to_nat n) (drop (Z.to_nat k) rows)).
Proof.
  intros Hn Hk. unfold limit_offset.
  destruct (n <? 0) eqn:En; [lia |]. destruct (k <? 0) eqn:Ek; [lia |].
  destruct (max_bigint <? n) eqn:En'; [lia |].
  destruct (max_bigint <? k) eqn:Ek'; [lia |].
  simpl. by rewrite window_min.
Qed.

Lemma limit_offset_inv {A} (n k : Z) (rows page : list A) :
  limit_offset n k rows = Rows page ->
  0 <= n <= max_bigint /\ 0 <= k <= max_bigint
  /\ page = take (Z.to_nat n) (drop (Z.to_nat k) rows).
Proof.
  unfold limit_offset.
  destruct (n <? 0) eqn:En; [done |]. destruct (k <? 0) eqn:Ek; [done |].
  destruct (max_bigint <? n) eqn:En'; [done |].
  destruct (max_bigint <? k) eqn:Ek'; [done |].
  simpl. rewrite window_min. intros [= <-]. repeat split; lia.
Qed.

Lemma limit_offset_error {A} (n k : Z) (rows : list A) :
  limit_offset n k rows = QueryError
  <-> n < 0 \/ k < 0 \/ max_bigint < n \/ max_bigint < k.
Proof.
  unfold limit_offset.
  destruct (n <? 0) eqn:En; [split; [lia | done] |].
  destruct (k <? 0) eqn:Ek; [split; [lia | done] |].
  destruct (max_bigint <? n) eqn:En'; [split; [lia | done] |].
  destruct (max_bigint <? k) eqn:Ek'; [split; [lia | done] |].
  simpl. split; [done | lia].
Qed.

Lemma max_bigint_eq : max_bigint = 9223372036854775807.
Proof. reflexivity. Qed.

Lemma window_length {A} (n k : Z) (rows : list A) :
  0 <= n -> 0 <= k ->
  Z.of_nat (length (take (Z.to_nat n) (drop (Z.to_nat k) rows)))
  = Z.min n (Z.max 0 (Z.of_nat (length rows) - k)).
Proof. intros Hn Hk. rewrite length_take, length_drop. lia. Qed.

Lemma window_lookup {A} (n k i : nat) (rows : list A) (x : A) :
  take n (drop k rows) !! i = Some x -> rows !! (k + i)%nat = Some x.
Proof.
  intros H. rewrite <- lookup_drop.
  destruct (decide (i < n)%nat) as [Hi|Hi].
  - by rewrite lookup_take_lt in H.
  - apply lookup_lt_Some in H. rewrite length_take in H. lia.
Qed.

(** *** Ordering *)

#[global] Instance order_by_total : Total order_by.
Proof. intros r1 r2. unfold order_by. lia. Qed.

#[global] Instance order_by_trans : Transitive order_by.
Proof. intros r1 r2 r3. unfold order_by. lia. Qed.

Lemma ordered_rows_sorted db param :
  StronglySorted order_by (ordered_rows db param).
Proof. unfold ordered_rows. apply StronglySorted_merge_sort; apply _. Qed.

Lemma ordered_rows_elem_of db param r :
  r ∈ ordered_rows db param
  <-> where_clause param (Row.division_name r) /\ r ∈ select_from_joins db.
Proof.
  unfold ordered_rows. rewrite merge_sort_Permutation.
  by rewrite list_elem_of_filter.
Qed.

Lemma StronglySorted_lookup {A} (R : relation A) (l : list A) i j x y :
  StronglySorted R l -> (i < j)%nat ->
  l !! i = Some x -> l !! j = Some y -> R x y.
Proof.
  intros Hs. revert i j. induction Hs as [|a l Hs IH Hall]; intros i j Hij Hi Hj.
  - done.
  - destruct j as [|j]; [lia |]. destruct i as [|i]; simpl in *.
    + injection Hi as ->. by apply (Forall_lookup_1 _ _ j y Hall).
    + apply (IH i j); [lia | done | done].
Qed.

(** *** The handler, unfolded *)

Lemma listUsers_inv db h divisionFilter page pageSize body :
  listUsers db h divisionFilter page pageSize = Ok200 body ->
  let param := division_param divisionFilter in
  let offset := Js.mul (Js.sub page 1) pageSize in
  let window :=
    take (Z.to_nat pageSize) (drop (Z.to_nat offset) (ordered_rows db param)) in
  0 <= pageSize <= max_bigint /\ 0 <= offset <= max_bigint
  /\ body_users body = shape h <$> window
  /\ total body = countQuery db param
  /\ totalPages body = Js.Math_ceil_div (countQuery db param) pageSize
  /\ body_summary body = summarize (shape h <$> window).
Proof.
  unfold listUsers, query.
  destruct (limit_offset _ _ _) as [rows|] eqn:Hq; [| done].
  apply limit_offset_inv in Hq as (Hn & Hk & ->).
  intros [= <-]. simpl. done.
Qed.

Lemma listUsers_ok db h divisionFilter page pageSize :
  1 <= page <= Js.MAX_SAFE_INTEGER -> 0 <= pageSize <= Js.MAX_SAFE_INTEGER ->
  (page - 1) * pageSize <= Js.MAX_SAFE_INTEGER ->
  exists body, listUsers db h divisionFilter page pageSize = Ok200 body.
Proof.
  intros Hp Hs Hsafe. unfold listUsers, query.
  rewrite JsFacts.offset_exact by (done || lia).
  rewrite JsFacts.MAX_SAFE_INTEGER_eq in Hp, Hs, Hsafe.
  rewrite limit_offset_rows by (rewrite max_bigint_eq; nia). eauto.
Qed.

(** Without [page] and [pageSize] in the URL the handler serves the
    first page of twenty; parameters that are not numbers end in the
    500 response. *)
Lemma GET_defaults db h division :
  GET db h division None None = listUsers db h division 1 20.
Proof. reflexivity. Qed.

Lemma GET_not_a_number db h division pageSize :
  GET db h division (Some "first") pageSize = Error500.
Proof. unfold GET. by destruct (Js.parseInt (Js.or_default pageSize "20")). Qed.

(** The rows of a page are in the order of the query: of two rows, the
    earlier one has the later or equal creation time, and when the
    creation times agree the earlier one has the greater or equal id.
    Nothing keeps two rows from agreeing in both. *)
Lemma listUsers_rows_ordered db h divisionFilter page pageSize body
    (i j : nat) (vi vj : UserView) :
  listUsers db h divisionFilter page pageSize = Ok200 body ->
  (i < j)%nat ->
  body_users body !! i = Some vi ->
  body_users body !! j = Some vj ->
  createdAt vj <= createdAt vi
  /\ (createdAt vi = createdAt vj -> id vj <= id vi).
Proof.
  intros Hok Hij Hi Hj.
  apply listUsers_inv in Hok as (_ & _ & Husers & _). rewrite Husers in Hi, Hj.
  apply list_lookup_fmap_Some in Hi as (ri & -> & Hi).
  apply list_lookup_fmap_Some in Hj as (rj & -> & Hj).
  apply window_lookup in Hi, Hj.
  assert (Hord : order_by ri rj).
  { eapply (StronglySorted_lookup order_by); [apply ordered_rows_sorted | | done..].
    lia. }
  unfold order_by in Hord. simpl. lia.
Qed.

(** *** Users without child rows *)

Lemma user_stats_user_id db us :
  us ∈ user_stats db -> exists l, l ∈ user_logs db /\ ul_user_id l = us_user_id us.
Proof.
  unfold user_stats. intros (uid & -> & Huid)%list_elem_of_fmap. simpl.
  apply elem_of_remove_dups, list_elem_of_fmap in Huid as (l & -> & Hl). eauto.
Qed.

Lemma user_role_stats_user_id db urs :
  urs ∈ user_role_stats db ->
  exists r, r ∈ user_roles db /\ ur_user_id r = fst urs.
Proof.
  unfold user_role_stats. intros (uid & -> & Huid)%list_elem_of_fmap. simpl.
  apply elem_of_remove_dups, list_elem_of_fmap in Huid as (r & -> & Hr). eauto.
Qed.

Lemma user_division_stats_user_id db uds :
  uds ∈ user_division_stats db ->
  exists d, d ∈ user_divisions db /\ ud_user_id d = fst uds.
Proof.
  unfold user_division_stats. intros (uid & -> & Huid)%list_elem_of_fmap. simpl.
  apply elem_of_remove_dups, list_elem_of_fmap in Huid as (d & -> & Hd). eauto.
Qed.

(** Every position of the ordered rows falls into the window of some
    page, whatever the page size. *)
Lemma window_covers {A} (rows : list A) (i : nat) (x : A) (pageSize : Z) :
  1 <= pageSize -> rows !! i = Some x ->
  exists page, 1 <= page
    /\ (page - 1) * pageSize <= Z.of_nat i
    /\ x ∈ take (Z.to_nat pageSize)
             (drop (Z.to_nat ((page - 1) * pageSize)) rows).
Proof.
  intros Hs Hi. set (n := Z.to_nat pageSize).
  assert (Hn : (0 < n)%nat) by lia.
  exists (Z.of_nat (i / n) + 1). split; [lia |].
  split.
  { pose proof (Nat.div_mod_eq i n) as Hdm.
    replace pageSize with (Z.of_nat n) by lia. nia. }
  replace (Z.to_nat ((Z.of_nat (i / n) + 1 - 1) * pageSize))
    with (i / n * n)%nat by lia.
  apply (list_elem_of_lookup_2 _ (i mod n)).
  rewrite lookup_take_lt by (apply Nat.mod_upper_bound; lia).
  rewrite lookup_drop.
  replace (i / n * n + i mod n)%nat with i; [done |].
  rewrite (Nat.div_mod_eq i n) at 1. lia.
Qed.

(** C8.  A user without any log, role or division row is on some page of
    every unfiltered listing, with the three counts at zero, no role, no
    division, and neither active nor senior; the page size is a safe
    integer of at least one, and so is the number of rows to list. *)
Theorem user_without_children_listed db h divisionFilter pageSize
    (u : users_row) :
  division_param divisionFilter = None ->
  1 <= pageSize <= Js.MAX_SAFE_INTEGER ->
  fits db ->
  u ∈ users db ->
  (forall l, l ∈ user_logs db -> ul_user_id l <> u_id u) ->
  (forall r, r ∈ user_roles db -> ur_user_id r <> u_id u) ->
  (forall d, d ∈ user_divisions db -> ud_user_id d <> u_id u) ->
  exists page body v,
    1 <= page
    /\ listUsers db h divisionFilter page pageSize = Ok200 body
    /\ v ∈ body_users body
    /\ id v = u_id u /\ username v = u_username u
    /\ logCount v = 0 /\ roleCount v = 0 /\ divisionCount v = 0
    /\ role v = None /\ division v = None
    /\ isActive v = false /\ isSenior v = false.
Proof.
  intros Hparam Hs Hfits Hu Hlogs Hroles Hdivs.
  destruct (left_join (fun a => u_auth_id u = Some (a_id a)) (auth db))
    as [|a la] eqn:Ha; [by apply left_join_nonempty in Ha |].
  set (r := {| Row.id := u_id u;
       Row.username := u_username u;
       Row.full_name := u_full_name u;
       Row.birth_date := u_birth_date u;
       Row.bio := u_bio u;
       Row.long_bio := u_long_bio u;
       Row.profile_json := u_profile_json u;
       Row.address := u_address u;
       Row.phone_number := u_phone_number u;
       Row.created_at := u_created_at u;
       Row.updated_at := u_updated_at u;
       Row.email := a_email <$> a;
       Row.role := None;
       Row.division_name := None;
       Row.log_count := 0;
       Row.role_count := 0;
       Row.division_count := 0;
       Row.login_count := 0;
       Row.update_count := 0 |}).
  assert (Hr : r ∈ select_from_joins db).
  { unfold select_from_joins, joined_rows.
    apply list_elem_of_bind. exists u. split; [| done].
    apply list_elem_of_bind. exists a. split; [| rewrite Ha; left].
    apply list_elem_of_bind. exists None. split.
    2:{ apply elem_of_left_join_None. intros x Hx Heq.
        by apply (Hroles x Hx). }
    apply list_elem_of_bind. exists None. split.
    2:{ apply elem_of_left_join_None. intros x Hx Heq.
        by apply (Hdivs x Hx). }
    apply list_elem_of_bind. exists None. split.
    2:{ apply elem_of_left_join_None. intros x Hx Heq.
        apply user_stats_user_id in Hx as (l & Hl & Hid).
        apply (Hlogs l Hl). congruence. }
    apply list_elem_of_bind. exists None. split.
    2:{ apply elem_of_left_join_None. intros x Hx Heq.
        apply user_role_stats_user_id in Hx as (l & Hl & Hid).
        apply (Hroles l Hl). congruence. }
    apply list_elem_of_bind. exists None. split.
    2:{ apply elem_of_left_join_None. intros x Hx Heq.
        apply user_division_stats_user_id in Hx as (l & Hl & Hid).
        apply (Hdivs l Hl). congruence. }
    apply list_elem_of_singleton. done. }
  assert (Hr' : r ∈ ordered_rows db None).
  { apply ordered_rows_elem_of. by split. }
  apply list_elem_of_lookup_1 in Hr' as [i Hi].
  assert (Hlt : Z.of_nat i < Js.MAX_SAFE_INTEGER).
  { apply lookup_lt_Some in Hi. unfold ordered_rows in Hi.
    rewrite (Permutation_length (merge_sort_Permutation _ _)) in Hi.
    pose proof (length_filter (fun r => where_clause None (Row.division_name r))
                  (select_from_joins db)) as Hlen.
    unfold fits in Hfits. lia. }
  destruct (window_covers _ i r pageSize (proj1 Hs) Hi)
    as (page & Hp & Hoff & Hin).
  assert (Hpage : 1 <= page <= Js.MAX_SAFE_INTEGER) by nia.
  destruct (listUsers_ok db h divisionFilter page pageSize)
    as [body Hbody]; [done | lia | lia |].
  exists page, body, (shape h r). split; [lia |]. split; [done |].
  apply listUsers_inv in Hbody as (_ & _ & Husers & _).
  rewrite Husers, Hparam.
  rewrite JsFacts.offset_exact by (done || lia).
  split; [by apply list_elem_of_fmap_2 |].
  done.
Qed.

(** *** The total *)

Lemma where_clause_join db param (u : users_row) :
  (exists ud,
      ud ∈ left_join (fun ud => u_id u = ud_user_id ud) (user_divisions db)
      /\ where_clause param (ud_division_name <$> ud))
  <-> in_division db param (u_id u).
Proof.
  destruct param as [d|]; simpl.
  - split.
    + intros ([ud|] & Hud & Hw); [| done].
      apply elem_of_left_join_Some in Hud as [Hid Hud].
      injection Hw as Hname. eauto.
    + intros (ud & Hud & Hid & Hname). exists (Some ud). split.
      * by apply elem_of_left_join_Some.
      * simpl. by rewrite Hname.
  - split; [done |]. intros _.
    destruct (left_join (fun ud => u_id u = ud_user_id ud) (user_divisions db))
      as [|ud l] eqn:Hj; [by apply left_join_nonempty in Hj |].
    exists ud. split; [left | done].
Qed.

Lemma counted_ids db param uid :
  uid ∈ fst <$> filter (fun r => where_clause param (snd r))
                       (count_from_joins db)
  <-> exists u, u ∈ users db /\ u_id u = uid /\ in_division db param uid.
Proof.
  rewrite list_elem_of_fmap. split.
  - intros ([uid' dn] & -> & [Hw Hin]%list_elem_of_filter). simpl in *.
    unfold count_from_joins, joined_divisions in Hin.
    apply list_elem_of_bind in Hin as (u & Hin & Hu).
    apply list_elem_of_bind in Hin as (ud & Hin & Hud).
    apply list_elem_of_singleton in Hin as [= -> ->].
    exists u. split; [done |]. split; [done |].
    apply where_clause_join. eauto.
  - intros (u & Hu & <- & (ud & Hud & Hw)%where_clause_join).
    exists (u_id u, ud_division_name <$> ud). split; [done |].
    apply list_elem_of_filter. split; [done |].
    unfold count_from_joins, joined_divisions.
    apply list_elem_of_bind. exists u. split; [| done].
    apply list_elem_of_bind. exists ud. split; [| done].
    by apply list_elem_of_singleton.
Qed.

Lemma selected_ids db param uid :
  (exists r, r ∈ ordered_rows db param /\ Row.id r = uid)
  <-> exists u, u ∈ users db /\ u_id u = uid /\ in_division db param uid.
Proof.
  split.
  - intros (r & [Hw Hin]%ordered_rows_elem_of & <-).
    unfold select_from_joins, joined_rows in Hin.
    apply list_elem_of_bind in Hin as (u & Hin & Hu).
    apply list_elem_of_bind in Hin as (a & Hin & _).
    apply list_elem_of_bind in Hin as (ur & Hin & _).
    apply list_elem_of_bind in Hin as (ud & Hin & Hud).
    apply list_elem_of_bind in Hin as (us & Hin & _).
    apply list_elem_of_bind in Hin as (urs & Hin & _).
    apply list_elem_of_bind in Hin as (uds & Hin & _).
    apply list_elem_of_singleton in Hin as ->. simpl in *.
    exists u. split; [done |]. split; [done |].
    apply where_clause_join. eauto.
  - intros (u & Hu & <- & (ud & Hud & Hw)%where_clause_join).
    destruct (left_join (fun a => u_auth_id u = Some (a_id a)) (auth db))
      as [|a la] eqn:Ha; [by apply left_join_nonempty in Ha |].
    destruct (left_join (fun ur => u_id u = ur_user_id ur) (user_roles db))
      as [|ur lur] eqn:Hur; [by apply left_join_nonempty in Hur |].
    destruct (left_join (fun us => u_id u = us_user_id us) (user_stats db))
      as [|us lus] eqn:Hus; [by apply left_join_nonempty in Hus |].
    destruct (left_join (fun urs => u_id u = fst urs) (user_role_stats db))
      as [|urs lurs] eqn:Hurs; [by apply left_join_nonempty in Hurs |].
    destruct (left_join (fun uds => u_id u = fst uds) (user_division_stats db))
      as [|uds luds] eqn:Huds; [by apply left_join_nonempty in Huds |].
    eexists. split; [| shelve].
    apply ordered_rows_elem_of. split; [shelve |].
    unfold select_from_joins, joined_rows.
    apply list_elem_of_bind. exists u. split; [| done].
    apply list_elem_of_bind. exists a. split; [| rewrite Ha; left].
    apply list_elem_of_bind. exists ur. split; [| rewrite Hur; left].
    apply list_elem_of_bind. exists ud. split; [| done].
    apply list_elem_of_bind. exists us. split; [| rewrite Hus; left].
    apply list_elem_of_bind. exists urs. split; [| rewrite Hurs; left].
    apply list_elem_of_bind. exists uds. split; [| rewrite Huds; left].
    apply list_elem_of_singleton. reflexivity.
    Unshelve. all: done.
Qed.

Lemma Math_ceil_div_spec (a b : Z) :
  1 <= b ->
  exists n, Js.Math_ceil_div a b = Some n /\ (n - 1) * b < a <= n * b.
Proof.
  intros Hb. unfold Js.Math_ceil_div.
  destruct (b =? 0) eqn:E; [lia |]. eexists. split; [done |].
  pose proof (Z.div_mod (- a) b ltac:(lia)) as Hdm.
  pose proof (Z.mod_pos_bound (- a) b ltac:(lia)) as Hmod.
  nia.
Qed.

(** C4.  For a fixed storage and division filter, and a page and a page
    size of at least one whose product is a safe integer, the total is
    the number of distinct user ids that satisfy the WHERE predicate,
    which are the ids of the rows of the main query before its window;
    it is the total of every other response to the same filter; and the
    page count is the ceiling of total over page size. *)
Theorem total_counts_distinct_users db h divisionFilter page pageSize :
  1 <= page -> 1 <= pageSize -> page * pageSize <= Js.MAX_SAFE_INTEGER ->
  exists body ids,
    listUsers db h divisionFilter page pageSize = Ok200 body
    /\ NoDup ids
    /\ total body = Z.of_nat (length ids)
    /\ (forall uid, uid ∈ ids <->
          exists u, u ∈ users db /\ u_id u = uid
                    /\ in_division db (division_param divisionFilter) uid)
    /\ (forall uid, uid ∈ ids <->
          exists r, r ∈ ordered_rows db (division_param divisionFilter)
                    /\ Row.id r = uid)
    /\ (forall page' pageSize' body',
          listUsers db h divisionFilter page' pageSize' = Ok200 body' ->
          total body' = total body)
    /\ (exists n, totalPages body = Some n
                  /\ (n - 1) * pageSize < total body <= n * pageSize).
Proof.
  intros Hp Hs Hsafe.
  destruct (listUsers_ok db h divisionFilter page pageSize)
    as [body Hbody]; [nia | nia | nia |].
  set (param := division_param divisionFilter).
  exists body,
    (remove_dups (fst <$> filter (fun r => where_clause param (snd r))
                                 (count_from_joins db))).
  split; [done |].
  apply listUsers_inv in Hbody as (_ & _ & _ & Htotal & Hpages & _).
  split; [apply NoDup_remove_dups |]. split; [done |].
  split; [intros uid; rewrite elem_of_remove_dups; apply counted_ids |].
  split.
  { intros uid. rewrite elem_of_remove_dups, counted_ids.
    symmetry. apply selected_ids. }
  split.
  { intros page' pageSize' body' Hbody'.
    apply listUsers_inv in Hbody' as (_ & _ & _ & Htotal' & _). congruence. }
  rewrite Hpages, Htotal. by apply Math_ceil_div_spec.
Qed.

(** *** The size of a page *)

(** The page holds the rows of the main query that fall into the window:
    their number is the page size, cut by what is left of the ordered
    rows after the offset. *)
Lemma listUsers_page_length db h divisionFilter page pageSize body :
  listUsers db h divisionFilter page pageSize = Ok200 body ->
  Z.of_nat (length (body_users body))
  = Z.min pageSize
      (Z.max 0 (Z.of_nat (length (ordered_rows db (division_param divisionFilter)))
                - Js.mul (Js.sub page 1) pageSize)).
Proof.
  intros (Hn & Hk & Husers & _)%listUsers_inv.
  rewrite Husers, length_fmap. apply window_length; lia.
Qed.

(** *** Storage without fan-out

    When user and auth ids are keys and no user holds more than one role
    row or more than one division row, every user yields one row of the
    main query, and the ordered rows are as many as the total. *)

Lemma remove_dups_NoDup `{EqDecision A} (l : list A) :
  NoDup l -> remove_dups l = l.
Proof.
  induction 1 as [|x l Hx _ IH]; simpl; [done |].
  destruct (decide_rel elem_of x l) as [Hin|_]; [by destruct Hx | by rewrite IH].
Qed.

Lemma left_join_single {A B} (P : A -> Prop) `{!forall x, Decision (P x)}
    (key : A -> B) (tbl : list A) :
  NoDup (key <$> tbl) ->
  (forall x y, P x -> P y -> key x = key y) ->
  exists o, left_join P tbl = [o].
Proof.
  intros Hnodup Hkey. unfold left_join.
  assert (Hlen : (length (filter P tbl) <= 1)%nat).
  { induction tbl as [|a tbl IH]; [simpl; lia |].
    rewrite fmap_cons in Hnodup. apply NoDup_cons in Hnodup as [Ha Hnodup].
    rewrite filter_cons. destruct (decide (P a)) as [HPa|]; [| by apply IH].
    destruct (filter P tbl) as [|y l] eqn:Hf; [simpl; lia |].
    assert (Hy : y ∈ filter P tbl) by (rewrite Hf; left).
    apply list_elem_of_filter in Hy as [HPy Hy].
    destruct Ha. rewrite (Hkey a y HPa HPy). by apply list_elem_of_fmap_2. }
  destruct (filter P tbl) as [|x [|y l]]; simpl in *; [eauto | eauto | lia].
Qed.

Lemma fmap_group_key {A B} (key : B -> A) (group : A -> B) (l : list A) :
  (forall x, key (group x) = x) -> key <$> (group <$> l) = l.
Proof.
  intros Hkey. induction l as [|x l IH]; [done |].
  by rewrite !fmap_cons, Hkey, IH.
Qed.

Section NoFanOut.
Variable db : DB.
Hypothesis users_key : NoDup (u_id <$> users db).
Hypothesis auth_key : NoDup (a_id <$> auth db).
Hypothesis one_role : NoDup (ur_user_id <$> user_roles db).
Hypothesis one_division : NoDup (ud_user_id <$> user_divisions db).

Lemma user_stats_key : NoDup (us_user_id <$> user_stats db).
Proof.
  unfold user_stats. rewrite fmap_group_key by done. apply NoDup_remove_dups.
Qed.

Lemma user_role_stats_key : NoDup (fst <$> user_role_stats db).
Proof.
  unfold user_role_stats. rewrite fmap_group_key by done. apply NoDup_remove_dups.
Qed.

Lemma user_division_stats_key : NoDup (fst <$> user_division_stats db).
Proof.
  unfold user_division_stats. rewrite fmap_group_key by done. apply NoDup_remove_dups.
Qed.

Lemma joined_rows_single (u : users_row) :
  exists r ud,
    joined_rows db u = [r]
    /\ joined_divisions db u = [(u_id u, ud_division_name <$> ud)]
    /\ Row.id r = u_id u
    /\ Row.division_name r = ud_division_name <$> ud.
Proof.
  unfold joined_rows, joined_divisions.
  destruct (left_join_single (fun a => u_auth_id u = Some (a_id a)) a_id
              (auth db) auth_key) as [a ->]; [congruence |].
  destruct (left_join_single (fun ur => u_id u = ur_user_id ur) ur_user_id
              (user_roles db) one_role) as [ur ->]; [congruence |].
  destruct (left_join_single (fun ud => u_id u = ud_user_id ud) ud_user_id
              (user_divisions db) one_division) as [ud ->]; [congruence |].
  destruct (left_join_single (fun us => u_id u = us_user_id us) us_user_id
              (user_stats db) user_stats_key) as [us ->]; [congruence |].
  destruct (left_join_single (fun urs => u_id u = fst urs) fst
              (user_role_stats db) user_role_stats_key) as [urs ->];
    [congruence |].
  destruct (left_join_single (fun uds => u_id u = fst uds) fst
              (user_division_stats db) user_division_stats_key) as [uds ->];
    [congruence |].
  eexists _, ud. simpl. done.
Qed.

Lemma joins_agree (param : option string) (l : list users_row) :
  length (filter (fun r => where_clause param (Row.division_name r))
                 (l ≫= joined_rows db))
  = length (filter (fun r => where_clause param (snd r))
                   (l ≫= joined_divisions db))
  /\ Row.id <$> (l ≫= joined_rows db) = u_id <$> l
  /\ fst <$> filter (fun r => where_clause param (snd r))
                    (l ≫= joined_divisions db)
     `sublist_of` u_id <$> l.
Proof.
  induction l as [|u l (IHlen & IHids & IHsub)]; [by split |].
  rewrite !bind_cons, !filter_app, !length_app, !fmap_app, IHlen, IHids.
  destruct (joined_rows_single u) as (r & ud & -> & -> & Hid & Hdn).
  rewrite !filter_cons, !filter_nil. simpl. rewrite Hdn, Hid.
  destruct (decide (where_clause param (ud_division_name <$> ud))); simpl.
  - split; [done |]. split; [done |]. by apply sublist_skip.
  - split; [done |]. split; [done |]. by apply sublist_cons.
Qed.

Lemma ordered_rows_length param :
  Z.of_nat (length (ordered_rows db param)) = countQuery db param.
Proof.
  unfold ordered_rows, countQuery, select_from_joins, count_from_joins.
  rewrite (Permutation_length (merge_sort_Permutation _ _)).
  destruct (joins_agree param (users db)) as (Hlen & _ & Hsub).
  rewrite remove_dups_NoDup by apply (sublist_NoDup _ _ users_key Hsub).
  by rewrite length_fmap, Hlen.
Qed.

(** On such storage the page has
    [min(pageSize, max(0, total - (page-1)*pageSize))] rows. *)
Lemma listUsers_page_length_total h divisionFilter page pageSize body :
  1 <= page <= Js.MAX_SAFE_INTEGER ->
  (page - 1) * pageSize <= Js.MAX_SAFE_INTEGER ->
  listUsers db h divisionFilter page pageSize = Ok200 body ->
  Z.of_nat (length (body_users body))
  = Z.min pageSize (Z.max 0 (total body - (page - 1) * pageSize)).
Proof.
  intros Hp Hsafe Hbody. rewrite (listUsers_page_length _ _ _ _ _ _ Hbody).
  apply listUsers_inv in Hbody as (Hs & _ & _ & -> & _).
  rewrite JsFacts.offset_exact by (done || lia).
  by rewrite ordered_rows_length.
Qed.

(** and no user id comes twice. *)
Lemma listUsers_ids_distinct h divisionFilter page pageSize body :
  listUsers db h divisionFilter page pageSize = Ok200 body ->
  NoDup (id <$> body_users body).
Proof.
  intros (_ & _ & -> & _)%listUsers_inv.
  rewrite <- list_fmap_compose.
  change (id ∘ shape h) with Row.id.
  eapply sublist_NoDup; [| apply fmap_sublist, sublist_take].
  eapply sublist_NoDup; [| apply fmap_sublist, sublist_drop].
  unfold ordered_rows. rewrite merge_sort_Permutation.
  eapply sublist_NoDup; [| apply fmap_sublist, sublist_filter].
  unfold select_from_joins.
  destruct (joins_agree None (users db)) as (_ & -> & _). done.
Qed.

(** and the order of a page is strict: of two rows the earlier one has
    the later creation time, or the same and the greater id. *)
Lemma listUsers_rows_strictly_ordered h divisionFilter page pageSize body
    (i j : nat) (vi vj : UserView) :
  listUsers db h divisionFilter page pageSize = Ok200 body ->
  (i < j)%nat ->
  body_users body !! i = Some vi ->
  body_users body !! j = Some vj ->
  createdAt vj < createdAt vi
  \/ (createdAt vi = createdAt vj /\ id vj < id vi).
Proof.
  intros Hok Hij Hi Hj.
  destruct (listUsers_rows_ordered _ _ _ _ _ _ _ _ _ _ Hok Hij Hi Hj)
    as [Hc Hid].
  assert (Hne : id vi <> id vj).
  { intros Heq. pose proof (listUsers_ids_distinct _ _ _ _ _ Hok) as Hnd.
    assert (i = j); [| lia].
    apply (NoDup_lookup _ i j (id vi) Hnd); rewrite list_lookup_fmap.
    - by rewrite Hi.
    - by rewrite Hj, Heq. }
  lia.
Qed.

End NoFanOut.

(** *** The summary by division *)

Lemma own_count_comm (j1 j2 : string) (z1 z2 : Js.value) (y : Z) :
  own_count z1 + (own_count z2 + y) = own_count z2 + (own_count z1 + y).
Proof. lia. Qed.

Lemma counts_sum_insert_new (o : gmap string Js.value) k v :
  o !! k = None -> counts_sum (<[k := v]> o) = own_count v + counts_sum o.
Proof.
  intros Hk. unfold counts_sum.
  rewrite map_fold_insert_L; [done | | done].
  intros. apply own_count_comm; done.
Qed.

Lemma counts_sum_insert_old (o : gmap string Js.value) k v v' :
  o !! k = Some v ->
  counts_sum (<[k := v']> o) = own_count v' - own_count v + counts_sum o.
Proof.
  intros Hk. rewrite <- insert_delete_eq.
  rewrite counts_sum_insert_new by apply lookup_delete_eq.
  unfold counts_sum at 2.
  rewrite (map_fold_delete_L _ _ k v o); [fold (counts_sum (delete k o)); lia | | done].
  intros. apply own_count_comm; done.
Qed.

Lemma summary_step_division acc user :
  plain_key (division user) ->
  counts_only (usersByDivision acc) ->
  counts_only (usersByDivision (summary_step acc user))
  /\ counts_sum (usersByDivision (summary_step acc user))
     = counts_sum (usersByDivision acc) + 1.
Proof.
  unfold plain_key. intros Hkey Hacc. simpl.
  set (k := Js.property_key (division user)) in *.
  set (o := usersByDivision acc) in *.
  assert (Hk : k <> "__proto__").
  { intros Heq. rewrite Heq in Hkey. vm_compute in Hkey. discriminate. }
  unfold Js.set, Js.get. destruct (decide (k = "__proto__")) as [|_]; [done |].
  destruct (o !! k) as [v|] eqn:Hv.
  - destruct (Hacc k v Hv) as (m & -> & Hm).
    assert (Hz : Js.or_zero (Js.VNum m) = Js.VNum m) by (by destruct m).
    rewrite Hz. simpl. split.
    + apply map_Forall_insert_2; [| done]. exists (m + 1). split; [done | lia].
    + rewrite (counts_sum_insert_old o k (Js.VNum m)) by done. simpl. lia.
  - rewrite Hkey. simpl. split.
    + apply map_Forall_insert_2; [| done]. exists 1. split; [done | lia].
    + rewrite counts_sum_insert_new by done. simpl. lia.
Qed.

Lemma fold_summary_division users acc :
  Forall (fun user => plain_key (division user)) users ->
  counts_only (usersByDivision acc) ->
  counts_only (usersByDivision (fold_left summary_step users acc))
  /\ counts_sum (usersByDivision (fold_left summary_step users acc))
     = counts_sum (usersByDivision acc) + Z.of_nat (length users).
Proof.
  intros Hall. revert acc.
  induction Hall as [|user users Hkey _ IH]; intros acc Hacc; simpl.
  - split; [done | lia].
  - destruct (summary_step_division acc user Hkey Hacc) as [Honly Hsum].
    destruct (IH _ Honly) as [Honly' Hsum']. split; [done | lia].
Qed.

(** When no division of the page is named like a property of
    [Object.prototype], the values of [usersByDivision] are positive
    numbers that sum to the number of rows of the page. *)
Lemma usersByDivision_sum db h divisionFilter page pageSize body :
  listUsers db h divisionFilter page pageSize = Ok200 body ->
  Forall (fun user => plain_key (division user)) (body_users body) ->
  counts_only (usersByDivision (body_summary body))
  /\ counts_sum (usersByDivision (body_summary body))
     = Z.of_nat (length (body_users body)).
Proof.
  intros (_ & _ & Husers & _ & _ & Hsummary)%listUsers_inv Hall.
  rewrite Hsummary, <- Husers. unfold summarize.
  destruct (fold_summary_division (body_users body) summary_init Hall)
    as [Honly Hsum]; [apply map_Forall_empty |].
  split; [done |]. rewrite Hsum. unfold counts_sum at 1. simpl.
  by rewrite map_fold_empty.
Qed.

(** *** The joins fan out *)

(** C1.  The main query joins [user_roles] and [user_divisions] on the
    user id alone: a user with two role assignments comes back twice on
    one page, once per assignment, the older one included. *)
Theorem listUsers_repeats_user :
  exists body,
    listUsers Fixtures.db_two_roles Fixtures.host None 1 20 = Ok200 body
    /\ id <$> body_users body = [1; 1]
    /\ role <$> body_users body = [Some "member"; Some "admin"]
    /\ roleCount <$> body_users body = [2; 2].
Proof.
  eexists. split; [vm_compute; reflexivity |].
  repeat split; vm_compute; reflexivity.
Qed.

(** C7.  On the same storage the two rows of the page are different
    rows of one creation time and one id: the ORDER BY does not tell
    which of them comes first, and the order of the page is no strict
    one. *)
Theorem listUsers_rows_tied :
  exists body vi vj,
    listUsers Fixtures.db_two_roles Fixtures.host None 1 20 = Ok200 body
    /\ body_users body !! 0%nat = Some vi
    /\ body_users body !! 1%nat = Some vj
    /\ vi <> vj
    /\ createdAt vi = createdAt vj
    /\ id vi = id vj.
Proof.
  eexists _, _, _. split; [vm_compute; reflexivity |].
  split; [vm_compute; reflexivity |]. split; [vm_compute; reflexivity |].
  split; [vm_compute; discriminate |]. split; vm_compute; reflexivity.
Qed.

(** C2.  On the same storage the page holds two rows while the total,
    which counts distinct users, is one. *)
Theorem listUsers_page_exceeds_total :
  exists body,
    listUsers Fixtures.db_two_roles Fixtures.host None 1 20 = Ok200 body
    /\ Z.of_nat (length (body_users body)) = 2
    /\ total body = 1
    /\ Z.min 20 (Z.max 0 (total body - (1 - 1) * 20)) = 1.
Proof.
  eexists. split; [vm_compute; reflexivity |].
  repeat split; vm_compute; reflexivity.
Qed.

(** C9.  A division named ["__proto__"] leaves no entry in
    [usersByDivision], and one named ["constructor"] leaves a string:
    on a page of two such rows the numbers of the mapping sum to zero. *)
Theorem usersByDivision_inherited_names :
  exists body,
    listUsers Fixtures.db_inherited_names Fixtures.host None 1 20 = Ok200 body
    /\ Z.of_nat (length (body_users body)) = 2
    /\ division <$> body_users body = [Some "constructor"; Some "__proto__"]
    /\ usersByDivision (body_summary body)
       = {[ "constructor" := Js.VStr "function Object() { [native code] }1" ]}
    /\ counts_sum (usersByDivision (body_summary body)) = 0.
Proof.
  eexists. split; [vm_compute; reflexivity |].
  repeat split; vm_compute; reflexivity.
Qed.

(** *** The theorems on the sample storage *)

Lemma user_without_children_listed_witness :
  1 <= 2 <= Js.MAX_SAFE_INTEGER
  /\ fits Fixtures.db
  /\ exists page body v,
    1 <= page
    /\ listUsers Fixtures.db Fixtures.host (Some "all") page 2 = Ok200 body
    /\ v ∈ body_users body
    /\ id v = 3 /\ username v = "user123"
    /\ logCount v = 0 /\ roleCount v = 0 /\ divisionCount v = 0
    /\ role v = None /\ division v = None
    /\ isActive v = false /\ isSenior v = false.
Proof.
  assert (Hs : 1 <= 2 <= Js.MAX_SAFE_INTEGER)
    by (rewrite JsFacts.MAX_SAFE_INTEGER_eq; lia).
  assert (Hfits : fits Fixtures.db)
    by (unfold fits; rewrite JsFacts.MAX_SAFE_INTEGER_eq; vm_compute; discriminate).
  split; [exact Hs |]. split; [exact Hfits |].
  apply (user_without_children_listed Fixtures.db Fixtures.host (Some "all") 2
           (Fixtures.user 3 2000 "user123")).
  - reflexivity.
  - exact Hs.
  - exact Hfits.
  - apply list_elem_of_further, list_elem_of_further, list_elem_of_here.
  - apply Forall_forall.
    repeat constructor; simpl; lia.
  - apply Forall_forall.
    repeat constructor; simpl; lia.
  - apply Forall_forall.
    repeat constructor; simpl; lia.
Defined.

Lemma total_counts_distinct_users_witness :
  1 <= 2 /\ 1 <= 2 /\ 2 * 2 <= Js.MAX_SAFE_INTEGER
  /\ exists body ids,
    listUsers Fixtures.db Fixtures.host None 2 2 = Ok200 body
    /\ NoDup ids
    /\ total body = Z.of_nat (length ids)
    /\ (forall uid, uid ∈ ids <->
          exists u, u ∈ users Fixtures.db /\ u_id u = uid
                    /\ in_division Fixtures.db (division_param None) uid)
    /\ (forall uid, uid ∈ ids <->
          exists r, r ∈ ordered_rows Fixtures.db (division_param None)
                    /\ Row.id r = uid)
    /\ (forall page' pageSize' body',
          listUsers Fixtures.db Fixtures.host None page' pageSize'
            = Ok200 body' ->
          total body' = total body)
    /\ (exists n, totalPages body = Some n
                  /\ (n - 1) * 2 < total body <= n * 2).
Proof.
  assert (Hsafe : 2 * 2 <= Js.MAX_SAFE_INTEGER)
    by (rewrite JsFacts.MAX_SAFE_INTEGER_eq; lia).
  split; [lia |]. split; [lia |]. split; [exact Hsafe |].
  apply (total_counts_distinct_users Fixtures.db Fixtures.host None 2 2);
    [lia | lia | exact Hsafe].
Defined.

End UsersFacts.

(** ** The profile route *)

Module ProfileFacts.
Import Storage Profile ProfileSpec.

(** *** The two patterns *)

Lemma test_phone_re s : test phone_re (Some s) = true <-> phone_shaped s.
Proof.
  unfold test, phone_re, phone_shaped, chars. simpl.
  rewrite JsFacts.RegExp_test_spec, JsFacts.matches_repeat_class.
  by rewrite JsFacts.string_length_chars.
Qed.

Lemma test_email_re s : test email_re (Some s) = true <-> email_shaped s.
Proof.
  unfold test, email_re, email_shaped, chars. simpl.
  rewrite JsFacts.RegExp_test_spec. split.
  - intros (a & s1 & -> & [Ha Hall_a]%JsFacts.matches_plus_class
            & H1)%JsFacts.matches_cat_inv.
    apply JsFacts.matches_cat_inv in H1
      as (x & s2 & -> & (c1 & -> & Hc1)%JsFacts.matches_class_inv & H2).
    apply JsFacts.matches_cat_inv in H2
      as (b & s3 & -> & [Hb Hall_b]%JsFacts.matches_plus_class & H3).
    apply JsFacts.matches_cat_inv in H3
      as (y & c & -> & (c2 & -> & Hc2)%JsFacts.matches_class_inv
          & [Hc Hall_c]%JsFacts.matches_plus_class).
    apply JsFacts.is_char_spec in Hc1 as ->.
    apply JsFacts.is_char_spec in Hc2 as ->.
    exists a, b, c. repeat split; try done.
    repeat (apply Forall_app; split); done.
  - intros (a & b & c & -> & Ha & Hb & Hc & Hall).
    apply Forall_app in Hall as [Hall_a Hall].
    apply Forall_app in Hall as [Hall_b Hall_c].
    constructor; [by apply JsFacts.matches_plus_class |].
    apply (Js.m_cat _ _ ["@"%char]);
      [constructor; by apply JsFacts.is_char_spec |].
    constructor; [by apply JsFacts.matches_plus_class |].
    apply (Js.m_cat _ _ ["."%char]);
      [constructor; by apply JsFacts.is_char_spec |].
    by apply JsFacts.matches_plus_class.
Qed.

(** *** Validation *)

Lemma elem_of_rule (violated : bool) (k msg key : string) :
  key ∈ (rule violated k msg).*1 <-> violated = true /\ key = k.
Proof.
  unfold rule. destruct violated; simpl.
  - rewrite list_elem_of_singleton. by split; [| intros [_ ?]].
  - rewrite elem_of_nil. by split; [| intros [? _]].
Qed.

Lemma username_rule (u : option string) :
  negb (Js.truthy u) || (str_length u <? 6) = true
  <-> forall s, u = Some s -> (String.length s < 6)%nat.
Proof.
  destruct u as [[|c s]|]; simpl.
  - split; [| done]. intros _ s [= <-]. simpl. lia.
  - unfold str_length. simpl. rewrite Z.ltb_lt. split.
    + intros H s' [= <-]. simpl. lia.
    + intros H. specialize (H _ eq_refl). simpl in H. lia.
  - split; [| done]. by intros _ s.
Qed.

Lemma fullName_rule (u : option string) :
  negb (Js.truthy u) = true <-> forall s, u = Some s -> s = "".
Proof.
  destruct u as [[|c s]|]; simpl.
  - split; [| done]. by intros _ s [= <-].
  - split; [done |]. intros H. by specialize (H _ eq_refl).
  - split; [| done]. by intros _ s.
Qed.

Lemma pattern_rule (r : Js.regex) (shaped : string -> Prop) (u : option string) :
  (forall s, test r (Some s) = true <-> shaped s) ->
  ~ shaped "" ->
  negb (Js.truthy u) || negb (test r u) = true
  <-> forall s, u = Some s -> ~ shaped s.
Proof.
  intros Htest Hempty. destruct u as [s|].
  - rewrite orb_true_iff, !negb_true_iff. split.
    + intros [Hs | Hs] s' [= <-].
      * destruct s; simpl in Hs; [done | discriminate].
      * rewrite <- Htest. congruence.
    + intros H. right. apply not_true_iff_false. rewrite Htest. by apply H.
  - simpl. split; [| done]. by intros _ s.
Qed.

Lemma birthDate_rule (h : Js.Host) (u : option string) :
  Js.truthy u
  && Js.date_gt (Js.Date_parse h (default "" u))
                (Js.setHours0 h (Js.Date_now h)) = true
  <-> exists s t, u = Some s /\ s <> ""
                  /\ Js.Date_parse h s = Some t
                  /\ Js.setHours0 h (Js.Date_now h) < t.
Proof.
  rewrite andb_true_iff. unfold Js.date_gt. split.
  - intros [Ht Hgt]. destruct u as [s|]; [| done]. simpl in Hgt.
    destruct (Js.Date_parse h s) as [t|] eqn:Hp; [| done].
    exists s, t. split; [done |]. split; [by destruct s |].
    split; [done | by apply Z.ltb_lt].
  - intros (s & t & -> & Hs & Hp & Hlt). simpl. rewrite Hp.
    split; [by destruct s | by apply Z.ltb_lt].
Qed.

Lemma length_rule (n : Z) (u : option string) :
  0 <= n ->
  Js.truthy u && (n <? str_length u) = true
  <-> exists s, u = Some s /\ (Z.to_nat n < String.length s)%nat.
Proof.
  intros Hn. rewrite andb_true_iff, Z.ltb_lt. unfold str_length. split.
  - intros [Ht Hlen]. destruct u as [s|]; [| done]. exists s. simpl in Hlen.
    split; [done | lia].
  - intros (s & -> & Hlen). simpl. split; [| lia].
    destruct s; [simpl in Hlen; lia | done].
Qed.

Lemma not_email_shaped_empty : ~ email_shaped "".
Proof. intros (a & b & c & Hs & _). by destruct a. Qed.

Lemma not_phone_shaped_empty : ~ phone_shaped "".
Proof. intros [Hlen _]. simpl in Hlen. lia. Qed.

(** The keys of [errors] are the fields that break their rule. *)
Lemma validate_keys h d key :
  key ∈ (validate h d).*1 <-> violates h d key.
Proof.
  unfold validate, violates.
  rewrite !fmap_app, !elem_of_app, !elem_of_rule.
  rewrite username_rule, fullName_rule.
  rewrite (pattern_rule email_re email_shaped)
    by (apply test_email_re || apply not_email_shaped_empty).
  rewrite (pattern_rule phone_re phone_shaped)
    by (apply test_phone_re || apply not_phone_shaped_empty).
  rewrite birthDate_rule, !length_rule by lia.
  change (Z.to_nat 160) with 160%nat. change (Z.to_nat 2000) with 2000%nat.
  tauto.
Qed.

Lemma rule_keys violated k msg :
  (rule violated k msg).*1 = if violated then [k] else [].
Proof. by destruct violated. Qed.

Lemma validate_keys_NoDup h d : NoDup (validate h d).*1.
Proof.
  unfold validate. rewrite !fmap_app, !rule_keys.
  repeat match goal with |- context [if ?b then _ else _] => destruct b end;
    simpl;
    match goal with |- ?G => apply (bool_decide_unpack G) end;
    by vm_compute.
Qed.

(** Turns a membership fact about two closed lists of keys into the
    boolean it evaluates to. *)
Local Ltac decide_membership H :=
  match type of H with
  | ?x ∉ ?l => apply (bool_decide_eq_false_2 (x ∈ l)) in H; vm_compute in H
  | ?x ∈ ?l => apply (bool_decide_eq_true_2 (x ∈ l)) in H; vm_compute in H
  end.

Lemma updateProfile_invalid db h userId d :
  validate h d <> [] ->
  updateProfile db h userId d = (BadRequest400 (validate h d), db).
Proof.
  intros Hne. unfold updateProfile.
  destruct (validate h d) as [|e errors]; [done |].
  assert ((0 <? Z.of_nat (length (e :: errors))) = true) as ->; [| done].
  apply Z.ltb_lt. rewrite length_cons. lia.
Qed.

(** C5.  The keys of [errors] are exactly the fields that break their
    rule, each once; when there is any, the response is the 400 with
    all of them and storage is untouched; and a request whose only
    faults are the username "abc" and a malformed email gets the two
    keys [username] and [email]. *)
Theorem updateProfile_validation db h userId d :
  (forall key, key ∈ (validate h d).*1 <-> violates h d key)
  /\ NoDup (validate h d).*1
  /\ ((exists key, violates h d key) ->
      updateProfile db h userId d = (BadRequest400 (validate h d), db))
  /\ (username d = Some "abc" ->
      (forall s, email d = Some s -> ~ email_shaped s) ->
      (forall key, violates h d key -> key = "username" \/ key = "email") ->
      (validate h d).*1 = ["username"; "email"]).
Proof.
  split; [apply validate_keys |]. split; [apply validate_keys_NoDup |]. split.
  - intros [key Hkey%validate_keys]. apply updateProfile_invalid.
    intros Hnil. rewrite Hnil in Hkey. by apply elem_of_nil in Hkey.
  - intros Hu He Hothers.
    assert (Hyes : forall key, violates h d key -> key ∈ (validate h d).*1)
      by (intros key; apply validate_keys).
    assert (Hno : forall key, key <> "username" -> key <> "email" ->
                              key ∉ (validate h d).*1).
    { intros key H1 H2 Hin%validate_keys. by destruct (Hothers key Hin). }
    assert (H1 : "username" ∈ (validate h d).*1).
    { apply Hyes. left. split; [done |]. rewrite Hu. intros s [= <-].
      simpl. lia. }
    assert (H3 : "email" ∈ (validate h d).*1).
    { apply Hyes. do 2 right. left. by split. }
    pose proof (Hno "fullName" ltac:(done) ltac:(done)) as H2.
    pose proof (Hno "phone" ltac:(done) ltac:(done)) as H4.
    pose proof (Hno "birthDate" ltac:(done) ltac:(done)) as H5.
    pose proof (Hno "bio" ltac:(done) ltac:(done)) as H6.
    pose proof (Hno "longBio" ltac:(done) ltac:(done)) as H7.
    clear Hyes Hno. revert H1 H2 H3 H4 H5 H6 H7.
    unfold validate. rewrite !fmap_app, !rule_keys.
    repeat match goal with |- context [if ?b then _ else _] => destruct b end;
      simpl; intros H1 H2 H3 H4 H5 H6 H7; try done; exfalso;
      decide_membership H1; decide_membership H2; decide_membership H3;
      decide_membership H4; decide_membership H5; decide_membership H6;
      decide_membership H7; congruence.
Qed.

(** *** The birth date *)

(** The birth date is refused exactly when it parses to an instant
    after the local midnight that opened today. *)
Lemma birthDate_refused h d :
  "birthDate" ∈ (validate h d).*1
  <-> exists s t, birthDate d = Some s /\ s <> ""
                  /\ Js.Date_parse h s = Some t
                  /\ Js.setHours0 h (Js.Date_now h) < t.
Proof.
  rewrite validate_keys. unfold violates. split.
  - intros [[[=] _] | [[[=] _] | [[[=] _] | [[[=] _] | [[_ H]
          | [[[=] _] | [[=] _]]]]]]]. done.
  - intros H. do 4 right. left. by split.
Qed.

(** C6.  At 16:00 of 2024-06-15 on a host that keeps UTC, the birth
    date 2024-06-15T15:00:00, an hour in the past, is refused; and at
    03:00 of 2024-06-15 on a host seven hours east of UTC, the birth
    date 2024-06-15 is refused.  Both are dates of today. *)
Theorem birthDate_of_today_refused :
  (validate Fixtures.host (Fixtures.request_born "2024-06-15T15:00:00")).*1
    = ["birthDate"]
  /\ Js.Date_parse Fixtures.host "2024-06-15T15:00:00"
     = Some (Js.Date_now Fixtures.host - 3600000)
  /\ (validate Fixtures.host_east (Fixtures.request_born "2024-06-15")).*1
     = ["birthDate"]
  /\ Js.Date_now Fixtures.host_east + Js.LocalTZA Fixtures.host_east
     = Js.days_from_civil 2024 6 15 * Js.msPerDay + 3 * 3600000.
Proof. repeat split; vm_compute; reflexivity. Qed.

(** *** The update statements *)

Lemma updateProfile_Ok200_inv db h userId d v db' :
  updateProfile db h userId d = (Ok200 v, db') ->
  exists username' fullName' email' row,
    validate h d = []
    /\ username d = Some username'
    /\ fullName d = Some fullName'
    /\ email d = Some email'
    /\ head (selectQuery_update
               (updateQuery db (Js.Date_now h) userId
                            username' fullName' email' d) userId)
       = Some row
    /\ v = view_of false row
    /\ db' = insert_log
               (updateQuery db (Js.Date_now h) userId
                            username' fullName' email' d)
               (Js.Date_now h) userId "update_profile".
Proof.
  unfold updateProfile.
  destruct (validate h d) as [|e errors]; [| done]. simpl.
  destruct (username d) as [un|]; [| done].
  destruct (fullName d) as [fn|]; [| done].
  destruct (email d) as [em|]; [| done].
  destruct (head _) as [row|] eqn:Hrow; [| done].
  intros [= <- <-]. by exists un, fn, em, row.
Qed.

Lemma filter_fmap_const {A} (c x : table_name) (l : list A) :
  filter (fun t => t = x) ((fun _ => c) <$> l)
  = if decide (c = x) then (fun _ => c) <$> l else [].
Proof.
  induction l as [|a l IH].
  - by destruct (decide (c = x)).
  - rewrite fmap_cons, filter_cons, IH. by destruct (decide (c = x)).
Qed.

Lemma combined_counts_logs db uid with_divisions :
  count (fun t => t = t_user_logs) (combined_counts db uid with_divisions)
  = count (fun l => ul_user_id l = uid) (user_logs db).
Proof.
  unfold count, combined_counts.
  destruct with_divisions;
    rewrite !filter_app, ?filter_fmap_const, ?filter_nil;
    repeat case_decide; try done;
    by rewrite ?app_nil_r, ?app_nil_l, length_fmap.
Qed.

Lemma combined_counts_roles db uid with_divisions :
  count (fun t => t = t_user_roles) (combined_counts db uid with_divisions)
  = count (fun r => ur_user_id r = uid) (user_roles db).
Proof.
  unfold count, combined_counts.
  destruct with_divisions;
    rewrite !filter_app, ?filter_fmap_const, ?filter_nil;
    repeat case_decide; try done;
    by rewrite ?app_nil_r, ?app_nil_l, length_fmap.
Qed.

Lemma selectQuery_update_row db userId row :
  row ∈ selectQuery_update db userId ->
  Row.user row ∈ users db
  /\ u_id (Row.user row) = userId
  /\ Row.log_count row = count (fun l => ul_user_id l = userId) (user_logs db)
  /\ Row.role_count row
     = count (fun r => ur_user_id r = userId) (user_roles db).
Proof.
  unfold selectQuery_update.
  intros (u & Hin & [Hid Hu]%list_elem_of_filter)%list_elem_of_bind.
  apply list_elem_of_bind in Hin as (ur & Hin & _).
  apply list_elem_of_bind in Hin as (ud & Hin & _).
  apply list_elem_of_singleton in Hin as ->. simpl.
  rewrite combined_counts_logs, combined_counts_roles, Hid. done.
Qed.

Lemma updateQuery_user db now userId username' fullName' email' d u' :
  u' ∈ users (updateQuery db now userId username' fullName' email' d) ->
  u_id u' = userId ->
  exists u, u ∈ users db /\ u_id u = userId
            /\ u' = update_users now userId username' fullName' d u.
Proof.
  simpl. intros (u & -> & Hu)%list_elem_of_fmap Hid. exists u.
  split; [done |]. split; [| done].
  unfold update_users in Hid. by destruct (decide (u_id u = userId)).
Qed.

Lemma insert_log_users db now userId action :
  users (insert_log db now userId action) = users db.
Proof. done. Qed.

Lemma count_snoc {A} (P : A -> Prop) `{!forall x, Decision (P x)}
    (tbl : list A) (x : A) :
  P x -> count P (tbl ++ [x]) = count P tbl + 1.
Proof.
  intros HP. unfold count.
  rewrite filter_app, length_app, filter_cons_True by done. simpl. lia.
Qed.

(** C3 (as amended).  A successful update appends the log row after the
    view was selected: the view carries the values just written, and its
    log count is the number of the user's log rows before the append,
    one less than storage holds afterwards. *)
Theorem updateProfile_view_precedes_log db h userId d v db' :
  updateProfile db h userId d = (Ok200 v, db') ->
  user_logs db' = user_logs db ++ [update_log h userId]
  /\ View.logCount v = count (fun l => ul_user_id l = userId) (user_logs db)
  /\ View.logCount v + 1
     = count (fun l => ul_user_id l = userId) (user_logs db')
  /\ View.roleCount v = count (fun r => ur_user_id r = userId) (user_roles db)
  /\ View.id v = userId
  /\ username d = Some (View.username v)
  /\ fullName d = Some (View.fullName v)
  /\ View.phoneNumber v = phone d
  /\ View.birthDate v = birthDate d
  /\ View.bio v = bio d
  /\ View.longBio v = longBio d
  /\ View.address v = address d
  /\ View.profileJson v = profile_json_param d.
Proof.
  intros (un & fn & em & row & _ & Hun & Hfn & _ & Hrow & -> & ->)
    %updateProfile_Ok200_inv.
  apply head_Some_elem_of, selectQuery_update_row in Hrow
    as (Hu & Hid & Hlogs & Hroles).
  apply updateQuery_user in Hu as (u & _ & Hid' & Hu); [| done].
  unfold update_users in Hu. rewrite decide_True in Hu by done.
  split; [done |]. simpl. rewrite Hlogs, Hroles, Hu. simpl.
  split; [done |]. split.
  { unfold update_log. by rewrite count_snoc. }
  by rewrite Hun, Hfn.
Qed.

(** C10.  A successful update leaves a row of the user, and every row of
    the user holds the request in all of its mutable columns: the four
    optional texts and the birth date as they came, NULL when left out,
    and the profile document when it is truthy, NULL otherwise. *)
Theorem updateProfile_overwrites_columns db h userId d v db' :
  updateProfile db h userId d = (Ok200 v, db') ->
  (exists u', u' ∈ users db' /\ u_id u' = userId)
  /\ forall u', u' ∈ users db' -> u_id u' = userId ->
       username d = Some (u_username u')
       /\ fullName d = Some (u_full_name u')
       /\ u_phone_number u' = phone d
       /\ u_birth_date u' = birthDate d
       /\ u_bio u' = bio d
       /\ u_long_bio u' = longBio d
       /\ u_address u' = address d
       /\ u_profile_json u' = profile_json_param d
       /\ (profileJson d = None -> u_profile_json u' = None)
       /\ u_updated_at u' = Js.Date_now h.
Proof.
  intros (un & fn & em & row & _ & Hun & Hfn & _ & Hrow & -> & ->)
    %updateProfile_Ok200_inv.
  split.
  - apply head_Some_elem_of, selectQuery_update_row in Hrow as (Hu & Hid & _).
    by exists (Row.user row).
  - intros u' Hu' Hid. rewrite insert_log_users in Hu'.
    apply updateQuery_user in Hu' as (u & _ & Hid' & ->); [| done].
    unfold update_users. rewrite decide_True by done. simpl.
    rewrite Hun, Hfn. unfold profile_json_param.
    repeat split; try done. by intros ->.
Qed.

(** *** The sibling: the current role of [getProfile] *)

#[global] Instance newer_role_total : Total newer_role.
Proof. intros r1 r2. unfold newer_role. lia. Qed.

#[global] Instance newer_role_trans : Transitive newer_role.
Proof. intros r1 r2 r3. unfold newer_role. lia. Qed.

Lemma latest_role_newest db uid r :
  r ∈ latest_role db uid ->
  exists row, row ∈ user_roles db /\ ur_user_id row = uid /\ ur_role row = r
    /\ forall row', row' ∈ user_roles db -> ur_user_id row' = uid ->
                    ur_created_at row' <= ur_created_at row.
Proof.
  unfold latest_role. intros (row & -> & Hrow)%list_elem_of_fmap.
  pose proof (StronglySorted_merge_sort newer_role
    (filter (fun r => ur_user_id r = uid) (user_roles db))) as Hsorted.
  pose proof (merge_sort_Permutation newer_role
    (filter (fun r => ur_user_id r = uid) (user_roles db))) as Hperm.
  destruct (merge_sort newer_role _) as [|first rest]; simpl in Hrow.
  { by apply elem_of_nil in Hrow. }
  apply list_elem_of_singleton in Hrow as ->.
  assert (Hfirst : first ∈ filter (fun r => ur_user_id r = uid) (user_roles db))
    by (rewrite <- Hperm; left).
  apply list_elem_of_filter in Hfirst as [Hid Hin].
  exists first. repeat split; try done.
  intros row' Hin' Hid'.
  assert (Hrow' : row' ∈ first :: rest).
  { rewrite Hperm. by apply list_elem_of_filter. }
  apply StronglySorted_inv in Hsorted as [_ Hall].
  apply elem_of_cons in Hrow' as [-> | Hrest]; [lia |].
  rewrite Forall_forall in Hall. by apply Hall.
Qed.

(** [getProfile] answers with one view, whose role is one of the most
    recently created role rows of the user. *)
Lemma getProfile_current_role db userId v r :
  getProfile db userId = Ok200 v -> View.role v = Some r ->
  exists row, row ∈ user_roles db /\ ur_user_id row = userId
    /\ ur_role row = r
    /\ forall row', row' ∈ user_roles db -> ur_user_id row' = userId ->
                    ur_created_at row' <= ur_created_at row.
Proof.
  unfold getProfile.
  destruct (selectQuery_get db userId) as [|userData rest] eqn:Hq; [done |].
  intros [= <-] Hrole. simpl in Hrole.
  assert (Hin : userData ∈ selectQuery_get db userId) by (rewrite Hq; left).
  unfold selectQuery_get in Hin.
  apply list_elem_of_bind in Hin as (u & Hin & [Hid _]%list_elem_of_filter).
  apply list_elem_of_bind in Hin as (a & Hin & _).
  apply list_elem_of_bind in Hin as (ur & Hin & Hur).
  apply list_elem_of_bind in Hin as (ud & Hin & _).
  apply list_elem_of_singleton in Hin as ->. simpl in Hrole. subst ur.
  apply UsersFacts.elem_of_left_join_Some in Hur as [_ Hr].
  rewrite Hid in Hr. by apply latest_role_newest.
Qed.

(** *** The theorems on the sample storage *)

Lemma updateProfile_validation_witness :
  (validate Fixtures.host Fixtures.request_invalid).*1 = ["username"; "email"]
  /\ updateProfile Fixtures.db Fixtures.host 1 Fixtures.request_invalid
     = (BadRequest400 (validate Fixtures.host Fixtures.request_invalid),
        Fixtures.db).
Proof.
  destruct (updateProfile_validation Fixtures.db Fixtures.host 1
              Fixtures.request_invalid) as (Hkeys & _ & H400 & Htwo).
  split.
  - apply Htwo.
    + reflexivity.
    + intros s [= <-]. rewrite <- test_email_re. vm_compute. discriminate.
    + intros key Hkey%Hkeys. vm_compute in Hkey.
      apply elem_of_cons in Hkey as [-> | Hkey]; [by left |].
      apply elem_of_cons in Hkey as [-> | Hkey]; [by right |].
      by apply elem_of_nil in Hkey.
  - apply H400. exists "username". apply Hkeys. vm_compute.
    apply list_elem_of_here.
Defined.

(** C3, as stated, fails on the code: the first user of the sample storage
    has two log rows; a successful update returns a log count of two
    and leaves three rows. *)
Lemma updateProfile_view_misses_log :
  exists v db',
    updateProfile Fixtures.db Fixtures.host 1 Fixtures.request_minimal
      = (Ok200 v, db')
    /\ View.logCount v = 2
    /\ count (fun l => ul_user_id l = 1) (user_logs db') = 3
    /\ View.logCount v <> count (fun l => ul_user_id l = 1) (user_logs db').
Proof.
  eexists _, _. split; [vm_compute; reflexivity |].
  repeat split; vm_compute; congruence.
Qed.

Lemma updateProfile_view_precedes_log_witness :
  exists v db',
    updateProfile Fixtures.db Fixtures.host 1 Fixtures.request_minimal
      = (Ok200 v, db')
    /\ user_logs db' = user_logs Fixtures.db ++ [update_log Fixtures.host 1]
    /\ View.logCount v
       = count (fun l => ul_user_id l = 1) (user_logs Fixtures.db)
    /\ View.logCount v + 1
       = count (fun l => ul_user_id l = 1) (user_logs db')
    /\ View.roleCount v
       = count (fun r => ur_user_id r = 1) (user_roles Fixtures.db)
    /\ View.id v = 1
    /\ Profile.username Fixtures.request_minimal = Some (View.username v)
    /\ Profile.fullName Fixtures.request_minimal = Some (View.fullName v)
    /\ View.phoneNumber v = phone Fixtures.request_minimal
    /\ View.birthDate v = birthDate Fixtures.request_minimal
    /\ View.bio v = bio Fixtures.request_minimal
    /\ View.longBio v = longBio Fixtures.request_minimal
    /\ View.address v = address Fixtures.request_minimal
    /\ View.profileJson v = profile_json_param Fixtures.request_minimal.
Proof.
  eexists _, _. split; [vm_compute; reflexivity |].
  eapply (updateProfile_view_precedes_log Fixtures.db Fixtures.host 1
           Fixtures.request_minimal).
  vm_compute. reflexivity.
Defined.

Lemma updateProfile_overwrites_columns_witness :
  exists v db',
    updateProfile Fixtures.db Fixtures.host 1 Fixtures.request_minimal
      = (Ok200 v, db')
    /\ (exists u', u' ∈ users db' /\ u_id u' = 1)
    /\ forall u', u' ∈ users db' -> u_id u' = 1 ->
         Profile.username Fixtures.request_minimal = Some (u_username u')
         /\ Profile.fullName Fixtures.request_minimal = Some (u_full_name u')
         /\ u_phone_number u' = phone Fixtures.request_minimal
         /\ u_birth_date u' = birthDate Fixtures.request_minimal
         /\ u_bio u' = bio Fixtures.request_minimal
         /\ u_long_bio u' = longBio Fixtures.request_minimal
         /\ u_address u' = address Fixtures.request_minimal
         /\ u_profile_json u' = profile_json_param Fixtures.request_minimal
         /\ (profileJson Fixtures.request_minimal = None ->
             u_profile_json u' = None)
         /\ u_updated_at u' = Js.Date_now Fixtures.host.
Proof.
  eexists _, _. split; [vm_compute; reflexivity |].
  eapply (updateProfile_overwrites_columns Fixtures.db Fixtures.host 1
           Fixtures.request_minimal).
  vm_compute. reflexivity.
Defined.

End ProfileFacts.

(** ** More on the user listing *)

Module ListingProps.
Import Storage Users UsersSpec ListingSpec.

(** *** Rows and their counts *)

Lemma page_row db h divisionFilter page pageSize body v :
  listUsers db h divisionFilter page pageSize = Ok200 body ->
  v ∈ body_users body ->
  exists u r,
    u ∈ users db /\ r ∈ joined_rows db u /\ v = shape h r
    /\ where_clause (division_param divisionFilter) (Row.division_name r).
Proof.
  intros (_ & _ & -> & _)%UsersFacts.listUsers_inv
         (r & -> & Hr)%list_elem_of_fmap.
  assert (Hr' : r ∈ ordered_rows db (division_param divisionFilter)).
  { eapply elem_of_sublist; [apply Hr |].
    etrans; [apply sublist_take | apply sublist_drop]. }
  apply UsersFacts.ordered_rows_elem_of in Hr' as [Hw Hr'].
  unfold select_from_joins in Hr'.
  apply list_elem_of_bind in Hr' as (u & Hr' & Hu). by exists u, r.
Qed.

Lemma user_stats_row db us :
  us ∈ user_stats db ->
  us_log_count us
    = count (fun l => ul_user_id l = us_user_id us) (user_logs db)
  /\ us_login_count us
    = count (fun l => ul_user_id l = us_user_id us /\ ul_action l = "login")
            (user_logs db)
  /\ us_update_count us
    = count (fun l => ul_user_id l = us_user_id us
                      /\ ul_action l = "update_profile") (user_logs db).
Proof. unfold user_stats. by intros (uid & -> & _)%list_elem_of_fmap. Qed.

Lemma user_stats_missing db uid :
  (forall us, us ∈ user_stats db -> uid <> us_user_id us) ->
  forall l, l ∈ user_logs db -> ul_user_id l <> uid.
Proof.
  intros Hno l Hl Hid. unfold user_stats in Hno.
  eapply (Hno {| us_user_id := uid |}); [| done].
  apply list_elem_of_fmap. eexists. split; [done |].
  apply elem_of_remove_dups, list_elem_of_fmap. eauto.
Qed.

Lemma user_role_stats_row db urs :
  urs ∈ user_role_stats db ->
  snd urs = count (fun r => ur_user_id r = fst urs) (user_roles db).
Proof. unfold user_role_stats. by intros (uid & -> & _)%list_elem_of_fmap. Qed.

Lemma user_role_stats_missing db uid :
  (forall urs, urs ∈ user_role_stats db -> uid <> fst urs) ->
  forall r, r ∈ user_roles db -> ur_user_id r <> uid.
Proof.
  intros Hno r Hr Hid. unfold user_role_stats in Hno.
  eapply (Hno (uid, _)); [| done].
  apply list_elem_of_fmap. eexists. split; [done |].
  apply elem_of_remove_dups, list_elem_of_fmap. eauto.
Qed.

Lemma user_division_stats_row db uds :
  uds ∈ user_division_stats db ->
  snd uds = count (fun d => ud_user_id d = fst uds) (user_divisions db).
Proof.
  unfold user_division_stats. by intros (uid & -> & _)%list_elem_of_fmap.
Qed.

Lemma user_division_stats_missing db uid :
  (forall uds, uds ∈ user_division_stats db -> uid <> fst uds) ->
  forall d, d ∈ user_divisions db -> ud_user_id d <> uid.
Proof.
  intros Hno d Hd Hid. unfold user_division_stats in Hno.
  eapply (Hno (uid, _)); [| done].
  apply list_elem_of_fmap. eexists. split; [done |].
  apply elem_of_remove_dups, list_elem_of_fmap. eauto.
Qed.

Lemma count_split {A} (P Q R : A -> Prop)
    `{!forall x, Decision (P x), !forall x, Decision (Q x),
      !forall x, Decision (R x)} (tbl : list A) :
  (forall x, Q x -> P x) -> (forall x, R x -> P x) ->
  (forall x, Q x -> R x -> False) ->
  count Q tbl + count R tbl <= count P tbl.
Proof.
  intros HQ HR Hdisj. unfold count.
  induction tbl as [|x tbl IH]; [done |].
  rewrite !filter_cons.
  destruct (decide (Q x)) as [Hq|Hq], (decide (R x)) as [Hr|Hr],
           (decide (P x)) as [Hp|Hp]; simpl; try lia.
  - destruct (Hdisj x Hq Hr).
  - destruct (Hdisj x Hq Hr).
  - destruct (Hp (HQ x Hq)).
  - destruct (Hp (HR x Hr)).
Qed.

Lemma joined_row_counts db u r :
  r ∈ joined_rows db u ->
  Row.id r = u_id u
  /\ Row.username r = u_username u
  /\ Row.created_at r = u_created_at u
  /\ Row.log_count r = count (fun l => ul_user_id l = u_id u) (user_logs db)
  /\ Row.login_count r
     = count (fun l => ul_user_id l = u_id u /\ ul_action l = "login")
             (user_logs db)
  /\ Row.update_count r
     = count (fun l => ul_user_id l = u_id u /\ ul_action l = "update_profile")
             (user_logs db)
  /\ Row.role_count r = count (fun x => ur_user_id x = u_id u) (user_roles db)
  /\ Row.division_count r
     = count (fun x => ud_user_id x = u_id u) (user_divisions db).
Proof.
  unfold joined_rows. intros Hr.
  apply list_elem_of_bind in Hr as (a & Hr & _).
  apply list_elem_of_bind in Hr as (ur & Hr & _).
  apply list_elem_of_bind in Hr as (ud & Hr & _).
  apply list_elem_of_bind in Hr as (us & Hr & Hus).
  apply list_elem_of_bind in Hr as (urs & Hr & Hurs).
  apply list_elem_of_bind in Hr as (uds & Hr & Huds).
  apply list_elem_of_singleton in Hr as ->. simpl.
  do 3 (split; [done |]).
  assert (Hlogs :
    coalesce0 us_log_count us
      = count (fun l => ul_user_id l = u_id u) (user_logs db)
    /\ coalesce0 us_login_count us
      = count (fun l => ul_user_id l = u_id u /\ ul_action l = "login")
              (user_logs db)
    /\ coalesce0 us_update_count us
      = count (fun l => ul_user_id l = u_id u
                        /\ ul_action l = "update_profile") (user_logs db)).
  { destruct us as [us|]; unfold coalesce0; simpl.
    - apply UsersFacts.elem_of_left_join_Some in Hus as [-> Hus].
      by apply user_stats_row.
    - pose proof (user_stats_missing db (u_id u)
        (proj1 (UsersFacts.elem_of_left_join_None _ _) Hus)) as Hno.
      rewrite !UsersFacts.count_zero; [done | | |];
        intros l Hl; specialize (Hno l Hl); tauto. }
  destruct Hlogs as (-> & -> & ->). do 3 (split; [done |]). split.
  - destruct urs as [urs|]; unfold coalesce0; simpl.
    + apply UsersFacts.elem_of_left_join_Some in Hurs as [-> Hurs].
      by apply user_role_stats_row.
    + pose proof (user_role_stats_missing db (u_id u)
        (proj1 (UsersFacts.elem_of_left_join_None _ _) Hurs)) as Hno.
      by rewrite UsersFacts.count_zero.
  - destruct uds as [uds|]; unfold coalesce0; simpl.
    + apply UsersFacts.elem_of_left_join_Some in Huds as [-> Huds].
      by apply user_division_stats_row.
    + pose proof (user_division_stats_missing db (u_id u)
        (proj1 (UsersFacts.elem_of_left_join_None _ _) Huds)) as Hno.
      by rewrite UsersFacts.count_zero.
Qed.

(** X1.  Every row of a page stands for a stored user and carries that
    user's true counts: the numbers of the user's log, role and division
    rows, and of the log rows with action [login] and [update_profile],
    the last two together never above the log count. *)
Theorem listUsers_counts db h divisionFilter page pageSize body v :
  listUsers db h divisionFilter page pageSize = Ok200 body ->
  v ∈ body_users body ->
  (exists u, u ∈ users db /\ u_id u = id v /\ u_username u = username v
             /\ u_created_at u = createdAt v)
  /\ logCount v = count (fun l => ul_user_id l = id v) (user_logs db)
  /\ roleCount v = count (fun r => ur_user_id r = id v) (user_roles db)
  /\ divisionCount v
     = count (fun d => ud_user_id d = id v) (user_divisions db)
  /\ loginCount v
     = count (fun l => ul_user_id l = id v /\ ul_action l = "login")
             (user_logs db)
  /\ updateCount v
     = count (fun l => ul_user_id l = id v /\ ul_action l = "update_profile")
             (user_logs db)
  /\ loginCount v + updateCount v <= logCount v.
Proof.
  intros Hbody Hv.
  destruct (page_row _ _ _ _ _ _ _ Hbody Hv) as (u & r & Hu & Hr & -> & _).
  apply joined_row_counts in Hr
    as (Hid & Hname & Hcreated & Hlog & Hlogin & Hupdate & Hrole & Hdiv).
  simpl. rewrite Hid, Hlog, Hlogin, Hupdate, Hrole, Hdiv.
  split; [by exists u |]. do 5 (split; [done |]).
  apply count_split; [tauto | tauto |].
  intros l [_ H1] [_ H2]. rewrite H1 in H2. discriminate.
Qed.

Lemma listUsers_counts_witness :
  exists body v,
    listUsers Fixtures.db Fixtures.host None 1 20 = Ok200 body
    /\ v ∈ body_users body
    /\ (exists u, u ∈ users Fixtures.db /\ u_id u = id v
                  /\ u_username u = username v
                  /\ u_created_at u = createdAt v)
    /\ logCount v
       = count (fun l => ul_user_id l = id v) (user_logs Fixtures.db)
    /\ roleCount v
       = count (fun r => ur_user_id r = id v) (user_roles Fixtures.db)
    /\ divisionCount v
       = count (fun d => ud_user_id d = id v) (user_divisions Fixtures.db)
    /\ loginCount v
       = count (fun l => ul_user_id l = id v /\ ul_action l = "login")
               (user_logs Fixtures.db)
    /\ updateCount v
       = count (fun l => ul_user_id l = id v
                         /\ ul_action l = "update_profile")
               (user_logs Fixtures.db)
    /\ loginCount v + updateCount v <= logCount v.
Proof.
  eexists _, _. split; [vm_compute; reflexivity |].
  split; [apply list_elem_of_here |].
  eapply (listUsers_counts Fixtures.db Fixtures.host None 1 20);
    [vm_compute; reflexivity | apply list_elem_of_here].
Defined.

(** *** The three counters of the summary *)

Lemma count_cons {A} (P : A -> Prop) `{!forall x, Decision (P x)}
    (x : A) (tbl : list A) :
  count P (x :: tbl) = (if decide (P x) then 1 else 0) + count P tbl.
Proof.
  unfold count. rewrite filter_cons.
  destruct (decide (P x)); simpl length; lia.
Qed.

Lemma fold_summary_counters users acc :
  activeUsers (fold_left summary_step users acc)
    = activeUsers acc + count (fun v => isActive v = true) users
  /\ seniorUsers (fold_left summary_step users acc)
    = seniorUsers acc + count (fun v => isSenior v = true) users
  /\ usersWithCompleteProfiles (fold_left summary_step users acc)
    = usersWithCompleteProfiles acc
      + count (fun v => 75 < profileCompleteness v) users.
Proof.
  revert acc. induction users as [|v users IH]; intros acc.
  - unfold count. simpl. lia.
  - simpl fold_left. destruct (IH (summary_step acc v)) as (-> & -> & ->).
    rewrite !count_cons. simpl.
    destruct (isActive v), (isSenior v), (75 <? profileCompleteness v) eqn:E;
      repeat case_decide; try done; lia.
Qed.

Lemma count_ext_in {A} (P Q : A -> Prop)
    `{!forall x, Decision (P x), !forall x, Decision (Q x)} (tbl : list A) :
  (forall x, x ∈ tbl -> P x <-> Q x) -> count P tbl = count Q tbl.
Proof.
  intros Hext. induction tbl as [|x tbl IH]; [done |].
  rewrite !count_cons, IH by (intros y Hy; apply Hext; by right).
  pose proof (Hext x ltac:(left)).
  repeat case_decide; tauto || lia.
Qed.

Lemma shape_flags h r :
  (isActive (shape h r) = true <-> 5 < logCount (shape h r))
  /\ (isSenior (shape h r) = true
      <-> role (shape h r) = Some "admin"
          \/ role (shape h r) = Some "moderator")
  /\ (75 < profileCompleteness (shape h r)
      <-> hasBio (shape h r) = true /\ hasAddress (shape h r) = true
          /\ hasPhone (shape h r) = true /\ hasProfile (shape h r) = true)
  /\ profileCompleteness (shape h r)
     = 25 * count (fun b => b = true)
              [hasBio (shape h r); hasAddress (shape h r);
               hasPhone (shape h r); hasProfile (shape h r)].
Proof.
  simpl. split; [apply Z.ltb_lt |]. split.
  { rewrite orb_true_iff, !bool_decide_eq_true. done. }
  destruct (Js.truthy (Row.bio r)), (Js.truthy (Row.address r)),
           (Js.truthy (Row.phone_number r)),
           (json_truthy (Row.profile_json r));
    vm_compute; (split; [| done]); split; intros; intuition congruence.
Qed.

(** X2.  The three counters of the summary count rows of the returned
    page: [activeUsers] those with more than five log rows,
    [seniorUsers] those whose role is admin or moderator, and
    [usersWithCompleteProfiles] those with a bio, an address, a phone
    number and a profile document all present; completeness is 25 times
    the number of these four that are present. *)
Theorem listUsers_summary_counters db h divisionFilter page pageSize body :
  listUsers db h divisionFilter page pageSize = Ok200 body ->
  activeUsers (body_summary body)
    = count (fun v => 5 < logCount v) (body_users body)
  /\ seniorUsers (body_summary body)
    = count (fun v => role v = Some "admin" \/ role v = Some "moderator")
            (body_users body)
  /\ usersWithCompleteProfiles (body_summary body)
    = count (fun v => hasBio v = true /\ hasAddress v = true
                      /\ hasPhone v = true /\ hasProfile v = true)
            (body_users body)
  /\ forall v, v ∈ body_users body ->
       profileCompleteness v
       = 25 * count (fun b => b = true)
                [hasBio v; hasAddress v; hasPhone v; hasProfile v].
Proof.
  intros (_ & _ & Husers & _ & _ & Hsummary)%UsersFacts.listUsers_inv.
  rewrite Hsummary, <- Husers. unfold summarize.
  destruct (fold_summary_counters (body_users body) summary_init)
    as (-> & -> & ->). simpl.
  assert (Hshape : forall v, v ∈ body_users body -> exists r, v = shape h r).
  { rewrite Husers. intros v (r & -> & _)%list_elem_of_fmap. eauto. }
  split; [| split; [| split]].
  - apply count_ext_in. intros v [r ->]%Hshape. apply shape_flags.
  - apply count_ext_in. intros v [r ->]%Hshape. apply shape_flags.
  - apply count_ext_in. intros v [r ->]%Hshape. apply shape_flags.
  - intros v [r ->]%Hshape. apply shape_flags.
Qed.

Lemma listUsers_summary_counters_witness :
  exists body,
    listUsers Fixtures.db Fixtures.host None 1 20 = Ok200 body
    /\ activeUsers (body_summary body)
       = count (fun v => 5 < logCount v) (body_users body)
    /\ seniorUsers (body_summary body)
       = count (fun v => role v = Some "admin" \/ role v = Some "moderator")
               (body_users body)
    /\ usersWithCompleteProfiles (body_summary body)
       = count (fun v => hasBio v = true /\ hasAddress v = true
                         /\ hasPhone v = true /\ hasProfile v = true)
               (body_users body)
    /\ forall v, v ∈ body_users body ->
         profileCompleteness v
         = 25 * count (fun b => b = true)
                  [hasBio v; hasAddress v; hasPhone v; hasProfile v].
Proof.
  eexists _. split; [vm_compute; reflexivity |].
  eapply (listUsers_summary_counters Fixtures.db Fixtures.host None 1 20).
  vm_compute. reflexivity.
Defined.

(** *** The division filter *)

(** X3.  Under a division filter that is neither empty nor "all", every
    row of the page is in that division, by a division row of its user,
    and the response echoes the filter. *)
Theorem listUsers_filtered db h d page pageSize body :
  d <> "" -> d <> "all" ->
  listUsers db h (Some d) page pageSize = Ok200 body ->
  filteredBy body = d
  /\ forall v, v ∈ body_users body ->
       division v = Some d
       /\ exists ud, ud ∈ user_divisions db
                     /\ ud_user_id ud = id v /\ ud_division_name ud = d.
Proof.
  intros Hne Hall Hbody.
  assert (Hparam : division_param (Some d) = Some d).
  { unfold division_param. destruct d; [done |].
    by rewrite bool_decide_eq_false_2 by congruence. }
  split.
  { unfold listUsers in Hbody. destruct (query _ _ _ _); [| done].
    injection Hbody as <-. simpl. by destruct d. }
  intros v Hv.
  destruct (page_row _ _ _ _ _ _ _ Hbody Hv) as (u & r & Hu & Hr & -> & Hw).
  rewrite Hparam in Hw. simpl in Hw. split; [done |].
  unfold joined_rows in Hr.
  apply list_elem_of_bind in Hr as (a & Hr & _).
  apply list_elem_of_bind in Hr as (ur & Hr & _).
  apply list_elem_of_bind in Hr as (ud & Hr & Hud).
  apply list_elem_of_bind in Hr as (us & Hr & _).
  apply list_elem_of_bind in Hr as (urs & Hr & _).
  apply list_elem_of_bind in Hr as (uds & Hr & _).
  apply list_elem_of_singleton in Hr as ->. simpl in *.
  destruct ud as [ud|]; [| done].
  apply UsersFacts.elem_of_left_join_Some in Hud as [Hid Hud].
  exists ud. split; [done |]. split; [done | by injection Hw].
Qed.

Lemma listUsers_filtered_witness :
  "Tech" <> "" /\ "Tech" <> "all"
  /\ exists body,
       listUsers Fixtures.db Fixtures.host (Some "Tech") 1 20 = Ok200 body
       /\ filteredBy body = "Tech"
       /\ forall v, v ∈ body_users body ->
            division v = Some "Tech"
            /\ exists ud, ud ∈ user_divisions Fixtures.db
                          /\ ud_user_id ud = id v
                          /\ ud_division_name ud = "Tech".
Proof.
  split; [discriminate |]. split; [discriminate |].
  eexists _. split; [vm_compute; reflexivity |].
  eapply (listUsers_filtered Fixtures.db Fixtures.host "Tech" 1 20);
    [discriminate | discriminate | vm_compute; reflexivity].
Defined.

(** X4.  A request without a division, with an empty division and with
    the division "all" get the same response, whose [filteredBy] is
    "all". *)
Theorem listUsers_unfiltered db h page pageSize :
  listUsers db h (Some "all") page pageSize = listUsers db h None page pageSize
  /\ listUsers db h (Some "") page pageSize = listUsers db h None page pageSize
  /\ forall body, listUsers db h None page pageSize = Ok200 body ->
       filteredBy body = "all".
Proof.
  split; [done |]. split; [done |].
  intros body. unfold listUsers. destruct (query _ _ _ _); [| done].
  by intros [= <-].
Qed.

(** *** Page and page size out of range *)

Lemma listUsers_Error500 db h divisionFilter page pageSize :
  listUsers db h divisionFilter page pageSize = Error500
  <-> pageSize < 0 \/ Js.mul (Js.sub page 1) pageSize < 0
      \/ max_bigint < pageSize
      \/ max_bigint < Js.mul (Js.sub page 1) pageSize.
Proof.
  rewrite <- (UsersFacts.limit_offset_error _ _
                (ordered_rows db (division_param divisionFilter))).
  unfold listUsers, query. by destruct (limit_offset _ _ _).
Qed.

(** X5.  What the listing answers to a page and a page size out of
    range.  A page size that is negative or beyond [bigint] gets the 500
    response, and so does a page of zero or less with a page size of at
    least one.  A page size of zero gets a 200 with no rows and no
    finite page count.  A page and a page size of at least one whose
    product is a safe integer get a 200. *)
Theorem listUsers_status db h divisionFilter page pageSize :
  (pageSize < 0 \/ max_bigint < pageSize ->
   listUsers db h divisionFilter page pageSize = Error500)
  /\ (page <= 0 -> 1 <= pageSize ->
      listUsers db h divisionFilter page pageSize = Error500)
  /\ (pageSize = 0 -> Js.is_finite page = true ->
      exists body, listUsers db h divisionFilter page pageSize = Ok200 body
                   /\ body_users body = [] /\ totalPages body = None)
  /\ (1 <= page -> 1 <= pageSize -> page * pageSize <= Js.MAX_SAFE_INTEGER ->
      exists body, listUsers db h divisionFilter page pageSize = Ok200 body).
Proof.
  split_and!.
  - intros Hs. apply listUsers_Error500. lia.
  - intros Hp Hs. apply listUsers_Error500. right. left.
    unfold Js.mul, Js.sub.
    assert (Hsub : Js.to_number (page - 1) < 0)
      by (apply JsFacts.to_number_sign; lia).
    apply JsFacts.to_number_sign. nia.
  - intros -> _. unfold listUsers, query, Js.mul.
    rewrite Z.mul_0_r. change (Js.to_number 0) with 0.
    rewrite UsersFacts.limit_offset_rows by (rewrite UsersFacts.max_bigint_eq; lia).
    eexists. split; [done |]. split; done.
  - intros Hp Hs Hsafe. apply UsersFacts.listUsers_ok; nia.
Qed.

(** *** Reading page after page *)

Lemma page_rows_window db h divisionFilter pageSize (p : nat) :
  1 <= pageSize -> (1 <= p)%nat ->
  Z.of_nat p * pageSize <= Js.MAX_SAFE_INTEGER ->
  page_rows db h divisionFilter pageSize p
  = shape h <$> take (Z.to_nat pageSize)
      (drop ((p - 1) * Z.to_nat pageSize)
            (ordered_rows db (division_param divisionFilter))).
Proof.
  intros Hs Hp Hsafe. unfold page_rows.
  destruct (UsersFacts.listUsers_ok db h divisionFilter (Z.of_nat p) pageSize)
    as [body Hbody]; [nia | nia | nia |].
  rewrite Hbody.
  apply UsersFacts.listUsers_inv in Hbody as (_ & _ & -> & _).
  rewrite JsFacts.offset_exact by nia.
  do 3 f_equal. nia.
Qed.

Lemma sorted_permutation_unique {A} (R : relation A) (l1 l2 : list A) :
  (forall x y, x ∈ l1 -> y ∈ l1 -> R x y -> R y x -> x = y) ->
  StronglySorted R l1 -> StronglySorted R l2 -> l1 ≡ₚ l2 -> l1 = l2.
Proof.
  intros Hanti Hs1. revert l2.
  induction Hs1 as [|x l1 Hs1 IH Hx]; intros l2 Hs2 Hperm.
  - by apply Permutation_nil_l in Hperm.
  - destruct Hs2 as [|y l2 Hs2 Hy].
    { by apply Permutation_nil_r in Hperm. }
    assert (Hxy : x = y).
    { assert (Hyin : y ∈ x :: l1) by (rewrite Hperm; left).
      assert (Hxin : x ∈ y :: l2) by (rewrite <- Hperm; left).
      apply elem_of_cons in Hyin as [-> | Hyin]; [done |].
      apply elem_of_cons in Hxin as [-> | Hxin]; [done |].
      apply Hanti; [left | by right | |].
      - by apply (proj1 (Forall_forall _ _) Hx).
      - by apply (proj1 (Forall_forall _ _) Hy). }
    subst y. f_equal. apply IH; [| done |].
    + intros a b Ha Hb. apply Hanti; by right.
    + by eapply Permutation_cons_inv.
Qed.

Lemma NoDup_fmap_elem {A B} (f : A -> B) (l : list A) (x y : A) :
  NoDup (f <$> l) -> x ∈ l -> y ∈ l -> f x = f y -> x = y.
Proof.
  induction l as [|a l IH]; [by intros _ ?%elem_of_nil |].
  rewrite fmap_cons. intros [Ha Hnd]%NoDup_cons Hx Hy Heq.
  apply elem_of_cons in Hx as [-> | Hx];
    apply elem_of_cons in Hy as [-> | Hy]; [done | | | by apply IH].
  - destruct Ha. rewrite Heq. by apply list_elem_of_fmap_2.
  - destruct Ha. rewrite <- Heq. by apply list_elem_of_fmap_2.
Qed.

(** Without fan-out no two rows tie, and the engine has one order to
    return. *)
Lemma query_order_unique db param rows :
  no_fan_out db -> query_order db param rows -> rows = ordered_rows db param.
Proof.
  intros (Husers & Hauth & Hrole & Hdivision) [Hperm Hsorted].
  assert (Hids : NoDup (Row.id <$> select_from_joins db)).
  { unfold select_from_joins.
    destruct (UsersFacts.joins_agree db Hauth Hrole Hdivision None
                (users db)) as (_ & -> & _). done. }
  apply (sorted_permutation_unique order_by); [| done | |].
  - intros x y Hx Hy Hxy Hyx. rewrite Hperm in Hx, Hy.
    apply list_elem_of_filter in Hx as [_ Hx].
    apply list_elem_of_filter in Hy as [_ Hy].
    apply (NoDup_fmap_elem Row.id (select_from_joins db)); [done..|].
    unfold order_by in Hxy, Hyx. lia.
  - apply UsersFacts.ordered_rows_sorted.
  - rewrite Hperm. unfold ordered_rows. by rewrite merge_sort_Permutation.
Qed.

(** X6.  Where ids are keys and no user has more than one role row or
    more than one division row, no two rows of the listing tie, so that
    the engine has one order to return for them; and for a page size of
    at least one the pages 1 to [n] read in turn, on unchanged storage,
    are the first [n * pageSize] rows in that order, none skipped and
    none twice, as far as [n * pageSize] is a safe integer. *)
Theorem pages_tile_the_rows db h divisionFilter pageSize (n : nat) :
  no_fan_out db ->
  1 <= pageSize ->
  Z.of_nat n * pageSize <= Js.MAX_SAFE_INTEGER ->
  (forall rows, query_order db (division_param divisionFilter) rows ->
                rows = ordered_rows db (division_param divisionFilter))
  /\ first_pages db h divisionFilter pageSize n
     = shape h <$> take (n * Z.to_nat pageSize)
         (ordered_rows db (division_param divisionFilter)).
Proof.
  intros Hdb Hs Hsafe. split.
  { intros rows. by apply query_order_unique. }
  unfold first_pages.
  induction n as [|n IH]; [done |].
  rewrite seq_S, fmap_app, join_app, IH by nia. simpl.
  rewrite app_nil_r, page_rows_window by lia.
  rewrite <- fmap_app. f_equal.
  replace (S n - 1)%nat with n by lia.
  rewrite take_take_drop. f_equal. lia.
Qed.

Lemma pages_tile_the_rows_witness :
  no_fan_out Fixtures.db_plain
  /\ 1 <= 2
  /\ Z.of_nat 2 * 2 <= Js.MAX_SAFE_INTEGER
  /\ (forall rows, query_order Fixtures.db_plain (division_param None) rows ->
                   rows = ordered_rows Fixtures.db_plain (division_param None))
  /\ first_pages Fixtures.db_plain Fixtures.host None 2 2
     = shape Fixtures.host
         <$> take (2 * Z.to_nat 2)
               (ordered_rows Fixtures.db_plain (division_param None)).
Proof.
  assert (Hdb : no_fan_out Fixtures.db_plain).
  { unfold no_fan_out. split_and!;
      apply (bool_decide_eq_true_1 _); vm_compute; reflexivity. }
  assert (Hsafe : Z.of_nat 2 * 2 <= Js.MAX_SAFE_INTEGER)
    by (rewrite JsFacts.MAX_SAFE_INTEGER_eq; lia).
  split; [exact Hdb |]. split; [lia |]. split; [exact Hsafe |].
  apply (pages_tile_the_rows Fixtures.db_plain Fixtures.host None 2 2);
    [exact Hdb | lia | exact Hsafe].
Defined.

(** *** The parameters of the query string *)

Lemma drop_spaces_app ws l :
  Forall (fun c => Js.is_space c = true) ws ->
  (forall c, head l = Some c -> Js.is_space c = false) ->
  Js.drop_spaces (ws ++ l) = l.
Proof.
  intros Hws Hl. induction Hws as [|c ws Hc _ IH]; simpl.
  - destruct l as [|c l]; [done |]. simpl. by rewrite (Hl c).
  - by rewrite Hc.
Qed.

Lemma leading_digits_app ds rest :
  Forall (fun c => Js.is_digit c = true) ds ->
  (forall c, head rest = Some c -> Js.is_digit c = false) ->
  Js.leading_digits (ds ++ rest) = ds.
Proof.
  intros Hds Hrest. induction Hds as [|c ds Hc _ IH]; simpl.
  - destruct rest as [|c rest]; [done |]. simpl. by rewrite (Hrest c).
  - by rewrite Hc, IH.
Qed.

Lemma digit_not_space c : Js.is_digit c = true -> Js.is_space c = false.
Proof. unfold Js.is_digit, Js.is_space. lia. Qed.

Lemma fold_digits_bound ds acc :
  Forall (fun c => Js.is_digit c = true) ds -> 0 <= acc ->
  let v := fold_left (fun acc c => 10 * acc + (Js.code c - 48)) ds acc in
  acc * 10 ^ Z.of_nat (length ds) <= v < (acc + 1) * 10 ^ Z.of_nat (length ds).
Proof.
  intros Hds. revert acc. induction Hds as [|c ds Hc _ IH]; intros acc Hacc.
  - simpl. lia.
  - cbn [fold_left length]. rewrite Nat2Z.inj_succ, Z.pow_succ_r by lia.
    assert (Hd : 48 <= Js.code c <= 57) by (unfold Js.is_digit in Hc; lia).
    specialize (IH (10 * acc + (Js.code c - 48)) ltac:(lia)). simpl in IH.
    assert (Hpow : 0 < 10 ^ Z.of_nat (length ds))
      by (apply Z.pow_pos_nonneg; lia).
    nia.
Qed.

(** A numeral of at most fifteen digits is read exactly. *)
Lemma numeral_value s ws ds rest :
  numeral s ws ds rest -> 0 <= Js.digits_value ds < 10 ^ 15.
Proof.
  intros (_ & _ & _ & Hds & Hlen & _).
  pose proof (fold_digits_bound ds 0 Hds ltac:(lia)) as Hv. simpl in Hv.
  fold (Js.digits_value ds) in Hv.
  assert (10 ^ Z.of_nat (length ds) <= 10 ^ 15)
    by (apply Z.pow_le_mono_r; lia).
  lia.
Qed.

Lemma parseInt_digit_first s d l :
  Js.drop_spaces (String.list_ascii_of_string s) = d :: l ->
  Js.is_digit d = true ->
  Js.parseInt s
  = Some (Js.to_number (Js.digits_value (Js.leading_digits (d :: l)))).
Proof.
  unfold Js.parseInt. intros -> H.
  assert (Hsign : match d :: l with
                  | "-"%char :: l' => (-1, l')
                  | "+"%char :: l' => (1, l')
                  | _ => (1, d :: l)
                  end = (1, d :: l)).
  { destruct d as [[] [] [] [] [] [] [] []]; try reflexivity;
      by vm_compute in H. }
  rewrite Hsign. simpl. rewrite H. f_equal. lia.
Qed.

Lemma parseInt_numeral s ws ds rest :
  numeral s ws ds rest -> Js.parseInt s = Some (Js.digits_value ds).
Proof.
  intros Hnum. pose proof (numeral_value _ _ _ _ Hnum) as Hv.
  destruct Hnum as (Hs & Hws & Hne & Hds & _ & Hrest).
  destruct ds as [|d ds]; [done |].
  assert (Hd : Js.is_digit d = true) by (by inversion Hds).
  rewrite (parseInt_digit_first s d (ds ++ rest)); [| | done].
  - change (d :: ds ++ rest) with ((d :: ds) ++ rest).
    rewrite leading_digits_app by done.
    f_equal. apply JsFacts.to_number_exact. lia.
  - rewrite Hs. apply drop_spaces_app; [done |].
    intros c [= <-]. by apply digit_not_space.
Qed.

Lemma or_default_numeral s ws ds rest d :
  numeral s ws ds rest -> Js.or_default (Some s) d = s.
Proof.
  intros (Hs & _ & Hne & _). destruct s; [| done].
  simpl in Hs. by destruct ws, ds.
Qed.

(** X21.  [GET] reads [page] and [pageSize] as [parseInt] does: leading
    white space is skipped and the number ends where the digits end, so
    that [" 2nd"] is page 2; what follows the digits is not looked at
    and is no error. *)
Theorem GET_reads_leading_digits db h division page pageSize
    ws1 ds1 rest1 ws2 ds2 rest2 :
  numeral page ws1 ds1 rest1 ->
  numeral pageSize ws2 ds2 rest2 ->
  GET db h division (Some page) (Some pageSize)
  = listUsers db h division (Js.digits_value ds1) (Js.digits_value ds2).
Proof.
  intros H1 H2. unfold GET.
  rewrite (or_default_numeral _ _ _ _ _ H1), (or_default_numeral _ _ _ _ _ H2).
  rewrite (parseInt_numeral _ _ _ _ H1), (parseInt_numeral _ _ _ _ H2).
  pose proof (numeral_value _ _ _ _ H1) as Hv1.
  pose proof (numeral_value _ _ _ _ H2) as Hv2.
  assert (Hbig : 10 ^ 15 < 2 ^ 1024) by reflexivity.
  unfold Js.is_finite.
  rewrite (proj2 (Z.ltb_lt (Z.abs (Js.digits_value ds1)) _)) by lia.
  by rewrite (proj2 (Z.ltb_lt (Z.abs (Js.digits_value ds2)) _)) by lia.
Qed.

Lemma GET_reads_leading_digits_witness :
  numeral " 2nd" [" "%char] ["2"%char] ["n"%char; "d"%char]
  /\ numeral "10" [] ["1"%char; "0"%char] []
  /\ GET Fixtures.db Fixtures.host None (Some " 2nd") (Some "10")
     = listUsers Fixtures.db Fixtures.host None
         (Js.digits_value ["2"%char]) (Js.digits_value ["1"%char; "0"%char]).
Proof.
  assert (H1 : numeral " 2nd" [" "%char] ["2"%char] ["n"%char; "d"%char]).
  { unfold numeral. split_and!;
      [reflexivity | by repeat constructor | done | by repeat constructor
       | simpl; lia | by intros c [= <-]]. }
  assert (H2 : numeral "10" [] ["1"%char; "0"%char] []).
  { unfold numeral. split_and!;
      [reflexivity | by repeat constructor | done | by repeat constructor
       | simpl; lia | by intros c [=]]. }
  split; [exact H1 |]. split; [exact H2 |].
  exact (GET_reads_leading_digits Fixtures.db Fixtures.host None " 2nd" "10"
           _ _ _ _ _ _ H1 H2).
Defined.

End ListingProps.

(** ** More on the profile route *)

Module ProfileProps.
Import Storage Profile ProfileSpec.

(** *** The lateral joins *)

Lemma filter_all {A} (P : A -> Prop) `{!forall x, Decision (P x)}
    (l : list A) :
  (forall x, x ∈ l -> P x) -> filter P l = l.
Proof.
  induction l as [|x l IH]; intros Hall; [done |].
  rewrite filter_cons_True by (apply Hall; left).
  f_equal. apply IH. intros y Hy. apply Hall. by right.
Qed.

Lemma filter_none {A} (P : A -> Prop) `{!forall x, Decision (P x)}
    (l : list A) :
  (forall x, x ∈ l -> ~ P x) -> filter P l = [].
Proof.
  induction l as [|x l IH]; intros Hno; [done |].
  rewrite filter_cons_False by (apply Hno; left).
  apply IH. intros y Hy. apply Hno. by right.
Qed.

Lemma left_join_lateral_head {A} (sub : list A) :
  (length sub <= 1)%nat -> left_join_lateral sub = [head sub].
Proof.
  unfold left_join_lateral, left_join. intros Hlen.
  rewrite filter_all by done.
  destruct sub as [|x [|y sub]]; simpl in *; [done | done | lia].
Qed.

Lemma latest_role_length db uid : (length (latest_role db uid) <= 1)%nat.
Proof. unfold latest_role. rewrite length_fmap, length_take. lia. Qed.

Lemma latest_division_length db uid :
  (length (latest_division db uid) <= 1)%nat.
Proof. unfold latest_division. rewrite length_fmap, length_take. lia. Qed.

#[global] Instance newer_division_total : Total newer_division.
Proof. intros d1 d2. unfold newer_division. lia. Qed.

#[global] Instance newer_division_trans : Transitive newer_division.
Proof. intros d1 d2 d3. unfold newer_division. lia. Qed.

Lemma latest_division_newest db uid d :
  d ∈ latest_division db uid ->
  exists row, row ∈ user_divisions db /\ ud_user_id row = uid
    /\ ud_division_name row = d
    /\ forall row', row' ∈ user_divisions db -> ud_user_id row' = uid ->
                    ud_created_at row' <= ud_created_at row.
Proof.
  unfold latest_division. intros (row & -> & Hrow)%list_elem_of_fmap.
  pose proof (StronglySorted_merge_sort newer_division
    (filter (fun d => ud_user_id d = uid) (user_divisions db))) as Hsorted.
  pose proof (merge_sort_Permutation newer_division
    (filter (fun d => ud_user_id d = uid) (user_divisions db))) as Hperm.
  destruct (merge_sort newer_division _) as [|first rest]; simpl in Hrow.
  { by apply elem_of_nil in Hrow. }
  apply list_elem_of_singleton in Hrow as ->.
  assert (Hfirst :
    first ∈ filter (fun d => ud_user_id d = uid) (user_divisions db))
    by (rewrite <- Hperm; left).
  apply list_elem_of_filter in Hfirst as [Hid Hin].
  exists first. repeat split; try done.
  intros row' Hin' Hid'.
  assert (Hrow' : row' ∈ first :: rest).
  { rewrite Hperm. by apply list_elem_of_filter. }
  apply StronglySorted_inv in Hsorted as [_ Hall].
  apply elem_of_cons in Hrow' as [-> | Hrest]; [lia |].
  rewrite Forall_forall in Hall. by apply Hall.
Qed.

Lemma latest_role_none db uid :
  latest_role db uid = [] <-> forall r, r ∈ user_roles db -> ur_user_id r <> uid.
Proof.
  unfold latest_role.
  pose proof (merge_sort_Permutation newer_role
    (filter (fun r => ur_user_id r = uid) (user_roles db))) as Hperm.
  split.
  - intros Hnil r Hr Hid.
    assert (Hin : r ∈ merge_sort newer_role
                    (filter (fun r => ur_user_id r = uid) (user_roles db))).
    { rewrite Hperm. by apply list_elem_of_filter. }
    destruct (merge_sort newer_role _); [by apply elem_of_nil in Hin | done].
  - intros Hno. destruct (merge_sort newer_role _) as [|x l]; [done |].
    assert (Hx : x ∈ filter (fun r => ur_user_id r = uid) (user_roles db))
      by (rewrite <- Hperm; left).
    apply list_elem_of_filter in Hx as [Hid Hx]. by destruct (Hno x Hx).
Qed.

Lemma latest_division_none db uid :
  latest_division db uid = []
  <-> forall d, d ∈ user_divisions db -> ud_user_id d <> uid.
Proof.
  unfold latest_division.
  pose proof (merge_sort_Permutation newer_division
    (filter (fun d => ud_user_id d = uid) (user_divisions db))) as Hperm.
  split.
  - intros Hnil d Hd Hid.
    assert (Hin : d ∈ merge_sort newer_division
                    (filter (fun d => ud_user_id d = uid) (user_divisions db))).
    { rewrite Hperm. by apply list_elem_of_filter. }
    destruct (merge_sort newer_division _);
      [by apply elem_of_nil in Hin | done].
  - intros Hno. destruct (merge_sort newer_division _) as [|x l]; [done |].
    assert (Hx : x ∈ filter (fun d => ud_user_id d = uid) (user_divisions db))
      by (rewrite <- Hperm; left).
    apply list_elem_of_filter in Hx as [Hid Hx]. by destruct (Hno x Hx).
Qed.

(** *** The rows of the two select queries *)

Lemma combined_counts_divisions db uid :
  count (fun t => t = t_user_divisions) (combined_counts db uid true)
  = count (fun d => ud_user_id d = uid) (user_divisions db).
Proof.
  unfold count, combined_counts.
  rewrite !filter_app, !ProfileFacts.filter_fmap_const.
  repeat case_decide; try done. by rewrite !app_nil_l, length_fmap.
Qed.

Lemma selectQuery_get_row db userId row :
  row ∈ selectQuery_get db userId ->
  Row.user row ∈ users db
  /\ u_id (Row.user row) = userId
  /\ Row.role row = head (latest_role db userId)
  /\ Row.division_name row = head (latest_division db userId)
  /\ (forall e, Row.email row = Some e ->
        exists a, a ∈ auth db /\ a_email a = e
                  /\ u_auth_id (Row.user row) = Some (a_id a))
  /\ Row.log_count row = count (fun l => ul_user_id l = userId) (user_logs db)
  /\ Row.role_count row
     = count (fun r => ur_user_id r = userId) (user_roles db)
  /\ Row.division_count row
     = count (fun d => ud_user_id d = userId) (user_divisions db).
Proof.
  unfold selectQuery_get.
  intros (u & Hin & [Hid Hu]%list_elem_of_filter)%list_elem_of_bind.
  apply list_elem_of_bind in Hin as (a & Hin & Ha).
  rewrite !left_join_lateral_head in Hin
    by (apply latest_role_length || apply latest_division_length).
  apply list_elem_of_bind in Hin as (ur & Hin & ->%list_elem_of_singleton).
  apply list_elem_of_bind in Hin as (ud & Hin & ->%list_elem_of_singleton).
  apply list_elem_of_singleton in Hin as ->. simpl.
  rewrite ProfileFacts.combined_counts_logs, ProfileFacts.combined_counts_roles,
    combined_counts_divisions, Hid.
  repeat split; try done.
  intros e He. destruct a as [a|]; [| done]. injection He as <-.
  apply UsersFacts.elem_of_left_join_Some in Ha as [Hauth Ha]. eauto.
Qed.

Lemma selectQuery_update_row' db userId row :
  row ∈ selectQuery_update db userId ->
  Row.role row = head (latest_role db userId)
  /\ Row.division_name row = head (latest_division db userId).
Proof.
  unfold selectQuery_update.
  intros (u & Hin & [Hid Hu]%list_elem_of_filter)%list_elem_of_bind.
  rewrite !left_join_lateral_head in Hin
    by (apply latest_role_length || apply latest_division_length).
  apply list_elem_of_bind in Hin as (ur & Hin & ->%list_elem_of_singleton).
  apply list_elem_of_bind in Hin as (ud & Hin & ->%list_elem_of_singleton).
  apply list_elem_of_singleton in Hin as ->. simpl. by rewrite Hid.
Qed.

Lemma selectQuery_get_nil db userId :
  selectQuery_get db userId = []
  <-> forall u, u ∈ users db -> u_id u <> userId.
Proof.
  split.
  - intros Hnil u Hu Hid. unfold selectQuery_get in Hnil.
    destruct (UsersFacts.left_join_nonempty
      (fun a => u_auth_id u = Some (a_id a)) (auth db)).
    destruct (left_join _ (auth db)) as [|a la] eqn:Ha; [done |].
    assert (Hin : exists row, row ∈ selectQuery_get db userId).
    { unfold selectQuery_get. eexists.
      apply list_elem_of_bind. exists u.
      split; [| by apply list_elem_of_filter].
      apply list_elem_of_bind. exists a. split; [| rewrite Ha; left].
      rewrite !left_join_lateral_head
        by (apply latest_role_length || apply latest_division_length).
      simpl. left. }
    destruct Hin as [row Hrow]. unfold selectQuery_get in Hrow.
    rewrite Hnil in Hrow. by apply elem_of_nil in Hrow.
  - intros Hno. unfold selectQuery_get.
    destruct (filter (fun u => u_id u = userId) (users db)) as [|u l] eqn:Hf;
      [done |].
    assert (Hu : u ∈ filter (fun u => u_id u = userId) (users db))
      by (rewrite Hf; left).
    apply list_elem_of_filter in Hu as [Hid Hu]. by destruct (Hno u Hu).
Qed.

Lemma selectQuery_update_nil db userId :
  selectQuery_update db userId = []
  <-> forall u, u ∈ users db -> u_id u <> userId.
Proof.
  split.
  - intros Hnil u Hu Hid.
    assert (Hin : exists row, row ∈ selectQuery_update db userId).
    { unfold selectQuery_update. eexists.
      apply list_elem_of_bind. exists u.
      split; [| by apply list_elem_of_filter].
      rewrite !left_join_lateral_head
        by (apply latest_role_length || apply latest_division_length).
      simpl. left. }
    destruct Hin as [row Hrow]. rewrite Hnil in Hrow.
    by apply elem_of_nil in Hrow.
  - intros Hno. unfold selectQuery_update.
    destruct (filter (fun u => u_id u = userId) (users db)) as [|u l] eqn:Hf;
      [done |].
    assert (Hu : u ∈ filter (fun u => u_id u = userId) (users db))
      by (rewrite Hf; left).
    apply list_elem_of_filter in Hu as [Hid Hu]. by destruct (Hno u Hu).
Qed.

(** *** [getProfile] *)

Lemma getProfile_inv db userId v :
  getProfile db userId = Ok200 v ->
  exists row, row ∈ selectQuery_get db userId /\ v = view_of true row.
Proof.
  unfold getProfile.
  destruct (selectQuery_get db userId) as [|row rest]; [done |].
  intros [= <-]. exists row. split; [left | done].
Qed.

Lemma getProfile_404 db userId :
  getProfile db userId = NotFound404 ->
  forall u, u ∈ users db -> u_id u <> userId.
Proof.
  intros Hget. apply selectQuery_get_nil.
  unfold getProfile in Hget. by destruct (selectQuery_get db userId).
Qed.


Lemma head_None_nil {A} (l : list A) : head l = None <-> l = [].
Proof. by destruct l. Qed.

(** X8.  The role and the division of the [getProfile] view are absent
    exactly when the user has no such row; when present, each is the
    label of a row of the user than which no row of the user is newer. *)
Theorem getProfile_current_assignment db userId v :
  getProfile db userId = Ok200 v ->
  (View.role v = None
   <-> forall r, r ∈ user_roles db -> ur_user_id r <> userId)
  /\ (forall x, View.role v = Some x ->
        exists row, row ∈ user_roles db /\ ur_user_id row = userId
          /\ ur_role row = x
          /\ forall row', row' ∈ user_roles db -> ur_user_id row' = userId ->
                          ur_created_at row' <= ur_created_at row)
  /\ (View.division v = None
      <-> forall d, d ∈ user_divisions db -> ud_user_id d <> userId)
  /\ (forall x, View.division v = Some x ->
        exists row, row ∈ user_divisions db /\ ud_user_id row = userId
          /\ ud_division_name row = x
          /\ forall row', row' ∈ user_divisions db ->
                          ud_user_id row' = userId ->
                          ud_created_at row' <= ud_created_at row).
Proof.
  intros (row & Hrow & ->)%getProfile_inv.
  apply selectQuery_get_row in Hrow as (_ & _ & Hrole & Hdiv & _).
  simpl. rewrite Hrole, Hdiv. split; [| split; [| split]].
  - by rewrite head_None_nil, latest_role_none.
  - intros x Hx%head_Some_elem_of. by apply ProfileFacts.latest_role_newest.
  - by rewrite head_None_nil, latest_division_none.
  - intros x Hx%head_Some_elem_of. by apply latest_division_newest.
Qed.

Lemma getProfile_current_assignment_witness :
  exists v,
    getProfile Fixtures.db 1 = Ok200 v
    /\ (View.role v = None
        <-> forall r, r ∈ user_roles Fixtures.db -> ur_user_id r <> 1)
    /\ (forall x, View.role v = Some x ->
          exists row, row ∈ user_roles Fixtures.db /\ ur_user_id row = 1
            /\ ur_role row = x
            /\ forall row', row' ∈ user_roles Fixtures.db ->
                            ur_user_id row' = 1 ->
                            ur_created_at row' <= ur_created_at row)
    /\ (View.division v = None
        <-> forall d, d ∈ user_divisions Fixtures.db -> ud_user_id d <> 1)
    /\ (forall x, View.division v = Some x ->
          exists row, row ∈ user_divisions Fixtures.db /\ ud_user_id row = 1
            /\ ud_division_name row = x
            /\ forall row', row' ∈ user_divisions Fixtures.db ->
                            ud_user_id row' = 1 ->
                            ud_created_at row' <= ud_created_at row).
Proof.
  eexists _. split; [vm_compute; reflexivity |].
  eapply (getProfile_current_assignment Fixtures.db 1).
  vm_compute. reflexivity.
Defined.

(** *** The outcome of [updateProfile] *)

Lemma validate_nil h d : validate h d = [] <-> forall key, ~ violates h d key.
Proof.
  split.
  - intros Hnil key Hkey%ProfileFacts.validate_keys.
    rewrite Hnil in Hkey. by apply elem_of_nil in Hkey.
  - intros Hno. destruct (validate h d) as [|[key msg] errors] eqn:Hv; [done |].
    destruct (Hno key). apply ProfileFacts.validate_keys. rewrite Hv. left.
Qed.

(** What a request that passes validation holds. *)
Lemma valid_request h d :
  (forall key, ~ violates h d key) ->
  (exists s, username d = Some s /\ (6 <= String.length s)%nat)
  /\ (exists s, fullName d = Some s /\ s <> "")
  /\ (exists s, email d = Some s /\ email_shaped s)
  /\ (exists s, phone d = Some s /\ phone_shaped s)
  /\ (forall s t, birthDate d = Some s -> s <> "" ->
        Js.Date_parse h s = Some t -> t <= Js.setHours0 h (Js.Date_now h))
  /\ (forall s, bio d = Some s -> (String.length s <= 160)%nat)
  /\ (forall s, longBio d = Some s -> (String.length s <= 2000)%nat).
Proof.
  intros Hno. unfold violates in Hno.
  split; [| split; [| split; [| split; [| split; [| split]]]]].
  - destruct (username d) as [s|] eqn:Hs.
    + exists s. split; [done |].
      destruct (decide (6 <= String.length s)%nat); [done |].
      destruct (Hno "username"). left. split; [done |].
      intros s' [= <-]. lia.
    + destruct (Hno "username"). left. by split.
  - destruct (fullName d) as [s|] eqn:Hs.
    + exists s. split; [done |]. intros ->.
      destruct (Hno "fullName"). right. left. split; [done |].
      by intros s' [= <-].
    + destruct (Hno "fullName"). right. left. by split.
  - destruct (email d) as [s|] eqn:Hs.
    + exists s. split; [done |]. apply ProfileFacts.test_email_re.
      destruct (test email_re (Some s)) eqn:Ht; [done |].
      destruct (Hno "email"). do 2 right. left. split; [done |].
      intros s' [= <-]. rewrite <- ProfileFacts.test_email_re. congruence.
    + destruct (Hno "email"). do 2 right. left. by split.
  - destruct (phone d) as [s|] eqn:Hs.
    + exists s. split; [done |]. apply ProfileFacts.test_phone_re.
      destruct (test phone_re (Some s)) eqn:Ht; [done |].
      destruct (Hno "phone"). do 3 right. left. split; [done |].
      intros s' [= <-]. rewrite <- ProfileFacts.test_phone_re. congruence.
    + destruct (Hno "phone"). do 3 right. left. by split.
  - intros s t Hs Hne Hp.
    destruct (decide (t <= Js.setHours0 h (Js.Date_now h))); [done |].
    destruct (Hno "birthDate"). do 4 right. left. split; [done |].
    exists s, t. repeat split; try done. lia.
  - intros s Hs. destruct (decide (String.length s <= 160)%nat); [done |].
    destruct (Hno "bio"). do 5 right. left. split; [done |].
    exists s. split; [done | lia].
  - intros s Hs. destruct (decide (String.length s <= 2000)%nat); [done |].
    destruct (Hno "longBio"). do 6 right. split; [done |].
    exists s. split; [done | lia].
Qed.

Lemma updateProfile_valid db h userId d :
  (forall key, ~ violates h d key) ->
  exists username' fullName' email',
    username d = Some username' /\ fullName d = Some fullName'
    /\ email d = Some email'
    /\ let db1 := updateQuery db (Js.Date_now h) userId
                     username' fullName' email' d in
       updateProfile db h userId d
       = (match head (selectQuery_update db1 userId) with
          | Some row => Ok200 (view_of false row)
          | None => Error500
          end,
          insert_log db1 (Js.Date_now h) userId "update_profile").
Proof.
  intros Hno.
  destruct (valid_request h d Hno)
    as ((un & Hun & _) & (fn & Hfn & _) & (em & Hem & _) & _).
  exists un, fn, em. do 3 (split; [done |]).
  unfold updateProfile. rewrite (proj2 (validate_nil h d) Hno), Hun, Hfn, Hem.
  simpl. by destruct (head _).
Qed.

Lemma updateQuery_user_exists db now userId un fn em d :
  (exists u, u ∈ users db /\ u_id u = userId)
  <-> exists u, u ∈ users (updateQuery db now userId un fn em d)
                /\ u_id u = userId.
Proof.
  split.
  - intros (u & Hu & Hid). exists (update_users now userId un fn d u).
    split; [by apply list_elem_of_fmap_2 |].
    unfold update_users. by rewrite decide_True.
  - intros (u' & Hu' & Hid).
    apply ProfileFacts.updateQuery_user in Hu' as (u & Hu & Hid' & _);
      [eauto | done].
Qed.

Lemma fmap_unchanged {A} (f : A -> A) (l : list A) :
  (forall x, x ∈ l -> f x = x) -> f <$> l = l.
Proof.
  induction l as [|x l IH]; intros Hf; [done |].
  rewrite fmap_cons, Hf by left. f_equal. apply IH.
  intros y Hy. apply Hf. by right.
Qed.

(** X9.  A request that passes validation is answered by what storage
    holds: a 200 when a user row has the id, and otherwise a 500 that
    leaves the users, auth, role and division relations as they were. *)
Theorem updateProfile_outcome db h userId d :
  (forall key, ~ violates h d key) ->
  ((exists u, u ∈ users db /\ u_id u = userId) ->
     exists v db', updateProfile db h userId d = (Ok200 v, db'))
  /\ ((forall u, u ∈ users db -> u_id u <> userId) ->
       exists db', updateProfile db h userId d = (Error500, db')
                   /\ users db' = users db /\ auth db' = auth db
                   /\ user_roles db' = user_roles db
                   /\ user_divisions db' = user_divisions db).
Proof.
  intros Hno.
  destruct (updateProfile_valid db h userId d Hno)
    as (un & fn & em & _ & _ & _ & Hupd). simpl in Hupd. split.
  - intros Hex%(updateQuery_user_exists db (Js.Date_now h) userId un fn em d).
    destruct (head _) as [row|] eqn:Hhead; [eauto |].
    apply head_None_nil in Hhead.
    pose proof (proj1 (selectQuery_update_nil _ _) Hhead) as Hnone.
    destruct Hex as (u & Hu & Hid). by destruct (Hnone u Hu).
  - intros Hnone. eexists. rewrite Hupd.
    assert (Hnil : selectQuery_update
                     (updateQuery db (Js.Date_now h) userId un fn em d) userId
                   = []).
    { apply selectQuery_update_nil. intros u Hu Hid.
      destruct (proj2 (updateQuery_user_exists db (Js.Date_now h) userId
                         un fn em d)) as (u0 & Hu0 & Hid0); [eauto |].
      by destruct (Hnone u0 Hu0). }
    rewrite Hnil. simpl. split; [done |]. split; [| split; [| done]].
    + apply fmap_unchanged. intros u Hu. unfold update_users.
      rewrite decide_False; [done | by apply Hnone].
    + apply fmap_unchanged. intros a Ha. unfold update_auth.
      rewrite decide_False; [done |].
      rewrite filter_none by done. simpl. apply not_elem_of_nil.
Qed.

Lemma updateProfile_outcome_witness :
  (forall key, ~ violates Fixtures.host Fixtures.request_minimal key)
  /\ ((exists u, u ∈ users Fixtures.db /\ u_id u = 1) ->
        exists v db',
          updateProfile Fixtures.db Fixtures.host 1 Fixtures.request_minimal
          = (Ok200 v, db'))
  /\ ((forall u, u ∈ users Fixtures.db -> u_id u <> 1) ->
        exists db',
          updateProfile Fixtures.db Fixtures.host 1 Fixtures.request_minimal
          = (Error500, db')
          /\ users db' = users Fixtures.db /\ auth db' = auth Fixtures.db
          /\ user_roles db' = user_roles Fixtures.db
          /\ user_divisions db' = user_divisions Fixtures.db).
Proof.
  assert (Hvalid : forall key,
            ~ violates Fixtures.host Fixtures.request_minimal key).
  { intros key Hkey%ProfileFacts.validate_keys. vm_compute in Hkey.
    by apply elem_of_nil in Hkey. }
  split; [exact Hvalid |].
  exact (updateProfile_outcome Fixtures.db Fixtures.host 1
           Fixtures.request_minimal Hvalid).
Defined.

(** *** What a successful update touches *)

Lemma update_auth_linked db userId a :
  Some (a_id a) ∈ u_auth_id <$> filter (fun u => u_id u = userId) (users db)
  <-> linked_auth db userId a.
Proof.
  unfold linked_auth. rewrite list_elem_of_fmap. split.
  - intros (u & Hauth & [Hid Hu]%list_elem_of_filter). eauto.
  - intros (u & Hu & Hid & Hauth). exists u.
    split; [done | by apply list_elem_of_filter].
Qed.

(** X10.  A successful update rewrites the rows of the one user and the
    auth rows they point to, and nothing else: every other user row and
    auth row stays in place unchanged, the user keeps id, auth id and
    creation time, the linked auth rows take the new email, and the
    role and division relations are as before. *)
Theorem updateProfile_frame db h userId d v db' :
  updateProfile db h userId d = (Ok200 v, db') ->
  length (users db') = length (users db)
  /\ (forall i u, users db !! i = Some u ->
        exists u', users db' !! i = Some u'
          /\ u_id u' = u_id u /\ u_auth_id u' = u_auth_id u
          /\ u_created_at u' = u_created_at u
          /\ (u_id u <> userId -> u' = u))
  /\ length (auth db') = length (auth db)
  /\ (forall i a, auth db !! i = Some a ->
        exists a', auth db' !! i = Some a' /\ a_id a' = a_id a
          /\ (linked_auth db userId a -> email d = Some (a_email a'))
          /\ (~ linked_auth db userId a -> a' = a))
  /\ user_roles db' = user_roles db
  /\ user_divisions db' = user_divisions db.
Proof.
  intros (un & fn & em & row & _ & _ & _ & Hem & _ & _ & ->)
    %ProfileFacts.updateProfile_Ok200_inv. simpl.
  rewrite !length_fmap. split; [done |]. split.
  { intros i u Hi. rewrite list_lookup_fmap, Hi. simpl.
    eexists. split; [done |]. unfold update_users.
    destruct (decide (u_id u = userId)); simpl; done. }
  split; [done |]. split; [| done].
  intros i a Hi. rewrite list_lookup_fmap, Hi. simpl.
  eexists. split; [done |]. unfold update_auth.
  destruct (decide _) as [Hin|Hin]; simpl.
  - split; [done |]. split; [done |].
    intros Hno. destruct Hno. by apply update_auth_linked.
  - split; [done |]. split; [| done].
    intros Hl. destruct Hin. by apply update_auth_linked.
Qed.

Lemma updateProfile_frame_witness :
  exists v db',
    updateProfile Fixtures.db Fixtures.host 1 Fixtures.request_minimal
    = (Ok200 v, db')
    /\ length (users db') = length (users Fixtures.db)
    /\ (forall i u, users Fixtures.db !! i = Some u ->
          exists u', users db' !! i = Some u'
            /\ u_id u' = u_id u /\ u_auth_id u' = u_auth_id u
            /\ u_created_at u' = u_created_at u
            /\ (u_id u <> 1 -> u' = u))
    /\ length (auth db') = length (auth Fixtures.db)
    /\ (forall i a, auth Fixtures.db !! i = Some a ->
          exists a', auth db' !! i = Some a' /\ a_id a' = a_id a
            /\ (linked_auth Fixtures.db 1 a ->
                email Fixtures.request_minimal = Some (a_email a'))
            /\ (~ linked_auth Fixtures.db 1 a -> a' = a))
    /\ user_roles db' = user_roles Fixtures.db
    /\ user_divisions db' = user_divisions Fixtures.db.
Proof.
  eexists _, _. split; [vm_compute; reflexivity |].
  eapply (updateProfile_frame Fixtures.db Fixtures.host 1
            Fixtures.request_minimal).
  vm_compute. reflexivity.
Defined.

(** *** Reading the profile after writing it *)

(** X11.  After a successful update the profile read back is that of the
    same user with the values just written; it has the role, division
    and role count of the update's own view and one log row more; and
    its email is the new one whenever the user points to an auth row. *)
Theorem getProfile_after_update db h userId d v db' :
  updateProfile db h userId d = (Ok200 v, db') ->
  exists v',
    getProfile db' userId = Ok200 v'
    /\ View.id v' = userId
    /\ username d = Some (View.username v')
    /\ fullName d = Some (View.fullName v')
    /\ View.phoneNumber v' = phone d
    /\ View.birthDate v' = birthDate d
    /\ View.bio v' = bio d
    /\ View.longBio v' = longBio d
    /\ View.address v' = address d
    /\ View.profileJson v' = profile_json_param d
    /\ View.logCount v' = View.logCount v + 1
    /\ View.roleCount v' = View.roleCount v
    /\ View.role v' = View.role v
    /\ View.division v' = View.division v
    /\ (View.email v' = Some None \/ View.email v' = Some (email d)).
Proof.
  intros (un & fn & em & row & _ & Hun & Hfn & Hem & Hrow & -> & ->)
    %ProfileFacts.updateProfile_Ok200_inv.
  set (db1 := updateQuery db (Js.Date_now h) userId un fn em d) in *.
  set (db2 := insert_log db1 (Js.Date_now h) userId "update_profile").
  apply head_Some_elem_of in Hrow.
  destruct (ProfileFacts.selectQuery_update_row _ _ _ Hrow)
    as (Hu & Hid & Hlogs & Hroles).
  destruct (selectQuery_update_row' _ _ _ Hrow) as (Hrole & Hdiv).
  destruct (getProfile db2 userId) as [v'| | |] eqn:Hget.
  2:{ unfold getProfile in Hget. by destruct (selectQuery_get db2 userId). }
  2:{ pose proof (getProfile_404 db2 userId Hget) as Hnone.
      by destruct (Hnone (Row.user row) Hu). }
  2:{ unfold getProfile in Hget. by destruct (selectQuery_get db2 userId). }
  exists v'. split; [done |].
  apply getProfile_inv in Hget as (row' & Hrow' & ->).
  apply selectQuery_get_row in Hrow'
    as (Hu' & Hid' & Hrole' & Hdiv' & Hemail' & Hlogs' & Hroles' & _).
  unfold db2 in Hu'. rewrite ProfileFacts.insert_log_users in Hu'.
  unfold db1 in Hu'.
  apply ProfileFacts.updateQuery_user in Hu' as (u0 & Hu0 & Hid0 & Hu');
    [| done].
  simpl. rewrite Hu', Hlogs, Hlogs', Hroles, Hroles', Hrole, Hrole', Hdiv, Hdiv'.
  unfold update_users. rewrite decide_True by done. simpl.
  rewrite Hun, Hfn. do 9 (split; [done |]). split.
  { change (user_logs db2)
      with (user_logs db ++ [update_log h userId]).
    by rewrite ProfileFacts.count_snoc. }
  do 3 (split; [done |]).
  destruct (Row.email row') as [e|] eqn:He; [right | by left].
  destruct (Hemail' e eq_refl) as (a & Ha & <- & Hauth).
  change (auth db2) with (update_auth (Js.Date_now h)
    (u_auth_id <$> filter (fun u => u_id u = userId) (users db)) em <$> auth db)
    in Ha.
  apply list_elem_of_fmap in Ha as (a0 & -> & Ha0).
  unfold update_auth.
  destruct (decide _) as [Hin|Hin]; simpl; [by rewrite Hem |].
  destruct Hin. apply list_elem_of_fmap. exists u0.
  split; [| by apply list_elem_of_filter].
  rewrite Hu' in Hauth. unfold update_users, update_auth in Hauth.
  rewrite decide_True in Hauth by done. simpl in Hauth.
  by destruct (decide _) in Hauth.
Qed.

Lemma getProfile_after_update_witness :
  exists v db' v',
    updateProfile Fixtures.db Fixtures.host 1 Fixtures.request_minimal
    = (Ok200 v, db')
    /\ getProfile db' 1 = Ok200 v'
    /\ View.id v' = 1
    /\ username Fixtures.request_minimal = Some (View.username v')
    /\ fullName Fixtures.request_minimal = Some (View.fullName v')
    /\ View.phoneNumber v' = phone Fixtures.request_minimal
    /\ View.birthDate v' = birthDate Fixtures.request_minimal
    /\ View.bio v' = bio Fixtures.request_minimal
    /\ View.longBio v' = longBio Fixtures.request_minimal
    /\ View.address v' = address Fixtures.request_minimal
    /\ View.profileJson v' = profile_json_param Fixtures.request_minimal
    /\ View.logCount v' = View.logCount v + 1
    /\ View.roleCount v' = View.roleCount v
    /\ View.role v' = View.role v
    /\ View.division v' = View.division v
    /\ (View.email v' = Some None
        \/ View.email v' = Some (email Fixtures.request_minimal)).
Proof.
  eexists _, _.
  assert (H : updateProfile Fixtures.db Fixtures.host 1
                Fixtures.request_minimal = (Ok200 _, _))
    by (vm_compute; reflexivity).
  destruct (getProfile_after_update Fixtures.db Fixtures.host 1
              Fixtures.request_minimal _ _ H) as (v' & Hv').
  exists v'. split; [exact H | exact Hv'].
Defined.

(** *** What a successful update stores *)

(** X12.  After a successful update the rows of the user satisfy the
    rules of validation: a username of at least six characters, a full
    name that is not empty, a phone number of ten to fifteen digits, a
    bio of at most 160 and a long bio of at most 2000 characters; and
    the email of the request has the address shape. *)
Theorem updateProfile_stores_valid_values db h userId d v db' :
  updateProfile db h userId d = (Ok200 v, db') ->
  (exists s, email d = Some s /\ email_shaped s)
  /\ forall u', u' ∈ users db' -> u_id u' = userId ->
       (6 <= String.length (u_username u'))%nat
       /\ u_full_name u' <> ""
       /\ (exists p, u_phone_number u' = Some p /\ phone_shaped p)
       /\ (forall s, u_bio u' = Some s -> (String.length s <= 160)%nat)
       /\ (forall s, u_long_bio u' = Some s -> (String.length s <= 2000)%nat).
Proof.
  intros (un & fn & em & row & Hvalid & Hun & Hfn & Hem & _ & _ & ->)
    %ProfileFacts.updateProfile_Ok200_inv.
  destruct (valid_request h d (proj1 (validate_nil h d) Hvalid))
    as ((un' & Hun' & Hlen) & (fn' & Hfn' & Hne) & Hemail & Hphone & _
        & Hbio & Hlong).
  split; [done |]. intros u' Hu' Hid.
  rewrite ProfileFacts.insert_log_users in Hu'.
  apply ProfileFacts.updateQuery_user in Hu' as (u & _ & Hid' & ->); [| done].
  unfold update_users. rewrite decide_True by done. simpl.
  rewrite Hun in Hun'. rewrite Hfn in Hfn'.
  injection Hun' as <-. injection Hfn' as <-. done.
Qed.

Lemma updateProfile_stores_valid_values_witness :
  exists v db',
    updateProfile Fixtures.db Fixtures.host 1 Fixtures.request_minimal
    = (Ok200 v, db')
    /\ (exists s, email Fixtures.request_minimal = Some s /\ email_shaped s)
    /\ forall u', u' ∈ users db' -> u_id u' = 1 ->
         (6 <= String.length (u_username u'))%nat
         /\ u_full_name u' <> ""
         /\ (exists p, u_phone_number u' = Some p /\ phone_shaped p)
         /\ (forall s, u_bio u' = Some s -> (String.length s <= 160)%nat)
         /\ (forall s, u_long_bio u' = Some s ->
               (String.length s <= 2000)%nat).
Proof.
  eexists _, _. split; [vm_compute; reflexivity |].
  eapply (updateProfile_stores_valid_values Fixtures.db Fixtures.host 1
            Fixtures.request_minimal).
  vm_compute. reflexivity.
Defined.

End ProfileProps.

(** ** The cleanup script *)

Module CleanupProps.
Import Storage Cleanup CleanupSpec.
Import ProfileProps (filter_all, filter_none).

(** *** The statements, relation by relation *)

Lemma users_step1 db :
  users (step1 db) = filter (fun u => ~ poor_quality u) (users db).
Proof. reflexivity. Qed.

Lemma users_step2 db :
  users (step2 db)
  = filter (fun u => ~ u_id u ∈ duplicate_ids (users_to_keep db) db) (users db).
Proof. reflexivity. Qed.

Lemma update_bio_fixed u : fixed_account u -> update_bio u = u.
Proof. intros Hf. unfold update_bio. by rewrite decide_False by tauto. Qed.

Lemma update_address_fixed u : fixed_account u -> update_address u = u.
Proof. intros Hf. unfold update_address. by rewrite decide_False by tauto. Qed.

Lemma update_phone_number_fixed u :
  fixed_account u -> update_phone_number u = u.
Proof.
  intros Hf. unfold update_phone_number. by rewrite decide_False by tauto.
Qed.

Lemma update_profile_json_fixed u :
  fixed_account u -> update_profile_json u = u.
Proof.
  intros Hf. unfold update_profile_json. by rewrite decide_False by tauto.
Qed.

Lemma update_bio_other u :
  ~ fixed_account u ->
  update_bio u
  = {| u_id := u_id u; u_auth_id := u_auth_id u;
       u_username := u_username u; u_full_name := u_full_name u;
       u_birth_date := u_birth_date u;
       u_bio := with_default "No bio provided" (u_bio u);
       u_long_bio := u_long_bio u; u_profile_json := u_profile_json u;
       u_address := u_address u; u_phone_number := u_phone_number u;
       u_created_at := u_created_at u; u_updated_at := u_updated_at u |}.
Proof.
  intros Hf. unfold update_bio. destruct (u_bio u) as [x|] eqn:E.
  - rewrite decide_False by (intros [? _]; congruence).
    destruct u. simpl in E. by rewrite E.
  - by rewrite decide_True by done.
Qed.

Lemma update_address_other u :
  ~ fixed_account u ->
  update_address u
  = {| u_id := u_id u; u_auth_id := u_auth_id u;
       u_username := u_username u; u_full_name := u_full_name u;
       u_birth_date := u_birth_date u;
       u_bio := u_bio u;
       u_long_bio := u_long_bio u; u_profile_json := u_profile_json u;
       u_address := with_default "Address not specified" (u_address u);
       u_phone_number := u_phone_number u;
       u_created_at := u_created_at u; u_updated_at := u_updated_at u |}.
Proof.
  intros Hf. unfold update_address. destruct (u_address u) as [x|] eqn:E.
  - rewrite decide_False by (intros [? _]; congruence).
    destruct u. simpl in E. by rewrite E.
  - by rewrite decide_True by done.
Qed.

Lemma update_phone_number_other u :
  ~ fixed_account u ->
  update_phone_number u
  = {| u_id := u_id u; u_auth_id := u_auth_id u;
       u_username := u_username u; u_full_name := u_full_name u;
       u_birth_date := u_birth_date u;
       u_bio := u_bio u;
       u_long_bio := u_long_bio u; u_profile_json := u_profile_json u;
       u_address := u_address u;
       u_phone_number := with_default "+62000000000" (u_phone_number u);
       u_created_at := u_created_at u; u_updated_at := u_updated_at u |}.
Proof.
  intros Hf. unfold update_phone_number.
  destruct (u_phone_number u) as [x|] eqn:E.
  - rewrite decide_False by (intros [? _]; congruence).
    destruct u. simpl in E. by rewrite E.
  - by rewrite decide_True by done.
Qed.

Lemma update_profile_json_other u :
  ~ fixed_account u ->
  update_profile_json u
  = {| u_id := u_id u; u_auth_id := u_auth_id u;
       u_username := u_username u; u_full_name := u_full_name u;
       u_birth_date := u_birth_date u;
       u_bio := u_bio u;
       u_long_bio := u_long_bio u;
       u_profile_json := with_default default_profile (u_profile_json u);
       u_address := u_address u; u_phone_number := u_phone_number u;
       u_created_at := u_created_at u; u_updated_at := u_updated_at u |}.
Proof.
  intros Hf. unfold update_profile_json.
  destruct (u_profile_json u) as [x|] eqn:E.
  - rewrite decide_False by (intros [? _]; congruence).
    destruct u. simpl in E. by rewrite E.
  - by rewrite decide_True by done.
Qed.

Lemma backfill_steps u :
  update_profile_json (update_phone_number (update_address (update_bio u)))
  = backfill u.
Proof.
  unfold backfill. destruct (decide (fixed_account u)) as [Hf|Hf].
  - by rewrite update_bio_fixed, update_address_fixed,
      update_phone_number_fixed, update_profile_json_fixed.
  - rewrite update_bio_other by done.
    rewrite update_address_other by done.
    rewrite update_phone_number_other by done.
    by rewrite update_profile_json_other by done.
Qed.

Lemma users_step3 db : users (step3 db) = backfill <$> users db.
Proof.
  unfold step3, update_users. simpl. rewrite <- !list_fmap_compose.
  apply list_fmap_ext. intros i u _. apply backfill_steps.
Qed.

Lemma backfill_same u :
  u_id (backfill u) = u_id u
  /\ u_username (backfill u) = u_username u
  /\ (fixed_account (backfill u) <-> fixed_account u).
Proof.
  unfold backfill, fixed_account. by destruct (decide _).
Qed.

(** *** Row numbers *)

#[global] Instance by_id_total : Total by_id.
Proof. intros u v. unfold by_id. lia. Qed.

#[global] Instance by_id_trans : Transitive by_id.
Proof. intros u v w. unfold by_id. lia. Qed.

Lemma key_determines {A B} (f : A -> B) (l : list A) (x y : A) :
  NoDup (f <$> l) -> x ∈ l -> y ∈ l -> f x = f y -> x = y.
Proof.
  induction l as [|a l IH]; intros Hnd Hx Hy Heq.
  - by apply elem_of_nil in Hx.
  - rewrite fmap_cons in Hnd. apply NoDup_cons in Hnd as [Ha Hnd].
    apply elem_of_cons in Hx as [-> | Hx], Hy as [-> | Hy].
    + done.
    + destruct Ha. rewrite Heq. by apply list_elem_of_fmap_2.
    + destruct Ha. rewrite <- Heq. by apply list_elem_of_fmap_2.
    + by apply IH.
Qed.

Lemma elem_of_partition_of db k u :
  u ∈ partition_of db k
  <-> u ∈ users db /\ ~ fixed_account u /\ dedup_key u = k.
Proof.
  unfold partition_of. rewrite merge_sort_Permutation, !list_elem_of_filter.
  tauto.
Qed.

Lemma partition_of_NoDup db k :
  NoDup (u_id <$> users db) -> NoDup (partition_of db k).
Proof.
  intros Hnd%NoDup_fmap_1. unfold partition_of.
  rewrite merge_sort_Permutation. by do 2 apply NoDup_filter.
Qed.

Lemma partition_of_sorted db k : StronglySorted by_id (partition_of db k).
Proof. apply StronglySorted_merge_sort; apply _. Qed.

Lemma elem_of_users_to_keep db t :
  t ∈ users_to_keep db
  <-> exists i u, t = (u_id u, Z.of_nat (S i))
                  /\ partition_of db (dedup_key u) !! i = Some u.
Proof.
  unfold users_to_keep. rewrite list_elem_of_bind. split.
  - intros (k & (i & u & -> & Hi)%elem_of_lookup_imap & _).
    fold (partition_of db k) in Hi.
    assert (Hk : dedup_key u = k).
    { apply list_elem_of_lookup_2, elem_of_partition_of in Hi. tauto. }
    subst k. eauto.
  - intros (i & u & -> & Hi). exists (dedup_key u). split.
    + apply elem_of_lookup_imap. exists i, u. by split.
    + apply list_elem_of_lookup_2, elem_of_partition_of in Hi
        as (Hu & Hf & _).
      apply elem_of_remove_dups, list_elem_of_fmap_2.
      by apply list_elem_of_filter.
Qed.

Lemma elem_of_duplicate_ids utk db i :
  i ∈ duplicate_ids utk db
  <-> (exists u, u ∈ users db /\ u_id u = i)
      /\ exists n, (i, n) ∈ utk /\ 1 < n.
Proof.
  unfold duplicate_ids. rewrite list_elem_of_bind. split.
  - intros (u & (t & Ht & [[Hid Hn] Hin]%list_elem_of_filter)
              %list_elem_of_bind & Hu).
    apply list_elem_of_singleton in Ht as ->. destruct t as [j n].
    simpl in *. subst j. split; [by exists u | by exists n].
  - intros [(u & Hu & <-) (n & Hn & Hlt)]. exists u. split; [| done].
    apply list_elem_of_bind. exists (u_id u, n).
    split; [by apply list_elem_of_singleton |].
    by apply list_elem_of_filter.
Qed.

(** A user's id is among the duplicates exactly when the user is not a
    fixed account and a user of the same key has a smaller id. *)
Lemma duplicate_ids_spec db u :
  NoDup (u_id <$> users db) -> u ∈ users db ->
  u_id u ∈ duplicate_ids (users_to_keep db) db
  <-> ~ fixed_account u
      /\ exists v, v ∈ users db /\ ~ fixed_account v
                   /\ dedup_key v = dedup_key u /\ u_id v < u_id u.
Proof.
  intros Hnd Hu. rewrite elem_of_duplicate_ids. split.
  - intros [_ (n & (i & w & [= Hid ->] & Hi)%elem_of_users_to_keep & Hn)].
    pose proof (list_elem_of_lookup_2 _ _ _ Hi) as Hw.
    apply elem_of_partition_of in Hw as (Hw & Hfw & _).
    assert (u = w) as <- by (by apply (key_determines u_id (users db))).
    split; [done |].
    destruct i as [|i]; [lia |].
    destruct (partition_of db (dedup_key u)) as [|v0 rest] eqn:Hp; [done |].
    assert (Hv0 : v0 ∈ partition_of db (dedup_key u)) by (rewrite Hp; left).
    apply elem_of_partition_of in Hv0 as (Hv0 & Hf0 & Hk0).
    exists v0. do 3 (split; [done |]).
    assert (Hle : by_id v0 u).
    { pose proof (partition_of_sorted db (dedup_key u)) as Hs.
      rewrite Hp in Hs.
      eapply (UsersFacts.StronglySorted_lookup by_id _ 0 (S i));
        [done | lia | done | done]. }
    assert (Hne : u_id v0 <> u_id u).
    { intros Heq.
      assert (v0 = u) as -> by (by apply (key_determines u_id (users db))).
      pose proof (partition_of_NoDup db (dedup_key u) Hnd) as Hnd'.
      rewrite Hp in Hnd'.
      by pose proof (NoDup_lookup _ 0 (S i) u Hnd' eq_refl Hi). }
    unfold by_id in Hle. lia.
  - intros (Hf & v & Hv & Hfv & Hk & Hlt). split; [by exists u |].
    assert (Hin : u ∈ partition_of db (dedup_key u))
      by (by apply elem_of_partition_of).
    apply list_elem_of_lookup_1 in Hin as [i Hi].
    exists (Z.of_nat (S i)). split.
    { apply elem_of_users_to_keep. by exists i, u. }
    destruct i as [|i]; [| lia]. exfalso.
    assert (Hvin : v ∈ partition_of db (dedup_key u))
      by (by apply elem_of_partition_of).
    apply list_elem_of_lookup_1 in Hvin as [j Hj].
    destruct j as [|j]; [rewrite Hi in Hj; injection Hj as ->; lia |].
    assert (Hle : by_id u v).
    { eapply (UsersFacts.StronglySorted_lookup by_id _ 0 (S j));
        [apply partition_of_sorted | lia | done | done]. }
    unfold by_id in Hle. lia.
Qed.

(** *** Who is kept *)

Lemma not_poor_ids db i :
  i ∉ poor_ids db <-> forall u, u ∈ users db -> u_id u = i -> ~ poor_quality u.
Proof.
  unfold poor_ids. rewrite list_elem_of_fmap. split.
  - intros Hno u Hu Hid Hp. apply Hno. exists u.
    split; [done | by apply list_elem_of_filter].
  - intros Hno (u & -> & [Hp Hu]%list_elem_of_filter). by apply (Hno u).
Qed.

Lemma step1_ids_NoDup db :
  NoDup (u_id <$> users db) -> NoDup (u_id <$> users (step1 db)).
Proof.
  intros Hnd. rewrite users_step1.
  eapply sublist_NoDup; [done | apply fmap_sublist, sublist_filter].
Qed.

(** A user is kept exactly when neither step 1 nor step 2 names it. *)
Lemma kept_iff db u :
  NoDup (u_id <$> users db) -> u ∈ users db ->
  kept db u
  <-> ~ poor_quality u
      /\ u_id u ∉ duplicate_ids (users_to_keep (step1 db)) (step1 db).
Proof.
  intros Hnd Hu. unfold kept. split.
  - intros Hkept.
    assert (Hnp : ~ poor_quality u).
    { destruct Hkept as [Hf | [Hnp _]]; [| done]. intros [Hnf _]. done. }
    split; [done |].
    assert (Hu1 : u ∈ users (step1 db))
      by (rewrite users_step1; by apply list_elem_of_filter).
    rewrite (duplicate_ids_spec (step1 db) u (step1_ids_NoDup db Hnd) Hu1).
    intros (Hnf & v & Hv & Hfv & Hk & Hlt).
    destruct Hkept as [Hf | [_ Hmin]]; [done |].
    rewrite users_step1 in Hv. apply list_elem_of_filter in Hv as [Hpv Hv].
    specialize (Hmin v Hv Hfv Hpv Hk). lia.
  - intros [Hnp Hnd1].
    destruct (decide (fixed_account u)) as [Hf|Hf]; [by left | right].
    split; [done |]. intros v Hv Hfv Hpv Hk.
    destruct (decide (u_id u <= u_id v)) as [|Hgt]; [done |].
    destruct Hnd1.
    assert (Hu1 : u ∈ users (step1 db))
      by (rewrite users_step1; by apply list_elem_of_filter).
    apply (duplicate_ids_spec (step1 db) u (step1_ids_NoDup db Hnd) Hu1).
    split; [done |]. exists v. split.
    { rewrite users_step1. by apply list_elem_of_filter. }
    repeat split; try done. lia.
Qed.

Lemma users_cleanup db :
  users (cleanup db)
  = backfill <$>
      filter (fun u => ~ u_id u ∈ duplicate_ids (users_to_keep (step1 db))
                                                 (step1 db))
             (filter (fun u => ~ poor_quality u) (users db)).
Proof. unfold cleanup. by rewrite users_step3, users_step2, users_step1. Qed.

(** X13.  With user ids as a key, the script keeps a user exactly when
    it is a fixed account, or is not of poor quality and has the least
    id among the users of its (bio, address, phone) key that are neither
    fixed nor of poor quality. *)
Theorem cleanup_keeps db u :
  NoDup (u_id <$> users db) -> u ∈ users db ->
  has_user (cleanup db) (u_id u) <-> kept db u.
Proof.
  intros Hnd Hu. rewrite (kept_iff db u Hnd Hu).
  unfold has_user. rewrite users_cleanup. split.
  - intros (u' & (u2 & -> & [Hd [Hp Hu2]%list_elem_of_filter]
                  %list_elem_of_filter)%list_elem_of_fmap & Hid).
    rewrite (proj1 (backfill_same u2)) in Hid.
    by assert (u2 = u) as -> by (by apply (key_determines u_id (users db))).
  - intros [Hp Hd]. exists (backfill u). split.
    + apply list_elem_of_fmap_2. apply list_elem_of_filter. split; [done |].
      by apply list_elem_of_filter.
    + apply backfill_same.
Qed.

Lemma cleanup_keeps_witness :
  NoDup (u_id <$> users Fixtures.db_cleanup)
  /\ Fixtures.user 2 1000 "dina" ∈ users Fixtures.db_cleanup
  /\ (has_user (cleanup Fixtures.db_cleanup) (u_id (Fixtures.user 2 1000 "dina"))
      <-> kept Fixtures.db_cleanup (Fixtures.user 2 1000 "dina")).
Proof.
  assert (Hids : NoDup (u_id <$> users Fixtures.db_cleanup)).
  { apply (bool_decide_eq_true_1 _). vm_compute. reflexivity. }
  assert (Hin : Fixtures.user 2 1000 "dina" ∈ users Fixtures.db_cleanup).
  { apply list_elem_of_further, list_elem_of_here. }
  split; [exact Hids |]. split; [exact Hin |].
  exact (cleanup_keeps Fixtures.db_cleanup _ Hids Hin).
Defined.

Lemma cleanup_row db u' :
  u' ∈ users (cleanup db) -> exists u, u ∈ users db /\ u' = backfill u.
Proof.
  rewrite users_cleanup.
  intros (u & -> & [_ [_ Hu]%list_elem_of_filter]%list_elem_of_filter)
    %list_elem_of_fmap. eauto.
Qed.

Lemma cleanup_ids_sublist db :
  u_id <$> users (cleanup db) `sublist_of` u_id <$> users db.
Proof.
  rewrite users_cleanup, <- list_fmap_compose.
  rewrite (list_fmap_ext (u_id ∘ backfill) u_id _
             (fun _ u _ => proj1 (backfill_same u))).
  etrans; [apply fmap_sublist, sublist_filter |].
  apply fmap_sublist, sublist_filter.
Qed.

(** X14.  Every row the script leaves is a row of before, unchanged when
    it is a fixed account and otherwise with the default in each NULL
    one of bio, address, phone number and profile document, so that no
    user but a fixed account has any of the four NULL; no row is added
    or comes twice (the ids left are a sub-list of the ids of before),
    and the auth relation is not touched. *)
Theorem cleanup_rows db :
  (forall u', u' ∈ users (cleanup db) ->
     exists u, u ∈ users db /\ u' = backfill u)
  /\ (forall u', u' ∈ users (cleanup db) -> ~ fixed_account u' ->
        is_Some (u_bio u') /\ is_Some (u_address u')
        /\ is_Some (u_phone_number u') /\ is_Some (u_profile_json u'))
  /\ u_id <$> users (cleanup db) `sublist_of` u_id <$> users db
  /\ auth (cleanup db) = auth db.
Proof.
  split; [apply cleanup_row |].
  split; [| split; [apply cleanup_ids_sublist | done]].
  intros u' (u & _ & ->)%cleanup_row Hf.
  assert (Hf' : ~ fixed_account u)
    by (intros H; apply Hf; by apply backfill_same).
  unfold backfill. rewrite decide_False by done. simpl.
  by destruct (u_bio u), (u_address u), (u_phone_number u),
    (u_profile_json u).
Qed.

(** *** Child rows *)

Lemma child_kept db uid :
  NoDup (u_id <$> users db) ->
  ((uid ∉ poor_ids db)
   /\ (uid ∉ duplicate_ids (users_to_keep (step1 db)) (step1 db)))
  <-> forall u, u ∈ users db -> u_id u = uid -> kept db u.
Proof.
  intros Hnd. rewrite not_poor_ids. split.
  - intros [Hp Hd] u Hu Hid. apply (kept_iff db u Hnd Hu).
    split; [by apply Hp | by rewrite Hid].
  - intros Hkept. split.
    + intros u Hu Hid. by apply (kept_iff db u Hnd Hu), Hkept.
    + intros Hin.
      pose proof (proj1 (elem_of_duplicate_ids _ _ _) Hin)
        as [(u & Hu & Hid) _].
      rewrite users_step1 in Hu. apply list_elem_of_filter in Hu as [_ Hu].
      destruct (proj1 (kept_iff db u Hnd Hu) (Hkept u Hu Hid)) as [_ Hd].
      by rewrite Hid in Hd.
Qed.

Lemma auth_cleanup db : auth (cleanup db) = auth db.
Proof. reflexivity. Qed.

Lemma user_logs_cleanup db :
  user_logs (cleanup db)
  = filter (fun l => ul_user_id l
                       ∉ duplicate_ids (users_to_keep (step1 db)) (step1 db))
      (filter (fun l => ul_user_id l ∉ poor_ids db) (user_logs db)).
Proof. reflexivity. Qed.

Lemma user_roles_cleanup db :
  user_roles (cleanup db)
  = filter (fun r => ur_user_id r
                       ∉ duplicate_ids (users_to_keep (step1 db)) (step1 db))
      (filter (fun r => ur_user_id r ∉ poor_ids db) (user_roles db)).
Proof. reflexivity. Qed.

Lemma user_divisions_cleanup db :
  user_divisions (cleanup db)
  = filter (fun d => ud_user_id d
                       ∉ duplicate_ids (users_to_keep (step1 db)) (step1 db))
      (filter (fun d => ud_user_id d ∉ poor_ids db) (user_divisions db)).
Proof. reflexivity. Qed.

(** X15.  With user ids as a key, a log, role or division row stays
    exactly when the script keeps every user it refers to; in
    particular a row that refers to no user stays, and no row is left
    behind that refers to a removed user. *)
Theorem cleanup_child_rows db :
  NoDup (u_id <$> users db) ->
  (forall l, l ∈ user_logs (cleanup db)
     <-> l ∈ user_logs db
         /\ forall u, u ∈ users db -> u_id u = ul_user_id l -> kept db u)
  /\ (forall r, r ∈ user_roles (cleanup db)
        <-> r ∈ user_roles db
            /\ forall u, u ∈ users db -> u_id u = ur_user_id r -> kept db u)
  /\ (forall d, d ∈ user_divisions (cleanup db)
        <-> d ∈ user_divisions db
            /\ forall u, u ∈ users db -> u_id u = ud_user_id d -> kept db u).
Proof.
  intros Hnd. split; [| split].
  - intros l. rewrite user_logs_cleanup, !list_elem_of_filter.
    rewrite <- (child_kept db (ul_user_id l) Hnd). tauto.
  - intros r. rewrite user_roles_cleanup, !list_elem_of_filter.
    rewrite <- (child_kept db (ur_user_id r) Hnd). tauto.
  - intros d. rewrite user_divisions_cleanup, !list_elem_of_filter.
    rewrite <- (child_kept db (ud_user_id d) Hnd). tauto.
Qed.

Lemma cleanup_child_rows_witness :
  NoDup (u_id <$> users Fixtures.db_cleanup)
  /\ (forall l, l ∈ user_logs (cleanup Fixtures.db_cleanup)
        <-> l ∈ user_logs Fixtures.db_cleanup
            /\ forall u, u ∈ users Fixtures.db_cleanup ->
                         u_id u = ul_user_id l -> kept Fixtures.db_cleanup u)
  /\ (forall r, r ∈ user_roles (cleanup Fixtures.db_cleanup)
        <-> r ∈ user_roles Fixtures.db_cleanup
            /\ forall u, u ∈ users Fixtures.db_cleanup ->
                         u_id u = ur_user_id r -> kept Fixtures.db_cleanup u)
  /\ (forall d, d ∈ user_divisions (cleanup Fixtures.db_cleanup)
        <-> d ∈ user_divisions Fixtures.db_cleanup
            /\ forall u, u ∈ users Fixtures.db_cleanup ->
                         u_id u = ud_user_id d -> kept Fixtures.db_cleanup u).
Proof.
  assert (Hids : NoDup (u_id <$> users Fixtures.db_cleanup)).
  { apply (bool_decide_eq_true_1 _). vm_compute. reflexivity. }
  split; [exact Hids |].
  exact (cleanup_child_rows Fixtures.db_cleanup Hids).
Defined.

(** *** The fixed accounts *)

Lemma filter_filter_keep {A} (P Q : A -> Prop)
    `{!forall x, Decision (P x), !forall x, Decision (Q x)} (l : list A) :
  (forall x, x ∈ l -> P x -> Q x) -> filter P (filter Q l) = filter P l.
Proof.
  induction l as [|x l IH]; intros Hkeep; [done |].
  assert (IH' : filter P (filter Q l) = filter P l).
  { apply IH. intros y Hy. apply Hkeep. by right. }
  pose proof (Hkeep x ltac:(left)) as Hx.
  rewrite (filter_cons Q). destruct (decide (Q x)) as [Hq|Hq].
  - rewrite !(filter_cons P). by rewrite IH'.
  - rewrite IH', (filter_cons P). by rewrite decide_False by tauto.
Qed.

Lemma filter_fixed_backfill (l : list users_row) :
  filter fixed_account (backfill <$> l) = filter fixed_account l.
Proof.
  induction l as [|u l IH]; [done |].
  rewrite fmap_cons, !filter_cons, IH.
  destruct (decide (fixed_account u)) as [Hf|Hf].
  - rewrite decide_True by (by apply backfill_same).
    unfold backfill. by rewrite decide_True.
  - rewrite decide_False; [done |]. intros H. by apply Hf, backfill_same.
Qed.

Lemma kept_fixed_owner db uid :
  NoDup (u_id <$> users db) ->
  (exists u, u ∈ users db /\ fixed_account u /\ u_id u = uid) ->
  forall v, v ∈ users db -> u_id v = uid -> kept db v.
Proof.
  intros Hnd (u & Hu & Hf & Hid) v Hv Hidv.
  assert (v = u) as -> by (apply (key_determines u_id (users db)); congruence).
  by left.
Qed.

(** X16.  With user ids as a key, the script leaves the fixed accounts
    as they are, row for row, and keeps every log, role and division row
    of a fixed account. *)
Theorem cleanup_spares_fixed_accounts db :
  NoDup (u_id <$> users db) ->
  filter fixed_account (users (cleanup db)) = filter fixed_account (users db)
  /\ (forall l, l ∈ user_logs db ->
        (exists u, u ∈ users db /\ fixed_account u
                   /\ u_id u = ul_user_id l) ->
        l ∈ user_logs (cleanup db))
  /\ (forall r, r ∈ user_roles db ->
        (exists u, u ∈ users db /\ fixed_account u
                   /\ u_id u = ur_user_id r) ->
        r ∈ user_roles (cleanup db))
  /\ (forall d, d ∈ user_divisions db ->
        (exists u, u ∈ users db /\ fixed_account u
                   /\ u_id u = ud_user_id d) ->
        d ∈ user_divisions (cleanup db)).
Proof.
  intros Hnd. split; [| split; [| split]].
  - rewrite users_cleanup, filter_fixed_backfill.
    rewrite filter_filter_keep.
    + apply filter_filter_keep. intros u _ Hf [Hnf _]. done.
    + intros u [_ Hu]%list_elem_of_filter Hf.
      apply (kept_iff db u Hnd Hu). by left.
  - intros l Hl Hown.
    rewrite user_logs_cleanup, !list_elem_of_filter.
    pose proof (proj2 (child_kept db (ul_user_id l) Hnd)
                  (kept_fixed_owner db _ Hnd Hown)). tauto.
  - intros r Hr Hown.
    rewrite user_roles_cleanup, !list_elem_of_filter.
    pose proof (proj2 (child_kept db (ur_user_id r) Hnd)
                  (kept_fixed_owner db _ Hnd Hown)). tauto.
  - intros d Hd Hown.
    rewrite user_divisions_cleanup, !list_elem_of_filter.
    pose proof (proj2 (child_kept db (ud_user_id d) Hnd)
                  (kept_fixed_owner db _ Hnd Hown)). tauto.
Qed.

Lemma cleanup_spares_fixed_accounts_witness :
  NoDup (u_id <$> users Fixtures.db_cleanup)
  /\ filter fixed_account (users (cleanup Fixtures.db_cleanup))
     = filter fixed_account (users Fixtures.db_cleanup)
  /\ (forall l, l ∈ user_logs Fixtures.db_cleanup ->
        (exists u, u ∈ users Fixtures.db_cleanup /\ fixed_account u
                   /\ u_id u = ul_user_id l) ->
        l ∈ user_logs (cleanup Fixtures.db_cleanup))
  /\ (forall r, r ∈ user_roles Fixtures.db_cleanup ->
        (exists u, u ∈ users Fixtures.db_cleanup /\ fixed_account u
                   /\ u_id u = ur_user_id r) ->
        r ∈ user_roles (cleanup Fixtures.db_cleanup))
  /\ (forall d, d ∈ user_divisions Fixtures.db_cleanup ->
        (exists u, u ∈ users Fixtures.db_cleanup /\ fixed_account u
                   /\ u_id u = ud_user_id d) ->
        d ∈ user_divisions (cleanup Fixtures.db_cleanup)).
Proof.
  assert (Hids : NoDup (u_id <$> users Fixtures.db_cleanup)).
  { apply (bool_decide_eq_true_1 _). vm_compute. reflexivity. }
  split; [exact Hids |].
  exact (cleanup_spares_fixed_accounts Fixtures.db_cleanup Hids).
Defined.

(** *** Running the script again *)

Lemma db_ext (a b : DB) :
  users a = users b -> auth a = auth b -> user_roles a = user_roles b ->
  user_divisions a = user_divisions b -> user_logs a = user_logs b -> a = b.
Proof. destruct a, b. simpl. by intros -> -> -> -> ->. Qed.

Lemma backfill_backfill u : backfill (backfill u) = backfill u.
Proof.
  unfold backfill at 1. destruct (decide (fixed_account (backfill u)))
    as [Hf|Hf]; [done |].
  assert (Hf' : ~ fixed_account u)
    by (intros H; apply Hf; by apply backfill_same).
  unfold backfill. rewrite decide_False by done. simpl.
  by destruct (u_bio u), (u_address u), (u_phone_number u),
    (u_profile_json u).
Qed.

Lemma backfill_not_poor u : ~ poor_quality (backfill u).
Proof.
  intros [Hf Hnull].
  assert (Hf' : ~ fixed_account u)
    by (intros H; apply Hf; by apply backfill_same).
  unfold backfill in Hnull. rewrite decide_False in Hnull by done.
  simpl in Hnull.
  destruct (u_bio u), (u_address u), (u_phone_number u), (u_profile_json u);
    simpl in Hnull; intuition congruence.
Qed.

(** Where no default text was in use, the backfill keeps users of
    different keys apart. *)
Lemma backfill_key u v :
  ~ fixed_account u -> ~ fixed_account v ->
  u_bio u <> Some "No bio provided" ->
  u_address u <> Some "Address not specified" ->
  u_phone_number u <> Some "+62000000000" ->
  u_bio v <> Some "No bio provided" ->
  u_address v <> Some "Address not specified" ->
  u_phone_number v <> Some "+62000000000" ->
  dedup_key (backfill u) = dedup_key (backfill v) ->
  dedup_key u = dedup_key v.
Proof.
  intros Hu Hv Hb1 Ha1 Hp1 Hb2 Ha2 Hp2.
  unfold backfill. rewrite !decide_False by done.
  unfold dedup_key. simpl.
  destruct (u_bio u), (u_address u), (u_phone_number u),
           (u_bio v), (u_address v), (u_phone_number v);
    simpl; intros ?; by simplify_eq.
Qed.

Lemma cleanup_ids_NoDup db :
  NoDup (u_id <$> users db) -> NoDup (u_id <$> users (cleanup db)).
Proof.
  intros Hnd. eapply sublist_NoDup; [done | apply cleanup_ids_sublist].
Qed.

Lemma cleanup_no_duplicates db i :
  NoDup (u_id <$> users db) -> defaults_unused db ->
  i ∉ duplicate_ids (users_to_keep (step1 (cleanup db))) (step1 (cleanup db)).
Proof.
  intros Hnd Hdef Hin.
  pose proof (proj1 (elem_of_duplicate_ids _ _ _) Hin) as [(u' & Hu' & <-) _].
  apply (duplicate_ids_spec (step1 (cleanup db)) u'
           (step1_ids_NoDup _ (cleanup_ids_NoDup db Hnd)) Hu') in Hin
    as (Hfu & v' & Hv' & Hfv & Hk & Hlt).
  rewrite users_step1 in Hu', Hv'.
  apply list_elem_of_filter in Hu' as [_ Hu'].
  apply list_elem_of_filter in Hv' as [_ Hv'].
  rewrite users_cleanup in Hu', Hv'.
  apply list_elem_of_fmap in Hu'
    as (u & -> & [Hdu [Hpu Hu]%list_elem_of_filter]%list_elem_of_filter).
  apply list_elem_of_fmap in Hv'
    as (v & -> & [Hdv [Hpv Hv]%list_elem_of_filter]%list_elem_of_filter).
  assert (Hfu' : ~ fixed_account u)
    by (intros H; apply Hfu; by apply backfill_same).
  assert (Hfv' : ~ fixed_account v)
    by (intros H; apply Hfv; by apply backfill_same).
  rewrite !(proj1 (backfill_same _)) in Hlt.
  destruct (Hdef u Hu Hfu') as (Hb1 & Ha1 & Hp1).
  destruct (Hdef v Hv Hfv') as (Hb2 & Ha2 & Hp2).
  apply backfill_key in Hk; try done.
  apply Hdu.
  assert (Hu1 : u ∈ users (step1 db))
    by (rewrite users_step1; by apply list_elem_of_filter).
  apply (duplicate_ids_spec (step1 db) u (step1_ids_NoDup db Hnd) Hu1).
  split; [done |]. exists v. split.
  { rewrite users_step1. by apply list_elem_of_filter. }
  done.
Qed.

Lemma cleanup_no_poor db i : i ∉ poor_ids (cleanup db).
Proof.
  apply not_poor_ids. intros u Hu _.
  apply cleanup_row in Hu as (u0 & _ & ->). apply backfill_not_poor.
Qed.

(** X17.  With user ids as a key, and where no user but a fixed account
    already holds one of the three default texts, running the script on
    its own result changes nothing. *)
Theorem cleanup_idempotent db :
  NoDup (u_id <$> users db) -> defaults_unused db ->
  cleanup (cleanup db) = cleanup db.
Proof.
  intros Hnd Hdef. apply db_ext.
  - rewrite (users_cleanup (cleanup db)).
    rewrite (filter_all (fun u => ~ poor_quality u)).
    2:{ intros u Hu. apply cleanup_row in Hu as (u0 & _ & ->).
        apply backfill_not_poor. }
    rewrite filter_all by (intros u _; by apply cleanup_no_duplicates).
    apply ProfileProps.fmap_unchanged.
    intros u Hu. apply cleanup_row in Hu as (u0 & _ & ->).
    apply backfill_backfill.
  - by rewrite (auth_cleanup (cleanup db)).
  - rewrite (user_roles_cleanup (cleanup db)).
    rewrite (filter_all (fun r => ur_user_id r ∉ poor_ids (cleanup db)))
      by (intros r _; apply cleanup_no_poor).
    apply ProfileProps.filter_all. intros r _. by apply cleanup_no_duplicates.
  - rewrite (user_divisions_cleanup (cleanup db)).
    rewrite (filter_all (fun d => ud_user_id d ∉ poor_ids (cleanup db)))
      by (intros d _; apply cleanup_no_poor).
    apply ProfileProps.filter_all. intros d _. by apply cleanup_no_duplicates.
  - rewrite (user_logs_cleanup (cleanup db)).
    rewrite (filter_all (fun l => ul_user_id l ∉ poor_ids (cleanup db)))
      by (intros l _; apply cleanup_no_poor).
    apply ProfileProps.filter_all. intros l _. by apply cleanup_no_duplicates.
Qed.

Lemma cleanup_idempotent_witness :
  NoDup (u_id <$> users Fixtures.db_cleanup)
  /\ defaults_unused Fixtures.db_cleanup
  /\ cleanup (cleanup Fixtures.db_cleanup) = cleanup Fixtures.db_cleanup.
Proof.
  assert (Hids : NoDup (u_id <$> users Fixtures.db_cleanup)).
  { apply (bool_decide_eq_true_1 _). vm_compute. reflexivity. }
  assert (Hfree : defaults_unused Fixtures.db_cleanup).
  { intros u Hu _. revert u Hu. apply Forall_forall.
    repeat constructor; simpl; discriminate. }
  split; [exact Hids |]. split; [exact Hfree |].
  exact (cleanup_idempotent Fixtures.db_cleanup Hids Hfree).
Defined.

(** The second hypothesis is needed: a user whose bio is the default
    text of step 3 and who has no address and no phone number shares a
    key with a user of lesser id only after the first run, which filled
    in the two for both; the second run removes it. *)
Lemma cleanup_twice_removes_more :
  exists db,
    NoDup (u_id <$> users db)
    /\ length (users (cleanup db)) = 2%nat
    /\ length (users (cleanup (cleanup db))) = 1%nat.
Proof.
  exists {| users :=
              [ {| u_id := 1; u_auth_id := None; u_username := "dina";
                   u_full_name := "Dina"; u_birth_date := None;
                   u_bio := None; u_long_bio := None;
                   u_profile_json := Some (JObj []);
                   u_address := None; u_phone_number := Some "0811111111";
                   u_created_at := 1000; u_updated_at := 1000 |};
                {| u_id := 2; u_auth_id := None; u_username := "dini";
                   u_full_name := "Dini"; u_birth_date := None;
                   u_bio := Some "No bio provided"; u_long_bio := None;
                   u_profile_json := Some (JObj []);
                   u_address := None; u_phone_number := Some "0811111111";
                   u_created_at := 1000; u_updated_at := 1000 |} ];
            auth := []; user_roles := []; user_divisions := [];
            user_logs := [] |}.
  split; [apply (bool_decide_eq_true_1 _); vm_compute; reflexivity |].
  split; vm_compute; reflexivity.
Qed.

End CleanupProps.

(** ** The pre-push hook *)

Module HookProps.
Import Hook HookSpec.

(** *** The pattern of [grep] *)

Lemma matches_lit_chars (cs l : list ascii) :
  Js.matches
    (foldr (fun c r => Js.Cat (Js.Class (Js.is_char c)) r) Js.Eps cs) l
  <-> l = cs.
Proof.
  revert l. induction cs as [|c cs IH]; intros l; simpl.
  - split; [apply JsFacts.matches_eps_inv | intros ->; constructor].
  - split.
    + intros (l1 & l2 & -> & (x & -> & Hx)%JsFacts.matches_class_inv
              & Hl2%IH)%JsFacts.matches_cat_inv.
      apply JsFacts.is_char_spec in Hx. by subst.
    + intros ->. apply (Js.m_cat _ _ [c] cs).
      * constructor. by apply JsFacts.is_char_spec.
      * by apply IH.
Qed.

Lemma matches_lit s l : Js.matches (lit s) l <-> l = chars s.
Proof. apply matches_lit_chars. Qed.

Lemma matches_any_star l : Js.matches (Js.Star any) l.
Proof. apply JsFacts.matches_star_class. by apply Forall_forall. Qed.

Lemma matches_db_pattern m :
  Js.matches db_pattern m
  <-> m = chars "database-schema.sql"
      \/ m = chars "src/lib/database.ts"
      \/ exists b ext, (ext = ".js" \/ ext = ".sql")
                       /\ m = chars "scripts/" ++ b ++ chars ext.
Proof.
  unfold db_pattern. split.
  - intros [H | H]%JsFacts.matches_alt_inv.
    { left. by apply matches_lit. }
    apply JsFacts.matches_alt_inv in H as [H | H].
    2:{ right. left. by apply matches_lit. }
    right. right.
    apply JsFacts.matches_cat_inv in H as (l1 & r1 & -> & H1%matches_lit & H).
    apply JsFacts.matches_cat_inv in H as (b & r2 & -> & _ & H).
    apply JsFacts.matches_cat_inv in H as (l3 & r3 & -> & H3%matches_lit & H).
    subst l1 l3. exists b.
    apply JsFacts.matches_alt_inv in H as [->%matches_lit | ->%matches_lit].
    + exists ".js". split; [by left | done].
    + exists ".sql". split; [by right | done].
  - intros [-> | [-> | (b & ext & Hext & ->)]].
    + apply Js.m_alt_l. by apply matches_lit.
    + apply Js.m_alt_r, Js.m_alt_r. by apply matches_lit.
    + apply Js.m_alt_r, Js.m_alt_l.
      constructor; [by apply matches_lit |].
      constructor; [apply matches_any_star |].
      destruct Hext as [-> | ->].
      * apply (Js.m_cat _ _ (chars ".") (chars "js")); [by apply matches_lit |].
        apply Js.m_alt_l. by apply matches_lit.
      * apply (Js.m_cat _ _ (chars ".") (chars "sql")); [by apply matches_lit |].
        apply Js.m_alt_r. by apply matches_lit.
Qed.

Lemma search_spec r line :
  Js.RegExp_test (Js.Cat (Js.Star any) (Js.Cat r (Js.Star any))) line = true
  <-> exists a m c, chars line = a ++ m ++ c /\ Js.matches r m.
Proof.
  rewrite JsFacts.RegExp_test_spec. fold (chars line). split.
  - intros (a & rest & -> & _ & (m & c & -> & Hm & _)%JsFacts.matches_cat_inv)
      %JsFacts.matches_cat_inv. eauto.
  - intros (a & m & c & -> & Hm).
    constructor; [apply matches_any_star |].
    constructor; [done | apply matches_any_star].
Qed.

Lemma db_pattern_search line :
  Js.RegExp_test (Js.Cat (Js.Star any) (Js.Cat db_pattern (Js.Star any))) line
    = true
  <-> db_related line.
Proof.
  rewrite search_spec. unfold db_related, contains. split.
  - intros (a & m & c & Hline & [-> | [-> | (b & ext & Hext & ->)]]
              %matches_db_pattern).
    + left. eauto.
    + right. left. eauto.
    + right. right. exists a, b, c, ext. split; [done |].
      by rewrite Hline, <- !app_assoc.
  - intros [(a & c & Hline) | [(a & c & Hline) | (a & b & c & ext & Hext & Hline)]].
    + exists a, (chars "database-schema.sql"), c. split; [done |].
      apply matches_db_pattern. by left.
    + exists a, (chars "src/lib/database.ts"), c. split; [done |].
      apply matches_db_pattern. right. by left.
    + exists a, (chars "scripts/" ++ b ++ chars ext), c.
      split; [by rewrite Hline, <- !app_assoc |].
      apply matches_db_pattern. right. right. eauto.
Qed.

Lemma elem_of_grep_E line lines :
  line ∈ grep_E db_pattern lines <-> line ∈ lines /\ db_related line.
Proof.
  unfold grep_E. rewrite !list_elem_of_In, filter_In.
  by rewrite db_pattern_search.
Qed.

(** X18.  [grep] selects of the staged paths the database-related ones:
    those with [database-schema.sql] or [src/lib/database.ts] in them,
    and those with [scripts/] followed at any distance by [.js] or
    [.sql].  The script sees database changes exactly when a staged
    path is one of them. *)
Theorem check_database_changes_spec e :
  (forall line, line ∈ grep_E db_pattern (staged e)
                <-> line ∈ staged e /\ db_related line)
  /\ (check_database_changes e = true <-> db_changes e).
Proof.
  split; [intros line; apply elem_of_grep_E |].
  unfold check_database_changes, db_changes. split.
  - destruct (grep_E db_pattern (staged e)) as [|line rest] eqn:Hf; [done |].
    intros _. exists line. apply elem_of_grep_E. rewrite Hf.
    apply list_elem_of_here.
  - intros (line & Hin%elem_of_grep_E).
    destruct (grep_E db_pattern (staged e)); [| done].
    by apply elem_of_nil in Hin.
Qed.

(** *** The verdict *)

Lemma db_changes_iff e : check_database_changes e = true <-> db_changes e.
Proof.
  unfold check_database_changes, db_changes.
  destruct (grep_E db_pattern (staged e)) as [|line rest] eqn:Hf.
  - split; [done |]. intros (line & Hin%elem_of_grep_E).
    rewrite Hf in Hin. by apply elem_of_nil in Hin.
  - split; [| done]. intros _. exists line. apply elem_of_grep_E.
    rewrite Hf. apply list_elem_of_here.
Qed.

Lemma validate_environment_spec e :
  validate_environment e = true <-> environment_valid e.
Proof.
  unfold validate_environment, environment_valid.
  rewrite forallb_forall. split; intros H f Hf; apply H.
  - by apply list_elem_of_In.
  - by apply list_elem_of_In.
Qed.

Lemma validate_environment_script e :
  validate_environment e = true ->
  file_exists e "scripts/database-cleanup-pipeline.js" = true.
Proof.
  intros H%validate_environment_spec. apply H.
  unfold required_files. do 2 apply list_elem_of_further.
  apply list_elem_of_here.
Qed.

Lemma main_status e :
  (main e).1 = 0
  <-> validate_environment e = true
      /\ report_ok e = true
      /\ (check_database_changes e = true ->
          (has_command e "node" = true -> node_run_ok e = true)
          /\ (has_command e "npm" = true -> npm_test_ok e = true)).
Proof.
  unfold main, run_database_cleanup, run_tests.
  destruct (validate_environment e), (check_database_changes e),
    (report_ok e), (has_command e "node"), (node_run_ok e),
    (has_command e "npm"), (npm_test_ok e); simpl;
    (split; [intros ? | intros (? & ? & ?)]); try done;
    intuition discriminate.
Qed.

Lemma main_status_range e : (main e).1 = 0 \/ (main e).1 = 1.
Proof.
  unfold main, run_database_cleanup, run_tests.
  destruct (validate_environment e), (check_database_changes e),
    (report_ok e), (has_command e "node"), (node_run_ok e),
    (has_command e "npm"), (npm_test_ok e); simpl; auto.
Qed.

Lemma main_started e :
  (main e).2 =
    if validate_environment e then
      (if check_database_changes e then
         (if file_exists e ".env.local" && has_command e "node"
          then [node_backup] else [])
         ++ (if has_command e "node" then [node_run] else [])
         ++ (if has_command e "npm" then [npm_test] else [])
       else [])
      ++ [write_report]
    else [].
Proof.
  unfold main, create_deployment_backup, check_database_connection,
    run_database_cleanup, run_tests.
  destruct (validate_environment e) eqn:Hv; [| done].
  rewrite (validate_environment_script e Hv).
  destruct (check_database_changes e), (report_ok e),
    (file_exists e ".env.local"), (has_command e "node"), (node_run_ok e),
    (has_command e "npm"), (npm_test_ok e); reflexivity.
Qed.

Lemma pre_push_early e arg : leaves_early arg -> pre_push e arg = (0, []).
Proof.
  unfold pre_push. intros [-> | [-> | ->]]; reflexivity.
Qed.

Lemma pre_push_main e arg : ~ leaves_early arg -> pre_push e arg = main e.
Proof.
  unfold pre_push, leaves_early. intros H.
  destruct (decide (arg = Some "--help" \/ arg = Some "-h")) as [[?|?]|_];
    [tauto | tauto |].
  destruct (decide (arg = Some "--skip-cleanup")); [tauto | done].
Qed.

Lemma leaves_early_dec arg : leaves_early arg \/ ~ leaves_early arg.
Proof.
  unfold leaves_early.
  destruct (decide (arg = Some "--help")); [tauto |].
  destruct (decide (arg = Some "-h")); [tauto |].
  destruct (decide (arg = Some "--skip-cleanup")); tauto.
Qed.

(** X19.  The hook lets the push through (status 0; otherwise the status
    is 1) exactly when it was called with [--help], [-h] or
    [--skip-cleanup], or the three required files exist, the report
    could be written and, if a staged path is database-related, the
    cleanup succeeded unless [node] is missing and the tests passed
    unless [npm] is missing.  Neither the backup nor [.env.local] has a
    say. *)
Theorem pre_push_verdict e arg :
  ((pre_push e arg).1 = 0
   <-> leaves_early arg
       \/ (environment_valid e
           /\ report_ok e = true
           /\ (db_changes e ->
               (has_command e "node" = true -> node_run_ok e = true)
               /\ (has_command e "npm" = true -> npm_test_ok e = true))))
  /\ ((pre_push e arg).1 = 0 \/ (pre_push e arg).1 = 1).
Proof.
  rewrite <- validate_environment_spec, <- db_changes_iff.
  destruct (leaves_early_dec arg) as [Hearly | Hmain].
  - rewrite (pre_push_early e arg Hearly). simpl. tauto.
  - rewrite (pre_push_main e arg Hmain).
    split; [rewrite main_status; tauto | apply main_status_range].
Qed.

(** X20.  What the hook starts, and when.  With [--help], [-h] or
    [--skip-cleanup], or with a required file missing, nothing.
    Otherwise the report is always written; with a database-related
    staged path, before it: the backup when [.env.local] exists and
    [node] is there, then the cleanup when [node] is there, then the
    tests when [npm] is there, the tests also after a failed cleanup.
    Each is started at most once and in this order. *)
Theorem pre_push_starts e arg :
  let t := (pre_push e arg).2 in
  let runs := ~ leaves_early arg /\ environment_valid e in
  (write_report ∈ t <-> runs)
  /\ (node_backup ∈ t
      <-> runs /\ db_changes e /\ file_exists e ".env.local" = true
          /\ has_command e "node" = true)
  /\ (node_run ∈ t <-> runs /\ db_changes e /\ has_command e "node" = true)
  /\ (npm_test ∈ t <-> runs /\ db_changes e /\ has_command e "npm" = true)
  /\ sublist t steps.
Proof.
  simpl. rewrite <- validate_environment_spec, <- db_changes_iff.
  destruct (leaves_early_dec arg) as [Hearly | Hmain].
  - rewrite (pre_push_early e arg Hearly). simpl.
    rewrite !elem_of_nil. split_and!; [tauto .. | apply sublist_nil_l].
  - rewrite (pre_push_main e arg Hmain), main_started. unfold steps.
    destruct (validate_environment e), (check_database_changes e),
      (file_exists e ".env.local"), (has_command e "node"),
      (has_command e "npm"); simpl;
      (split_and!;
       [ rewrite ?elem_of_cons, ?elem_of_nil; intuition discriminate ..
       | repeat first [apply sublist_nil_l | apply sublist_skip
                      | apply sublist_cons] ]).
Qed.

End HookProps.
